(** * build_temp_cache.py: a shallow embedding and its verification

    The script reads a station list out of [multi_state_stations.js],
    asks the USGS daily-values service for one temperature series per
    eligible station, and writes the series into
    [multi_state_temp_cache.js].

    The embedding keeps the data the way the script has it: decoded JSON
    values (the objects [json.loads] returns), Python strings as lists of
    code points, Python floats as binary64 numbers, Python exceptions as
    an error result.  The remote service is an oracle that answers each
    request of the run. *)

From Stdlib Require Import Ascii String.
From Stdlib Require Import List ZArith NArith Bool Lia.
From Stdlib Require DecimalFacts DecimalPos.
From Stdlib Require Strings.Byte.
From Stdlib Require Import PrimFloat FloatOps SpecFloat FloatAxioms.
Import ListNotations.

Set Warnings "-register-all".
Local Open Scope string_scope.
Local Open Scope bool_scope.
Local Open Scope list_scope.

(** ** Python strings *)

Module PyStr.

(** A [str] is a sequence of Unicode code points. *)
Definition pystr := list N.

(** String literals of the script (all of them are ASCII). *)
Definition str (s : string) : pystr :=
  map N_of_ascii (list_ascii_of_string s).

Fixpoint eqb (a b : pystr) : bool :=
  match a, b with
  | [], [] => true
  | x :: a', y :: b' => N.eqb x y && eqb a' b'
  | _, _ => false
  end.

(** [a.startswith(b)] *)
Fixpoint startswith (a b : pystr) : bool :=
  match b, a with
  | [], _ => true
  | y :: b', x :: a' => N.eqb x y && startswith a' b'
  | _ :: _, [] => false
  end.

(** [text.find(sub)]: the lowest index at which [sub] occurs, [None]
    for Python's [-1]. *)
Fixpoint find (text sub : pystr) : option nat :=
  if startswith text sub then Some 0
  else match text with
       | [] => None
       | _ :: text' => option_map S (find text' sub)
       end.

(** [c.isspace()], the characters [str.strip()] removes: the code points
    whose bidirectional class is WS, B or S or whose category is Zs. *)
Definition isspace (c : N) : bool :=
  ((9 <=? c) && (c <=? 13) || (28 <=? c) && (c <=? 32)
   || (c =? 133) || (c =? 160) || (c =? 5760)
   || (8192 <=? c) && (c <=? 8202)
   || (c =? 8232) || (c =? 8233) || (c =? 8239) || (c =? 8287)
   || (c =? 12288))%N.

Fixpoint lstrip (s : pystr) : pystr :=
  match s with
  | c :: s' => if isspace c then lstrip s' else s
  | [] => []
  end.

Definition rstrip (s : pystr) : pystr := rev (lstrip (rev s)).

(** [s.strip()] *)
Definition strip (s : pystr) : pystr := rstrip (lstrip s).

(** [s.endswith(t)] *)
Definition endswith (s t : pystr) : bool := startswith (rev s) (rev t).

(** [s[:-1]] *)
Definition drop_last (s : pystr) : pystr := removelast s.

End PyStr.
Export PyStr(pystr, str).
Coercion str : string >-> pystr.
Arguments str s : simpl never.

(** ** Exceptions and results *)

Inductive exn : Type :=
| AttributeError
| TypeError
| KeyError
| IndexError
| ValueError
| OverflowError
| RuntimeError (msg : pystr)
| JSONDecodeError
| UnicodeDecodeError
| URLError (reason : pystr)
| HTTPError (code : Z).

Inductive result (A : Type) : Type :=
| Ok (a : A)
| Raise (e : exn).
Arguments Ok {A} a.
Arguments Raise {A} e.

Definition bind {A B} (r : result A) (k : A -> result B) : result B :=
  match r with
  | Ok a => k a
  | Raise e => Raise e
  end.

Declare Scope py_scope.
Delimit Scope py_scope with py.
Notation "x <- r ;; k" := (bind r (fun x => k))
  (at level 61, r at next level, right associativity) : py_scope.
Notation "' p <- r ;; k" := (bind r (fun x => let 'p := x in k))
  (at level 61, p pattern, r at next level, right associativity) : py_scope.
Local Open Scope py_scope.

(** ** Decoded JSON *)

Inductive json : Type :=
| JNull
| JBool (b : bool)
| JInt (z : Z)
| JFloat (f : float)
| JStr (s : pystr)
| JList (l : list json)
| JObj (o : list (pystr * json)).

(** Induction on a JSON value, with the hypothesis for every item of a
    list and every member of an object. *)
Fixpoint json_nested_ind (P : json -> Prop)
  (Hnull : P JNull) (Hbool : forall b, P (JBool b))
  (Hint : forall z, P (JInt z)) (Hfloat : forall x, P (JFloat x))
  (Hstr : forall s, P (JStr s))
  (Hlist : forall l, Forall P l -> P (JList l))
  (Hobj : forall o, Forall (fun kv => P (snd kv)) o -> P (JObj o))
  (v : json) {struct v} : P v :=
  match v with
  | JNull => Hnull
  | JBool b => Hbool b
  | JInt z => Hint z
  | JFloat x => Hfloat x
  | JStr s => Hstr s
  | JList l =>
      Hlist l
        ((fix all (l : list json) : Forall P l :=
            match l with
            | [] => Forall_nil P
            | x :: l' =>
                Forall_cons x
                  (json_nested_ind P Hnull Hbool Hint Hfloat Hstr Hlist Hobj x)
                  (all l')
            end) l)
  | JObj o =>
      Hobj o
        ((fix all (o : list (pystr * json))
            : Forall (fun kv => P (snd kv)) o :=
            match o with
            | [] => Forall_nil _
            | kv :: o' =>
                Forall_cons kv
                  (json_nested_ind P Hnull Hbool Hint Hfloat Hstr Hlist Hobj
                                   (snd kv))
                  (all o')
            end) o)
  end.

Module Py.

(** [bool(x)] *)
Definition truthy (x : json) : bool :=
  match x with
  | JNull => false
  | JBool b => b
  | JInt z => negb (z =? 0)%Z
  | JFloat f => negb (f =? 0)%float
  | JStr s => match s with [] => false | _ => true end
  | JList l => match l with [] => false | _ => true end
  | JObj o => match o with [] => false | _ => true end
  end.

(** [x is None] *)
Definition is_none (x : json) : bool :=
  match x with JNull => true | _ => false end.

(** [a or b] *)
Definition or (a b : json) : json := if truthy a then a else b.

Fixpoint lookup (o : list (pystr * json)) (k : pystr) : option json :=
  match o with
  | [] => None
  | (k', v) :: o' => if PyStr.eqb k' k then Some v else lookup o' k
  end.

(** [x.get(k, default)]: only a dict has the method. *)
Definition get (x : json) (k : pystr) (default : json) : result json :=
  match x with
  | JObj o => Ok (match lookup o k with Some v => v | None => default end)
  | _ => Raise AttributeError
  end.

(** [x[0]] *)
Definition item0 (x : json) : result json :=
  match x with
  | JList (y :: _) => Ok y
  | JStr (c :: _) => Ok (JStr [c])
  | JList [] | JStr [] => Raise IndexError
  | JObj _ => Raise KeyError
  | _ => Raise TypeError
  end.

(** [x[k]] for a string [k] *)
Definition item (x : json) (k : pystr) : result json :=
  match x with
  | JObj o => match lookup o k with Some v => Ok v | None => Raise KeyError end
  | _ => Raise TypeError
  end.

(** [for v in x]: the values the loop visits. *)
Definition iter (x : json) : result (list json) :=
  match x with
  | JList l => Ok l
  | JStr s => Ok (map (fun c => JStr [c]) s)
  | JObj o => Ok (map (fun kv => JStr (fst kv)) o)
  | _ => Raise TypeError
  end.

(** [x[:10]].  Slicing a dict raises [TypeError] before Python 3.12 and
    [KeyError] from 3.12 on; [main] catches both alike. *)
Definition slice10 (x : json) : result json :=
  match x with
  | JStr s => Ok (JStr (firstn 10 s))
  | JList l => Ok (JList (firstn 10 l))
  | _ => Raise TypeError
  end.

(** [float(z)] for an int: nearest binary64, [OverflowError] when the
    integer is too large. *)
Definition float_of_int (z : Z) : result float :=
  match binary_normalize prec emax z 0 false with
  | S754_infinity _ => Raise OverflowError
  | sf => Ok (SF2Prim sf)
  end.

End Py.

(** ** [float] of a string *)

Module PyFloat.

Definition is_digit (c : N) : bool := ((48 <=? c) && (c <=? 57))%N.

(** ASCII lower case. *)
Definition lower (c : N) : N :=
  if ((65 <=? c) && (c <=? 90))%N then (c + 32)%N else c.

(** Underscores are dropped when each one stands between two digits;
    [prev] is the character before [s]. *)
Fixpoint drop_underscores (prev : N) (s : pystr) : option pystr :=
  match s with
  | [] => if (prev =? 95)%N then None else Some []
  | c :: s' =>
      if (c =? 95)%N then
        if is_digit prev then drop_underscores c s' else None
      else if (prev =? 95)%N && negb (is_digit c) then None
      else option_map (cons c) (drop_underscores c s')
  end.

(** The leading digits of [s], as a number with its digit count, and
    what follows them. *)
Fixpoint digits (acc : N) (n : nat) (s : pystr) : N * nat * pystr :=
  match s with
  | c :: s' =>
      if is_digit c then digits (10 * acc + (c - 48)) (S n) s'
      else (acc, n, s)
  | [] => (acc, n, [])
  end.

Definition sign (s : pystr) : bool * pystr :=
  match s with
  | 45%N :: s' => (true, s')
  | 43%N :: s' => (false, s')
  | _ => (false, s)
  end.

(** The binary64 number nearest to [(-1)^neg * m * 10^e], ties to even.
    Beyond [10^310] it is an infinity and below [10^-330] a zero, which
    the first two tests settle without the power of ten. *)
Definition nearest (neg : bool) (m : N) (e : Z) : float :=
  match m with
  | N0 => if neg then neg_zero else zero
  | Npos p =>
      if (310 <=? e)%Z then (if neg then neg_infinity else infinity)
      else if (e + Z.log2 (Zpos p) / 3 + 1 <=? -330)%Z then
        (if neg then neg_zero else zero)
      else
        SF2Prim
          (if (0 <=? e)%Z then
             binary_round prec emax neg (p * Z.to_pos (10 ^ e)) 0
           else
             let '(q, e', l) :=
               SFdiv_core_binary prec emax (Zpos p) 0 (10 ^ (- e)) 0 in
             binary_round_aux prec emax neg q e' l)
  end.

(** The exponent part: nothing, or [e], an optional sign and digits. *)
Definition exponent (s : pystr) : option Z :=
  match s with
  | [] => Some 0%Z
  | c :: s' =>
      if (lower c =? 101)%N then
        let (neg, s'') := sign s' in
        match digits 0 0 s'' with
        | (v, S _, []) => Some (if neg then (- Z.of_N v)%Z else Z.of_N v)
        | _ => None
        end
      else None
  end.

(** The white space of C, which the conversion strips: the tab, the
    line feed, the vertical tab, the form feed, the carriage return and
    the space. *)
Definition is_space (c : N) : bool :=
  ((9 <=? c) && (c <=? 13) || (c =? 32))%N.

(** The digit zero of every script with decimal digits other than ASCII
    (Unicode 14); the nine code points after each zero are the digits 1
    to 9 of the script. *)
Definition digit_zeros : list N :=
  [1632; 1776; 1984; 2406; 2534; 2662; 2790; 2918; 3046; 3174; 3302; 3430;
   3558; 3664; 3792; 3872; 4160; 4240; 6112; 6160; 6470; 6608; 6784; 6800;
   6992; 7088; 7232; 7248; 42528; 43216; 43264; 43472; 43504; 43600; 44016;
   65296; 66720; 68912; 69734; 69872; 69942; 70096; 70384; 70736; 70864;
   71248; 71360; 71472; 71904; 72016; 72784; 73040; 73120; 92768; 92864;
   93008; 120782; 120792; 120802; 120812; 120822; 123200; 123632; 125264;
   130032]%N.

(** The value of a decimal digit that is not ASCII. *)
Definition decimal (c : N) : option N :=
  match List.find (fun z => (z <=? c) && (c <? z + 10))%N digit_zeros with
  | Some z => Some (c - z)%N
  | None => None
  end.

(** What [float] makes of a string that is not ASCII before it parses
    it: white space becomes a space and a decimal digit its ASCII digit;
    at any other character from [DEL] on the text ends with a question
    mark. *)
Fixpoint to_ascii (s : pystr) : pystr :=
  match s with
  | [] => []
  | c :: s' =>
      if (c <? 127)%N then c :: to_ascii s'
      else if PyStr.isspace c then 32%N :: to_ascii s'
      else
        match decimal c with
        | Some d => (48 + d)%N :: to_ascii s'
        | None => [63%N]
        end
  end.

Fixpoint lstrip (s : pystr) : pystr :=
  match s with
  | c :: s' => if is_space c then lstrip s' else s
  | [] => []
  end.

Definition strip (s : pystr) : pystr := rev (lstrip (rev (lstrip s))).

(** [float(s)] for a string: a string that is not ASCII is brought to
    ASCII, surrounding white space and grouping underscores are removed,
    then comes a sign and [inf], [infinity], [nan] or a decimal literal
    with an optional exponent.  [None] is [ValueError]. *)
Definition of_str (s : pystr) : option float :=
  let s0 := if forallb (fun c => (c <? 128)%N) s then s else to_ascii s in
  match drop_underscores 0 (strip s0) with
  | None => None
  | Some s1 =>
      let (neg, s2) := sign s1 in
      let word := map lower s2 in
      if PyStr.eqb word "inf" || PyStr.eqb word "infinity" then
        Some (if neg then neg_infinity else infinity)
      else if PyStr.eqb word "nan" then Some nan
      else
        let '(ip, ni, s3) := digits 0 0 s2 in
        let '(m, nf, s4) :=
          match s3 with
          | 46%N :: s3' =>
              let '(m, n, s4) := digits ip 0 s3' in (m, n, s4)
          | _ => (ip, 0, s3)
          end in
        match ni + nf with
        | 0 => None
        | _ =>
            match exponent s4 with
            | Some e => Some (nearest neg m (e - Z.of_nat nf))
            | None => None
            end
        end
  end.

(** The digits of a positive number, the most significant first. *)
Definition digits_of (z : Z) : pystr :=
  match Z.to_int z with
  | Decimal.Pos u | Decimal.Neg u =>
      (fix chars (u : Decimal.uint) : pystr :=
         match u with
         | Decimal.Nil => []
         | Decimal.D0 u' => 48%N :: chars u'
         | Decimal.D1 u' => 49%N :: chars u'
         | Decimal.D2 u' => 50%N :: chars u'
         | Decimal.D3 u' => 51%N :: chars u'
         | Decimal.D4 u' => 52%N :: chars u'
         | Decimal.D5 u' => 53%N :: chars u'
         | Decimal.D6 u' => 54%N :: chars u'
         | Decimal.D7 u' => 55%N :: chars u'
         | Decimal.D8 u' => 56%N :: chars u'
         | Decimal.D9 u' => 57%N :: chars u'
         end) u
  end.

(** [num / den] scaled by [10^s], as a quotient and a remainder over the
    returned divisor. *)
Definition scaled (num den s : Z) : Z * Z * Z :=
  let n := if (0 <=? s)%Z then (num * 10 ^ s)%Z else num in
  let d := if (0 <=? s)%Z then den else (den * 10 ^ (- s))%Z in
  (n / d, n mod d, d)%Z.

(** The decimal exponent [p] of [num / den]: [10^p <= num / den < 10^(p+1)],
    looked for around the estimate the binary lengths give. *)
Definition exponent10 (num den : Z) : Z :=
  let p0 := ((Z.log2 num - Z.log2 den) * 30103 / 100000 - 2)%Z in
  let fits (p : Z) : bool :=
    let '(q, _, _) := scaled num den (- p) in (1 <=? q)%Z && (q <? 10)%Z in
  (fix look (n : nat) (p : Z) : Z :=
     match n with
     | O => p
     | S n' => if fits p then p else look n' (p + 1)%Z
     end) 6 p0.

(** The shortest digit string that [float] reads back as [x = m * 2^e],
    the nearest to [x] when there are two, and the position of the
    decimal point after its first digit. *)
Definition shortest (x : float) (m : positive) (e : Z) : Z * Z :=
  let num := if (0 <=? e)%Z then (Zpos m * 2 ^ e)%Z else Zpos m in
  let den := if (0 <=? e)%Z then 1%Z else (2 ^ (- e))%Z in
  let p := exponent10 num den in
  let reads (d s : Z) : bool := (nearest false (Z.to_N d) (- s) =? abs x)%float in
  (fix try (n : nat) (k : Z) : Z * Z :=
     let s := (k - 1 - p)%Z in
     let '(q, r, d) := scaled num den s in
     let lo := reads q s in
     let hi := negb (r =? 0)%Z && reads (q + 1)%Z s in
     let pick :=
       if lo && hi then
         match (2 * r ?= d)%Z with
         | Lt => q
         | Gt => (q + 1)%Z
         | Eq => if Z.even q then q else (q + 1)%Z
         end
       else if lo then q else (q + 1)%Z in
     match n with
     | O => (q, p)
     | S n' =>
         if lo || hi then
           if (pick =? 10 ^ k)%Z then (1%Z, (p + 1)%Z) else (pick, p)
         else try n' (k + 1)%Z
     end) 17 1%Z.

Definition zeros (n : Z) : pystr := repeat 48%N (Z.to_nat n).

(** [float.__repr__(x)]: the shortest digits, written with an exponent
    when the decimal point would stand more than 16 places to the right
    of the first digit or more than four places to its left. *)
Definition repr (x : float) : pystr :=
  match Prim2SF x with
  | S754_nan => "nan"
  | S754_infinity s => if s then "-inf" else "inf"
  | S754_zero s => if s then "-0.0" else "0.0"
  | S754_finite s m e =>
      let (d, p) := shortest x m e in
      let ds := digits_of d in
      let k := Z.of_nat (length ds) in
      let decpt := (p + 1)%Z in
      (if s then [45%N] else [])
      ++ (if (decpt <=? -4)%Z || (16 <? decpt)%Z then
            firstn 1 ds
            ++ (match skipn 1 ds with [] => [] | t => 46%N :: t end)
            ++ [101%N; if (0 <=? p)%Z then 43%N else 45%N]
            ++ (if (Z.abs p <? 10)%Z then [48%N] else [])
            ++ digits_of (Z.abs p)
          else if (decpt <=? 0)%Z then
            str "0." ++ zeros (- decpt) ++ ds
          else if (k <=? decpt)%Z then
            ds ++ zeros (decpt - k) ++ str ".0"
          else
            firstn (Z.to_nat decpt) ds ++ 46%N :: skipn (Z.to_nat decpt) ds)
  end.

End PyFloat.

(** ** The remote service *)

(** What [fetch_dv] interpolates into the query string. *)
Record request : Type := Request {
  req_site : json;
  req_start : json;
  req_end : json
}.

(** Lines 38-39, [urlopen(url)], [resp.read().decode("utf-8")] and
    [json.loads]: either one of them raises, or the body decodes to a
    JSON value. *)
Inductive response : Type :=
| Fails (e : exn)
| Body (data : json).

(** The service answers the [n]-th request of a run. *)
Definition service := nat -> request -> response.

(** ** The fetcher *)

Section Fetcher.

(** [float(s)] for a string: [None] is Python's [ValueError]. *)
Variable float_of_str : pystr -> option float.

(** [float(val)] *)
Definition py_float (val : json) : result float :=
  match val with
  | JStr s => match float_of_str s with
              | Some x => Ok x
              | None => Raise ValueError
              end
  | JInt z => Py.float_of_int z
  | JBool b => Ok (if b then 1 else 0)%float
  | JFloat f => Ok f
  | JNull | JList _ | JObj _ => Raise TypeError
  end.

(** [val in (None, empty, " ")]: the value is [None], the empty string
    or one blank. *)
Definition blank (val : json) : bool :=
  match val with
  | JNull => true
  | JStr s => PyStr.eqb s [] || PyStr.eqb s " "
  | _ => false
  end.

(** [dt = v.get("dateTime", empty); dt[:10]], with the empty string as
    the default. *)
Definition label_of (v : json) : result json :=
  dt <- Py.get v "dateTime" (JStr []) ;;
  Py.slice10 dt.

(** The loop of lines 47-58 over the observations still to visit, with
    the two lists built so far. *)
Fixpoint dv_loop (vals : list json) (labels : list json) (temps : list float)
  : result (list json * list float) :=
  match vals with
  | [] => Ok (labels, temps)
  | v :: vals' =>
      if negb (Py.truthy v) then dv_loop vals' labels temps
      else
        val <- Py.get v "value" JNull ;;
        if blank val then dv_loop vals' labels temps
        else
          lbl <- label_of v ;;
          let labels := labels ++ [lbl] in
          match py_float val with
          | Ok x => dv_loop vals' labels (temps ++ [x])
          | Raise ValueError => dv_loop vals' labels temps
          | Raise e => Raise e
          end
  end.

(** Lines 41-60: what [fetch_dv] does with the decoded body. *)
Definition extract_dv (data : json) : result (list json * list float) :=
  value <- Py.get data "value" JNull ;;
  ts <- Py.get (Py.or value (JObj [])) "timeSeries" JNull ;;
  let ts_arr := Py.or ts (JList []) in
  if negb (Py.truthy ts_arr) then Ok ([], [])
  else
    ts0 <- Py.item0 ts_arr ;;
    values <- Py.get ts0 "values" JNull ;;
    if negb (Py.truthy values) then Ok ([], [])
    else
      values' <- Py.item ts0 "values" ;;
      values0 <- Py.item0 values' ;;
      inner <- Py.get values0 "value" JNull ;;
      vals <- Py.iter (Py.or inner (JList [])) ;;
      dv_loop vals [] [].

(** [fetch_dv(site_no, start, end)], as the [n]-th request of the run. *)
Definition fetch_dv (net : service) (n : nat) (site_no start end_ : json)
  : result (list json * list float) :=
  match net n (Request site_no start end_) with
  | Fails e => Raise e
  | Body data => extract_dv data
  end.

End Fetcher.

(** ** Dictionary keys *)

Module Key.

(** Lists and dicts are unhashable. *)
Definition hashable (k : json) : bool :=
  match k with
  | JList _ | JObj _ => false
  | _ => true
  end.

(** [z == f] for an int and a float: Python compares the exact values. *)
Definition int_float_eqb (z : Z) (f : float) : bool :=
  match Prim2SF f with
  | S754_zero _ => (z =? 0)%Z
  | S754_finite sgn m e =>
      let mz := if sgn then Zneg m else Zpos m in
      if (0 <=? e)%Z then (z =? mz * 2 ^ e)%Z
      else (z * 2 ^ (- e) =? mz)%Z
  | S754_infinity _ | S754_nan => false
  end.

Definition int_of_bool (b : bool) : Z := if b then 1%Z else 0%Z.

(** Whether two values are the same dictionary key or the same list
    member: identity, or [==] (with equal hashes).  Strings compare by
    content; [bool], [int] and [float] compare by numeric value;
    [json.loads] returns one shared object for every [NaN]. *)
Definition eqb (a b : json) : bool :=
  match a, b with
  | JNull, JNull => true
  | JStr s, JStr t => PyStr.eqb s t
  | JBool x, JBool y => Bool.eqb x y
  | JBool x, JInt z | JInt z, JBool x => (int_of_bool x =? z)%Z
  | JBool x, JFloat f | JFloat f, JBool x => int_float_eqb (int_of_bool x) f
  | JInt x, JInt y => (x =? y)%Z
  | JInt z, JFloat f | JFloat f, JInt z => int_float_eqb z f
  | JFloat f, JFloat g => (f =? g)%float || (is_nan f && is_nan g)
  | _, _ => false
  end.

End Key.

(** ** The orchestrator *)

(** The value stored per station, [{"labels": labels, "temps": temps}]. *)
Record series : Type := Series {
  labels : list json;
  temps : list float
}.

(** The lines [main] prints to [sys.stderr]. *)
Inductive log_line : Type :=
| LogFetching (site start end_ : json)
| LogError (site : json) (e : exn)
| LogWrote (n_cache n_no_dv : nat).

(** The variables of [main], and the number of requests sent so far. *)
Record state : Type := State {
  cache : list (json * series);
  no_dv : list json;
  log : list log_line;
  calls : nat
}.

Definition init : state := State [] [] [] 0.

(** The keys of a dict, in insertion order. *)
Definition keys (d : list (json * series)) : list json := map fst d.

(** [d[k] = v] on the entries of a dict: the value under an equal key is
    replaced in place, a new key goes to the end. *)
Fixpoint store (d : list (json * series)) (k : json) (v : series)
  : list (json * series) :=
  match d with
  | [] => [(k, v)]
  | (k', v') :: d' =>
      if Key.eqb k' k then (k', v) :: d' else (k', v') :: store d' k v
  end.

Definition setitem (d : list (json * series)) (k : json) (v : series)
  : result (list (json * series)) :=
  if Key.hashable k then Ok (store d k v) else Raise TypeError.

Section Orchestrator.

Variable float_of_str : pystr -> option float.
Variable net : service.

(** The body of the [for s in stations] loop, lines 69-95.  An exception
    that leaves it ends the run. *)
Definition visit (st : state) (s : json) : result state :=
  site <- Py.get s "site_no" JNull ;;
  if negb (Py.truthy site) then Ok st
  else
    temp_begin <- Py.get s "temp_begin" JNull ;;
    temp_end <- Py.get s "temp_end" JNull ;;
    if negb (Py.truthy temp_begin) || negb (Py.truthy temp_end) then Ok st
    else
      lat <- Py.get s "lat" JNull ;;
      lon <- Py.get s "lon" JNull ;;
      if Py.is_none lat || Py.is_none lon then Ok st
      else
        start <- Py.get s "temp_begin" JNull ;;
        end_ <- Py.get s "temp_end" JNull ;;
        if negb (Py.truthy start) || negb (Py.truthy end_) then Ok st
        else
          let log1 := log st ++ [LogFetching site start end_] in
          match fetch_dv float_of_str net (calls st) site start end_ with
          | Raise e =>
              Ok (State (cache st) (no_dv st)
                        (log1 ++ [LogError site e]) (S (calls st)))
          | Ok (labels, temps) =>
              match labels with
              | _ :: _ =>
                  cache' <- setitem (cache st) site (Series labels temps) ;;
                  Ok (State cache' (no_dv st) log1 (S (calls st)))
              | [] =>
                  Ok (State (cache st) (no_dv st ++ [site]) log1
                            (S (calls st)))
              end
          end.

(** The loop over the stations still to visit. *)
Fixpoint visit_all (st : state) (stations : list json) : result state :=
  match stations with
  | [] => Ok st
  | s :: stations' =>
      st' <- visit st s ;;
      visit_all st' stations'
  end.

End Orchestrator.

(** ** The loader *)

Definition STATIONS_JS : pystr := "multi_state_stations.js".
Definition OUT_JS : pystr := "multi_state_temp_cache.js".

Section Loader.

(** [json.loads(s)]: [None] when it raises. *)
Variable json_loads : pystr -> option json.

Definition prefix : pystr := "var stationData =".

(** Lines 21-23: the text handed to [json.loads]. *)
Definition literal_after (text : pystr) (idx : nat) : pystr :=
  let s := PyStr.strip (skipn (idx + length prefix) text) in
  if PyStr.endswith s ";" then PyStr.strip (PyStr.drop_last s) else s.

(** [load_stations()], given the text read from [STATIONS_JS]. *)
Definition load_stations (text : pystr) : result json :=
  match PyStr.find text prefix with
  | None =>
      Raise (RuntimeError (str "Could not find 'var stationData =' in "
                             ++ STATIONS_JS))
  | Some idx =>
      match json_loads (literal_after text idx) with
      | Some stations => Ok stations
      | None => Raise JSONDecodeError
      end
  end.

End Loader.


(** ** JSON text *)

(** [json.loads] and [json.dump] of the standard library, as the script
    calls them: the default decoder (strict strings, [NaN] and [Infinity]
    accepted, the last of two equal keys wins) and the encoder with
    [ensure_ascii] and the compact separators. *)
Module Json.

Section Codec.

(** [float(s)] and [float.__repr__(x)] of the runtime. *)
Variable float_of_str : pystr -> option float.
Variable float_repr : float -> pystr.

(** *** Decoding *)

Definition is_ws (c : N) : bool :=
  ((c =? 32) || (c =? 9) || (c =? 10) || (c =? 13))%N.

Fixpoint skip_ws (s : pystr) : pystr :=
  match s with
  | c :: s' => if is_ws c then skip_ws s' else s
  | [] => []
  end.

Definition is_digit (c : N) : bool := ((48 <=? c) && (c <=? 57))%N.

Definition hex_val (c : N) : option N :=
  if is_digit c then Some (c - 48)%N
  else if ((97 <=? c) && (c <=? 102))%N then Some (c - 87)%N
  else if ((65 <=? c) && (c <=? 70))%N then Some (c - 55)%N
  else None.

(** The four hex digits of a [\uXXXX] escape. *)
Definition hex4 (a b c d : N) : option N :=
  match hex_val a, hex_val b, hex_val c, hex_val d with
  | Some x, Some y, Some z, Some w => Some (((x * 16 + y) * 16 + z) * 16 + w)%N
  | _, _, _, _ => None
  end.

Definition is_high (c : N) : bool := ((55296 <=? c) && (c <=? 56319))%N.
Definition is_low (c : N) : bool := ((56320 <=? c) && (c <=? 57343))%N.

Definition join_surrogates (hi lo : N) : N :=
  (65536 + (hi - 55296) * 1024 + (lo - 56320))%N.

(** The character a backslash escape other than [\u] stands for. *)
Definition unescape (c : N) : option N :=
  if (c =? 34)%N then Some 34%N
  else if (c =? 92)%N then Some 92%N
  else if (c =? 47)%N then Some 47%N
  else if (c =? 98)%N then Some 8%N
  else if (c =? 102)%N then Some 12%N
  else if (c =? 110)%N then Some 10%N
  else if (c =? 114)%N then Some 13%N
  else if (c =? 116)%N then Some 9%N
  else None.

Definition cons_fst (c : N) (r : option (pystr * pystr))
  : option (pystr * pystr) :=
  match r with
  | Some (s, rest) => Some (c :: s, rest)
  | None => None
  end.

(** After the escape of a high surrogate [hi]: the low surrogate that an
    escape at the head of [s] spells, when there is one. *)
Definition low_after (hi : N) (s : pystr) : option N :=
  match s with
  | b1 :: b2 :: t =>
      if (b1 =? 92)%N && (b2 =? 117)%N && is_high hi then
        match t with
        | a :: b :: c :: d :: _ =>
            match hex4 a b c d with
            | Some lo => if is_low lo then Some lo else None
            | None => None
            end
        | _ => None
        end
      else None
  | _ => None
  end.

(** The string whose opening quote has been read, and the text after its
    closing quote. *)
Fixpoint scanstring (s : pystr) : option (pystr * pystr) :=
  match s with
  | [] => None
  | c :: s1 =>
      if (c =? 34)%N then Some ([], s1)
      else if (c =? 92)%N then
        match s1 with
        | [] => None
        | e :: s2 =>
            if (e =? 117)%N then
              match s2 with
              | a :: b :: c' :: d :: s3 =>
                  match hex4 a b c' d with
                  | None => None
                  | Some hi =>
                      match low_after hi s3, s3 with
                      | Some lo, _ :: _ :: _ :: _ :: _ :: _ :: s4 =>
                          cons_fst (join_surrogates hi lo) (scanstring s4)
                      | _, _ => cons_fst hi (scanstring s3)
                      end
                  end
              | _ => None
              end
            else
              match unescape e with
              | Some x => cons_fst x (scanstring s2)
              | None => None
              end
        end
      else if (c <=? 31)%N then None
      else cons_fst c (scanstring s1)
  end.

(** The digits [s] starts with, and the rest. *)
Fixpoint span_digits (s : pystr) : pystr * pystr :=
  match s with
  | c :: s' =>
      if is_digit c then let (ds, rest) := span_digits s' in (c :: ds, rest)
      else ([], s)
  | [] => ([], [])
  end.

Definition digits_value (ds : pystr) : Z :=
  fold_left (fun acc c => (10 * acc + Z.of_N (c - 48))%Z) ds 0%Z.

(** The integer part of a number: an optional minus, then [0] or a
    digit run that does not start with [0].  The result tells whether the
    minus is there and gives the digits and the rest. *)
Definition match_integer (s : pystr) : option (bool * pystr * pystr) :=
  let (neg, s1) := match s with
                   | m :: s1 => if (m =? 45)%N then (true, s1) else (false, s)
                   | [] => (false, s)
                   end in
  match s1 with
  | c :: s2 =>
      if (c =? 48)%N then Some (neg, [48%N], s2)
      else if is_digit c then
        let (ds, rest) := span_digits s1 in Some (neg, ds, rest)
      else None
  | [] => None
  end.

(** The fraction, a dot and a digit run, when there is one. *)
Definition match_frac (s : pystr) : pystr * pystr :=
  match s with
  | d :: c :: s' =>
      if (d =? 46)%N && is_digit c then
        let (ds, rest) := span_digits (c :: s') in (46%N :: ds, rest)
      else ([], s)
  | _ => ([], s)
  end.

(** The exponent, [e] or [E], an optional sign and a digit run, when
    there is one. *)
Definition match_exp (s : pystr) : pystr * pystr :=
  match s with
  | e :: s1 =>
      if ((e =? 101) || (e =? 69))%N then
        let (sgn, s2) := match s1 with
                         | c :: s2 =>
                             if ((c =? 45) || (c =? 43))%N then ([c], s2)
                             else ([], s1)
                         | [] => ([], s1)
                         end in
        match span_digits s2 with
        | ([], _) => ([], s)
        | (ds, rest) => (e :: sgn ++ ds, rest)
        end
      else ([], s)
  | [] => ([], s)
  end.

(** The longest integer literal [int] converts by default. *)
Definition max_str_digits : nat := 4300.

Definition scan_number (s : pystr) : option (json * pystr) :=
  match match_integer s with
  | None => None
  | Some (neg, ds, s1) =>
      let (frac, s2) := match_frac s1 in
      let (ex, s3) := match_exp s2 in
      match frac ++ ex with
      | [] =>
          if Nat.ltb max_str_digits (length ds) then None
          else
            let v := digits_value ds in
            Some (JInt (if neg then (- v)%Z else v), s3)
      | _ =>
          match float_of_str ((if neg then [45%N] else []) ++ ds
                              ++ frac ++ ex) with
          | Some x => Some (JFloat x, s3)
          | None => None
          end
      end
  end.

(** [s] without the literal [word] it starts with. *)
Fixpoint after (word s : pystr) : option pystr :=
  match word, s with
  | [], _ => Some s
  | w :: word', c :: s' => if (w =? c)%N then after word' s' else None
  | _ :: _, [] => None
  end.

(** [d[k] = v] while an object is decoded. *)
Fixpoint oset (o : list (pystr * json)) (k : pystr) (v : json)
  : list (pystr * json) :=
  match o with
  | [] => [(k, v)]
  | (k', v') :: o' =>
      if PyStr.eqb k' k then (k', v) :: o' else (k', v') :: oset o' k v
  end.

(** The scanner: one value at the head of [s]; the items of an array
    after its bracket or a comma; the members of an object after its
    brace or a comma.  [fuel] bounds the nesting and the item count. *)
Fixpoint scan_once (fuel : nat) (s : pystr) {struct fuel}
  : option (json * pystr) :=
  match fuel with
  | O => None
  | S fuel' =>
      match s with
      | [] => None
      | c :: s' =>
          if (c =? 34)%N then
            match scanstring s' with
            | Some (x, rest) => Some (JStr x, rest)
            | None => None
            end
          else if (c =? 123)%N then
            match skip_ws s' with
            | 125%N :: rest => Some (JObj [], rest)
            | s1 =>
                match scan_members fuel' s1 [] with
                | Some (o, rest) => Some (JObj o, rest)
                | None => None
                end
            end
          else if (c =? 91)%N then
            let s1 := skip_ws s' in
            match (match s1 with
                   | b :: rest => if (b =? 93)%N then Some rest else None
                   | [] => None
                   end) with
            | Some rest => Some (JList [], rest)
            | None =>
                match scan_items fuel' s1 with
                | Some (l, rest) => Some (JList l, rest)
                | None => None
                end
            end
          else
            match after "null" s, after "true" s, after "false" s with
            | Some rest, _, _ => Some (JNull, rest)
            | _, Some rest, _ => Some (JBool true, rest)
            | _, _, Some rest => Some (JBool false, rest)
            | None, None, None =>
                match after "NaN" s, after "Infinity" s,
                      after "-Infinity" s with
                | Some rest, _, _ => Some (JFloat nan, rest)
                | _, Some rest, _ => Some (JFloat infinity, rest)
                | _, _, Some rest => Some (JFloat neg_infinity, rest)
                | None, None, None => scan_number s
                end
            end
      end
  end

with scan_items (fuel : nat) (s : pystr) {struct fuel}
  : option (list json * pystr) :=
  match fuel with
  | O => None
  | S fuel' =>
      match scan_once fuel' s with
      | None => None
      | Some (v, s1) =>
          match skip_ws s1 with
          | 93%N :: rest => Some ([v], rest)
          | 44%N :: s2 =>
              match scan_items fuel' (skip_ws s2) with
              | Some (l, rest) => Some (v :: l, rest)
              | None => None
              end
          | _ => None
          end
      end
  end

with scan_members (fuel : nat) (s : pystr) (acc : list (pystr * json))
  {struct fuel} : option (list (pystr * json) * pystr) :=
  match fuel with
  | O => None
  | S fuel' =>
      match s with
      | 34%N :: s0 =>
          match scanstring s0 with
          | None => None
          | Some (k, s1) =>
              match skip_ws s1 with
              | 58%N :: s2 =>
                  match scan_once fuel' (skip_ws s2) with
                  | None => None
                  | Some (v, s3) =>
                      let acc' := oset acc k v in
                      match skip_ws s3 with
                      | 125%N :: rest => Some (acc', rest)
                      | 44%N :: s4 => scan_members fuel' (skip_ws s4) acc'
                      | _ => None
                      end
                  end
              | _ => None
              end
          end
      | _ => None
      end
  end.

(** [json.loads(text)]; [None] when it raises: a [JSONDecodeError], or,
    for an integer literal of more than [max_str_digits] digits, the
    [ValueError] of [int], which the result does not tell apart.  The
    recursion limit of the interpreter, which stops the decoder on text
    nested about a thousand levels deep, is not part of the model. *)
Definition loads (text : pystr) : option json :=
  if match text with c :: _ => (c =? 65279)%N | [] => false end then None
  else
    match scan_once (2 * length text + 2) (skip_ws text) with
    | Some (v, rest) =>
        match skip_ws rest with
        | [] => Some v
        | _ :: _ => None
        end
    | None => None
    end.

(** *** Encoding *)

Definition hex_digit (n : N) : N :=
  if (n <? 10)%N then (48 + n)%N else (87 + n)%N.

(** [\uXXXX] for a 16-bit code unit. *)
Definition u_escape (n : N) : pystr :=
  [92; 117; hex_digit (n / 4096); hex_digit ((n / 256) mod 16);
   hex_digit ((n / 16) mod 16); hex_digit (n mod 16)]%N.

(** What [ensure_ascii] writes for one character. *)
Definition escape_char (c : N) : pystr :=
  if (c =? 34)%N then [92; 34]%N
  else if (c =? 92)%N then [92; 92]%N
  else if (c =? 10)%N then [92; 110]%N
  else if (c =? 13)%N then [92; 114]%N
  else if (c =? 9)%N then [92; 116]%N
  else if (c =? 12)%N then [92; 102]%N
  else if (c =? 8)%N then [92; 98]%N
  else if ((32 <=? c) && (c <=? 126))%N then [c]
  else if (c <? 65536)%N then u_escape c
  else
    let n := (c - 65536)%N in
    u_escape (55296 + (n / 1024) mod 1024) ++ u_escape (56320 + n mod 1024).

(** A string literal between its quotes. *)
Definition quote (s : pystr) : pystr :=
  34%N :: flat_map escape_char s ++ [34%N].

Fixpoint uint_digits (u : Decimal.uint) : pystr :=
  match u with
  | Decimal.Nil => []
  | Decimal.D0 u' => 48%N :: uint_digits u'
  | Decimal.D1 u' => 49%N :: uint_digits u'
  | Decimal.D2 u' => 50%N :: uint_digits u'
  | Decimal.D3 u' => 51%N :: uint_digits u'
  | Decimal.D4 u' => 52%N :: uint_digits u'
  | Decimal.D5 u' => 53%N :: uint_digits u'
  | Decimal.D6 u' => 54%N :: uint_digits u'
  | Decimal.D7 u' => 55%N :: uint_digits u'
  | Decimal.D8 u' => 56%N :: uint_digits u'
  | Decimal.D9 u' => 57%N :: uint_digits u'
  end.

(** [int.__repr__(z)] *)
Definition int_repr (z : Z) : pystr :=
  match Z.to_int z with
  | Decimal.Pos u => uint_digits u
  | Decimal.Neg u => 45%N :: uint_digits u
  end.

(** How the encoder writes a float. *)
Definition float_str (x : float) : pystr :=
  if is_nan x then "NaN"
  else if (x =? infinity)%float then "Infinity"
  else if (x =? neg_infinity)%float then "-Infinity"
  else float_repr x.

(** [sep.join(parts)] *)
Fixpoint join (sep : pystr) (parts : list pystr) : pystr :=
  match parts with
  | [] => []
  | [p] => p
  | p :: parts' => p ++ sep ++ join sep parts'
  end.

(** [json.dumps(v, separators=(",", ":"))] *)
Fixpoint dumps (v : json) : pystr :=
  match v with
  | JNull => "null"
  | JBool true => "true"
  | JBool false => "false"
  | JInt z => int_repr z
  | JFloat x => float_str x
  | JStr s => quote s
  | JList l => 91%N :: join "," (map dumps l) ++ [93%N]
  | JObj o =>
      123%N
        :: join ","
             (map (fun kv : pystr * json =>
                     let (k, x) := kv in quote k ++ 58%N :: dumps x) o)
        ++ [125%N]
  end.

(** The text the encoder writes for a dictionary key that is not a string. *)
Definition key_str (k : json) : option pystr :=
  match k with
  | JStr s => Some s
  | JFloat x => Some (float_str x)
  | JBool true => Some (str "true")
  | JBool false => Some (str "false")
  | JNull => Some (str "null")
  | JInt z => Some (int_repr z)
  | JList _ | JObj _ => None
  end.

End Codec.

End Json.

(** ** The writer and [main] *)

(** What [main] leaves behind: the text of [OUT_JS] and the lines on
    [sys.stderr]. *)
Record output : Type := Output {
  out_js : pystr;
  stderr : list log_line
}.

Section Program.

Variable float_of_str : pystr -> option float.
Variable float_repr : float -> pystr.
Variable net : service.

(** [{"labels": labels, "temps": temps}] *)
Definition series_json (v : series) : json :=
  JObj [(str "labels", JList (labels v));
        (str "temps", JList (map JFloat (temps v)))].

(** [json.dump(cache, f, separators=(",", ":"))]: the keys of [cache] are
    written as strings. *)
Definition dump_cache (d : list (json * series)) : pystr :=
  123%N
    :: Json.join ","
         (map (fun kv : json * series =>
                 let (k, v) := kv in
                 Json.quote (match Json.key_str float_repr k with
                             | Some t => t
                             | None => []
                             end)
                 ++ 58%N :: Json.dumps float_repr (series_json v)) d)
    ++ [125%N].

(** Lines 97-103. *)
Definition written (st : state) : pystr :=
  str "var staticTempCache = " ++ dump_cache (cache st) ++ [59%N; 10%N]
  ++ str "var staticTempNoDv = " ++ Json.dumps float_repr (JList (no_dv st))
  ++ [59%N; 10%N].

(** Lines 65-95: the loop over whatever [load_stations] returned. *)
Definition run (stations : json) : result state :=
  l <- Py.iter stations ;;
  visit_all float_of_str net init l.

(** [main()], given the text of [STATIONS_JS]. *)
Definition main (text : pystr) : result output :=
  stations <- load_stations (Json.loads float_of_str) text ;;
  st <- run stations ;;
  Ok (Output (written st)
             (log st ++ [LogWrote (length (cache st)) (length (no_dv st))])).

End Program.
(** ** Vocabulary of the properties *)

(** The field [k] of a decoded object, Python's [x.get(k)]. *)
Definition field (x : json) (k : pystr) : json :=
  match x with
  | JObj o => match Py.lookup o k with Some v => v | None => JNull end
  | _ => JNull
  end.

(** The response carries the observation list [obs] at
    [value.timeSeries[0].values[0].value]. *)
Definition carries (data : json) (obs : list json) : Prop :=
  exists d v t ts w ws,
    data = JObj d /\
    Py.lookup d "value" = Some (JObj v) /\
    Py.lookup v "timeSeries" = Some (JList (JObj t :: ts)) /\
    Py.lookup t "values" = Some (JList (JObj w :: ws)) /\
    Py.lookup w "value" = Some (JList obs).

(** The canonical response around a list of observations. *)
Definition dv_body (obs : list json) : json :=
  JObj [(str "value",
         JObj [(str "timeSeries",
                JList [JObj [(str "values",
                              JList [JObj [(str "value", JList obs)]])]])])].

(** The filter of lines 69-82 as one test on a station record. *)
Definition eligible (s : json) : bool :=
  Py.truthy (field s "site_no")
  && Py.truthy (field s "temp_begin") && Py.truthy (field s "temp_end")
  && negb (Py.is_none (field s "lat")) && negb (Py.is_none (field s "lon")).

(** The state after the [Fetching ...] line and the request of a station. *)
Definition asked (st : state) (s : json) (extra : list log_line) : state :=
  State (cache st) (no_dv st)
        (log st ++ LogFetching (field s "site_no") (field s "temp_begin")
                               (field s "temp_end") :: extra)
        (S (calls st)).

(** A station record [main] can process whatever the service answers: an
    object whose identifier can be a dictionary key. *)
Definition well_formed (s : json) : Prop :=
  (exists o, s = JObj o) /\ Key.hashable (field s "site_no") = true.


(** A missing or empty container: the key is not there, or holds [null],
    an empty list or an empty object. *)
Definition absent_or_empty (x : json) : Prop :=
  x = JNull \/ x = JList [] \/ x = JObj [].

(** The responses without a series: the path
    [value.timeSeries[0].values[0].value] stops at a missing or empty
    container. *)
Inductive no_series : json -> Prop :=
| NoValue d :
    absent_or_empty (field (JObj d) "value") ->
    no_series (JObj d)
| NoTimeSeries d v :
    Py.lookup d "value" = Some (JObj v) ->
    absent_or_empty (field (JObj v) "timeSeries") ->
    no_series (JObj d)
| NoValues d v t ts :
    Py.lookup d "value" = Some (JObj v) ->
    Py.lookup v "timeSeries" = Some (JList (JObj t :: ts)) ->
    absent_or_empty (field (JObj t) "values") ->
    no_series (JObj d)
| NoInnerValue d v t ts w ws :
    Py.lookup d "value" = Some (JObj v) ->
    Py.lookup v "timeSeries" = Some (JList (JObj t :: ts)) ->
    Py.lookup t "values" = Some (JList (JObj w :: ws)) ->
    absent_or_empty (field (JObj w) "value") ->
    no_series (JObj d).

(** An observation whose value is a string that [float] rejects and whose
    time stamp is a string. *)
Definition unparsable (float_of_str : pystr -> option float) (v : json)
  : Prop :=
  exists o val dt,
    v = JObj o /\
    Py.lookup o "value" = Some (JStr val) /\
    blank (JStr val) = false /\
    float_of_str val = None /\
    Py.lookup o "dateTime" = Some (JStr dt).

(** A station is missing a field when the key is absent or holds [null]. *)
Definition missing (s : json) (k : pystr) : Prop := field s k = JNull.

(** The station record misses one of the five fields [main] needs. *)
Definition incomplete (s : json) : Prop :=
  missing s "site_no" \/ missing s "temp_begin" \/ missing s "temp_end"
  \/ missing s "lat" \/ missing s "lon".

(** A service that gives one answer to every request. *)
Definition always (r : response) : service := fun _ _ => r.

(** The stations and observations of the scenarios. *)
Module Scenario.

Definition station (site : string) : json :=
  JObj [(str "site_no", JStr site);
        (str "temp_begin", JStr "2020-01-01");
        (str "temp_end", JStr "2020-01-02");
        (str "lat", JFloat 1);
        (str "lon", JFloat 2)].

Definition observation (value dateTime : string) : json :=
  JObj [(str "value", JStr value); (str "dateTime", JStr dateTime)].

Definition X1 : json := station "X1".

Definition two_observations : list json :=
  [observation "5.5" "2020-01-01T00:00:00";
   JObj [(str "value", JStr []);
         (str "dateTime", JStr "2020-01-02T00:00:00")]].

(** [X1] without its latitude. *)
Definition X1_without_lat : json :=
  JObj [(str "site_no", JStr "X1");
        (str "temp_begin", JStr "2020-01-01");
        (str "temp_end", JStr "2020-01-02");
        (str "lon", JFloat 2)].

(** The response [{"value": {"timeSeries": []}}]. *)
Definition no_time_series : json :=
  JObj [(str "value", JObj [(str "timeSeries", JList [])])].

(** A text literal in which an apostrophe stands for a double quote. *)
Definition text (s : string) : pystr :=
  map (fun c => if (c =? 39)%N then 34%N else c) (str s).

End Scenario.

(** The identifier of a station record. *)
Definition site_of (s : json) : json := field s "site_no".

(** The identifiers [main] sends requests for, in the order of the list. *)
Definition requested (stations : list json) : list json :=
  map site_of (filter eligible stations).

(** Identifiers that are pairwise different dictionary keys. *)
Fixpoint distinct (ids : list json) : Prop :=
  match ids with
  | [] => True
  | a :: ids' => Forall (fun b => Key.eqb a b = false) ids' /\ distinct ids'
  end.

(** No key of the cache is a member of the no-data list. *)
Definition disjoint_outputs (st : state) : Prop :=
  forall k x, In k (keys (cache st)) -> In x (no_dv st) -> Key.eqb k x = false.

(** A service whose first answer carries the two observations and whose
    later answers carry no series. *)
Definition data_once : service :=
  fun n _ =>
    match n with
    | 0 => Body (dv_body Scenario.two_observations)
    | S _ => Body Scenario.no_time_series
    end.

(** *** Round trips through JSON text *)

(** A string as [json.loads] returns it and [str] holds it: code points
    below [0x110000], and no high surrogate directly before a low one (the
    decoder joins such a pair into one character). *)
Fixpoint text_ok (s : pystr) : bool :=
  match s with
  | [] => true
  | c :: s' =>
      (c <? 1114112)%N
      && negb (Json.is_high c
               && match s' with c' :: _ => Json.is_low c' | [] => false end)
      && text_ok s'
  end.

(** What the encoder writes for a finite float reads back as that float:
    [float.__repr__] gives a JSON number and [float] inverts it. *)
Definition float_ok (float_of_str : pystr -> option float)
  (float_repr : float -> pystr) (x : float) : Prop :=
  is_nan x = false -> (x =? infinity)%float = false ->
  (x =? neg_infinity)%float = false ->
  Json.scan_number float_of_str (float_repr x) = Some (JFloat x, []).

(** An integer short enough for [int] to read back. *)
Definition int_ok (z : Z) : Prop :=
  length (Json.int_repr (Z.abs z)) <= Json.max_str_digits.

(** The JSON values whose text reads back as the same value: strings as
    above, floats that the runtime prints and reads consistently, and
    objects that hold each key once. *)
Fixpoint canonical (float_of_str : pystr -> option float)
  (float_repr : float -> pystr) (v : json) : Prop :=
  match v with
  | JNull | JBool _ => True
  | JInt z => int_ok z
  | JFloat x => float_ok float_of_str float_repr x
  | JStr s => text_ok s = true
  | JList l =>
      (fix all (l : list json) : Prop :=
         match l with
         | [] => True
         | x :: l' => canonical float_of_str float_repr x /\ all l'
         end) l
  | JObj o =>
      NoDup (map fst o)
      /\ (fix all (o : list (pystr * json)) : Prop :=
            match o with
            | [] => True
            | (k, x) :: o' =>
                text_ok k = true /\ canonical float_of_str float_repr x
                /\ all o'
            end) o
  end.

(** The cache as the JSON value [json.loads] would return for it. *)
Definition cache_json (d : list (pystr * series)) : json :=
  JObj (map (fun kv : pystr * series =>
               let (k, v) := kv in (k, series_json v)) d).

(** The cache whose keys are the strings [d] lists. *)
Definition string_keyed (d : list (pystr * series)) : list (json * series) :=
  map (fun kv : pystr * series => let (k, v) := kv in (JStr k, v)) d.

(** What has to come after a value for the scanner to stop at its end:
    nothing, a comma or a closing bracket. *)
Definition delimited (rest : pystr) : Prop :=
  match rest with
  | [] => True
  | c :: _ => c = 44%N \/ c = 93%N \/ c = 125%N
  end.

(** The text of a canonical value reads back as the value, whatever
    delimiter follows, with fuel above the length of the text. *)
Definition reads_back (float_of_str : pystr -> option float)
  (float_repr : float -> pystr) (v : json) : Prop :=
  forall fuel rest,
    delimited rest ->
    length (Json.dumps float_repr v) < fuel ->
    Json.scan_once float_of_str fuel (Json.dumps float_repr v ++ rest)
    = Some (v, rest).


(** The text of one member of an object. *)
Definition member_text (float_repr : float -> pystr) (kv : pystr * json)
  : pystr :=
  let (k, x) := kv in Json.quote k ++ 58%N :: Json.dumps float_repr x.


(** A cache that [json.loads] can give back: every key held once, keys
    and labels that read back, values that the runtime prints and reads
    consistently. *)
Definition cache_ok (float_of_str : pystr -> option float)
  (float_repr : float -> pystr) (d : list (pystr * series)) : Prop :=
  NoDup (map fst d)
  /\ Forall (fun kv : pystr * series =>
               text_ok (fst kv) = true
               /\ Forall (canonical float_of_str float_repr) (labels (snd kv))
               /\ Forall (float_ok float_of_str float_repr) (temps (snd kv)))
            d.

(** *** Observations *)

(** An entry the loop of [fetch_dv] passes over (lines 48-52): an entry
    that is false as a condition, or an object whose value is absent,
    [None], empty or one blank. *)
Definition passed_over (v : json) : bool :=
  match v with
  | JObj (_ :: _) => blank (field v "value")
  | _ => negb (Py.truthy v)
  end.

(** The observations the loop goes on with, in their order. *)
Definition kept (obs : list json) : list json :=
  filter (fun v => negb (passed_over v)) obs.

(** Whether [float] converts the value of an observation. *)
Definition converts (float_of_str : pystr -> option float) (v : json) : bool :=
  match py_float float_of_str (field v "value") with
  | Ok _ => true
  | Raise _ => false
  end.

(** An observation the loop can finish with: an object whose label can
    be built and whose value [float] converts or rejects with
    [ValueError]. *)
Definition orderly (float_of_str : pystr -> option float) (v : json) : Prop :=
  (exists o, v = JObj o)
  /\ (exists lbl, label_of v = Ok lbl)
  /\ forall e, py_float float_of_str (field v "value") = Raise e ->
               e = ValueError.

(** An observation with a usable value and the wrong type in a field:
    its [dateTime] is [null], a boolean or a number, or its value is an
    array or an object. *)
Definition ill_typed (v : json) : bool :=
  match v with
  | JObj o =>
      negb (blank (field v "value"))
      && match Py.lookup o "dateTime" with
         | Some (JNull | JBool _ | JInt _ | JFloat _) => true
         | Some (JStr _ | JList _) | None =>
             match field v "value" with
             | JList _ | JObj _ => true
             | _ => false
             end
         | Some (JObj _) => false
         end
  | _ => false
  end.

(** *** The run as a function of the answers *)

(** What [fetch_dv] returns for a station when its request is the
    [n]-th of the run. *)
Definition outcome (float_of_str : pystr -> option float) (net : service)
  (r : nat * json) : result (list json * list float) :=
  let (n, s) := r in
  fetch_dv float_of_str net n (field s "site_no") (field s "temp_begin")
           (field s "temp_end").

(** The stations with the numbers of their requests, from [n] on. *)
Fixpoint numbered (n : nat) (l : list json) : list (nat * json) :=
  match l with
  | [] => []
  | s :: l' => (n, s) :: numbered (S n) l'
  end.

(** The requests of a run over [stations] that starts with request [n]:
    one per station that passes the filter, in the order of the list. *)
Definition requests (n : nat) (stations : list json) : list (nat * json) :=
  numbered n (filter eligible stations).

(** What one request adds to the no-data list, to the cache and to the
    lines on [sys.stderr]. *)
Definition no_data_of (float_of_str : pystr -> option float) (net : service)
  (r : nat * json) : list json :=
  match outcome float_of_str net r with
  | Ok ([], _) => [site_of (snd r)]
  | _ => []
  end.

Definition entry_of (float_of_str : pystr -> option float) (net : service)
  (r : nat * json) : list (json * series) :=
  match outcome float_of_str net r with
  | Ok (lbl :: lbls, temps) => [(site_of (snd r), Series (lbl :: lbls) temps)]
  | _ => []
  end.

Definition error_of (float_of_str : pystr -> option float) (net : service)
  (r : nat * json) : list log_line :=
  match outcome float_of_str net r with
  | Raise e => [LogError (site_of (snd r)) e]
  | Ok _ => []
  end.

Definition lines_of (float_of_str : pystr -> option float) (net : service)
  (r : nat * json) : list log_line :=
  LogFetching (site_of (snd r)) (field (snd r) "temp_begin")
              (field (snd r) "temp_end")
  :: error_of float_of_str net r.

(** A service whose answer to a request does not depend on how many
    requests came before. *)
Definition timeless (net : service) : Prop :=
  forall n r, net n r = net 0 r.

(** The assignments [d[k] = v] for the entries of a list, in order. *)
Definition store_all (d : list (json * series))
  (entries : list (json * series)) : list (json * series) :=
  fold_left (fun d e => store d (fst e) (snd e)) entries d.

(** [d.get(k)] on the entries of a dict. *)
Fixpoint cache_get (d : list (json * series)) (k : json) : option series :=
  match d with
  | [] => None
  | (k', v) :: d' => if Key.eqb k' k then Some v else cache_get d' k
  end.

(** The last entry of a list of assignments whose key is [k]. *)
Definition last_assigned (entries : list (json * series)) (k : json)
  : option series :=
  option_map snd (List.find (fun e => Key.eqb (fst e) k) (rev entries)).

(** *** Text around the station literal *)

(** A run of the characters [str.strip] removes. *)
Definition all_space (s : pystr) : bool := forallb PyStr.isspace s.

(** A text that [str.strip] leaves as it is and that is not empty: its
    first and its last character are no white space. *)
Definition trimmed (s : pystr) : bool :=
  match s, rev s with
  | c :: _, c' :: _ => negb (PyStr.isspace c) && negb (PyStr.isspace c')
  | _, _ => false
  end.

(** The marker occurs in [text] right after [pre] and nowhere before. *)
Definition first_marker (text pre : pystr) : Prop :=
  (exists post, text = pre ++ prefix ++ post)
  /\ forall pre' post',
       text = pre' ++ prefix ++ post' -> length pre <= length pre'.

(** *** The characters of the output *)

(** A printable ASCII character, from the space to the tilde. *)
Definition printable (c : N) : bool := ((32 <=? c) && (c <=? 126))%N.

(** A text of printable ASCII characters only. *)
Definition plain (s : pystr) : bool := forallb printable s.

(** *** The request and the response on the wire *)

(** Lines 31-36: the URL, given the texts the f-string puts in for
    [site_no], [start] and [end]; for a [str] that is the string
    itself. *)
Definition query_url (site_no start end_ : pystr) : pystr :=
  str "https://waterservices.usgs.gov/nwis/dv/"
  ++ (str "?format=json&sites=" ++ site_no
      ++ str "&parameterCd=00010&startDT=" ++ start
      ++ str "&endDT=" ++ end_).

(** A text without the character [&]. *)
Definition ampersand_free (s : pystr) : bool :=
  forallb (fun c => negb (c =? 38)%N) s.

(** A run of the white space JSON allows between tokens. *)
Definition json_space (s : pystr) : bool := forallb Json.is_ws s.

Module Utf8.

(** A continuation byte, [10xxxxxx]. *)
Definition cont (b : N) : bool := ((128 <=? b) && (b <=? 191))%N.

(** [body.decode("utf-8")] with strict errors; [None] is
    [UnicodeDecodeError].  A sequence is refused when it is cut short,
    when a shorter one encodes the same character, when it encodes a
    surrogate or a number above [0x10FFFF]. *)
Fixpoint decode (bs : list Byte.byte) : option pystr :=
  match bs with
  | [] => Some []
  | x0 :: r0 =>
      let b0 := Byte.to_N x0 in
      if (b0 <? 128)%N then option_map (cons b0) (decode r0)
      else if ((194 <=? b0) && (b0 <=? 223))%N then
        match r0 with
        | x1 :: r1 =>
            let b1 := Byte.to_N x1 in
            if cont b1 then
              option_map (cons ((b0 - 192) * 64 + (b1 - 128))%N) (decode r1)
            else None
        | _ => None
        end
      else if ((224 <=? b0) && (b0 <=? 239))%N then
        match r0 with
        | x1 :: x2 :: r2 =>
            let b1 := Byte.to_N x1 in
            let b2 := Byte.to_N x2 in
            if cont b1 && cont b2
               && (if (b0 =? 224)%N then (160 <=? b1)%N else true)
               && (if (b0 =? 237)%N then (b1 <=? 159)%N else true)
            then
              option_map
                (cons (((b0 - 224) * 64 + (b1 - 128)) * 64 + (b2 - 128))%N)
                (decode r2)
            else None
        | _ => None
        end
      else if ((240 <=? b0) && (b0 <=? 244))%N then
        match r0 with
        | x1 :: x2 :: x3 :: r3 =>
            let b1 := Byte.to_N x1 in
            let b2 := Byte.to_N x2 in
            let b3 := Byte.to_N x3 in
            if cont b1 && cont b2 && cont b3
               && (if (b0 =? 240)%N then (144 <=? b1)%N else true)
               && (if (b0 =? 244)%N then (b1 <=? 143)%N else true)
            then
              option_map
                (cons ((((b0 - 240) * 64 + (b1 - 128)) * 64 + (b2 - 128)) * 64
                       + (b3 - 128))%N)
                (decode r3)
            else None
        | _ => None
        end
      else None
  end.

(** The bytes of an ASCII text. *)
Definition ascii_bytes (s : pystr) : list Byte.byte :=
  map (fun c => match Byte.of_N c with
                | Some b => b
                | None => Byte.x00
                end) s.

End Utf8.

(** What [urlopen(url)] and [resp.read()] give for a request: an
    exception, or the bytes of the body. *)
Inductive reply : Type :=
| Refused (e : exn)
| Sent (body : list Byte.byte).

(** Lines 38-39 on a reply: the body is decoded as UTF-8 and parsed as
    JSON. *)
Definition decoded (float_of_str : pystr -> option float) (r : reply)
  : response :=
  match r with
  | Refused e => Fails e
  | Sent body =>
      match Utf8.decode body with
      | None => Fails UnicodeDecodeError
      | Some text =>
          match Json.loads float_of_str text with
          | Some data => Body data
          | None => Fails JSONDecodeError
          end
      end
  end.

(** The server answers the [n]-th request of a run with a reply. *)
Definition transport := nat -> request -> reply.

(** The service a server gives through lines 38-39. *)
Definition over (float_of_str : pystr -> option float) (t : transport)
  : service :=
  fun n r => decoded float_of_str (t n r).

(** *** Further scenarios *)

Module Example.

(** A state with one series in the cache and one station without data. *)
Definition stored : state :=
  State [(JStr "X1", Series [JStr "2020-01-01"] [5.5%float])]
        [JStr "X2"] [] 2.

(** A service whose first answer carries one reading and whose later
    answers carry another. *)
Definition two_series : service :=
  fun n _ =>
    match n with
    | 0 => Body (dv_body [Scenario.observation "5.5" "2020-01-01T00:00:00"])
    | S _ => Body (dv_body [Scenario.observation "6.5" "2020-01-03T00:00:00"])
    end.

(** [X1] with an array as its identifier. *)
Definition list_identifier : list (pystr * json) :=
  [(str "site_no", JList [JStr "X1"]);
   (str "temp_begin", JStr "2020-01-01");
   (str "temp_end", JStr "2020-01-02");
   (str "lat", JFloat 1);
   (str "lon", JFloat 2)].

(** A reading whose time stamp is [null]. *)
Definition null_time : json :=
  JObj [(str "value", JStr "6.1"); (str "dateTime", JNull)].

(** A server that sends the bytes [EF BB BF] and then an empty object. *)
Definition marked : transport :=
  fun _ _ => Sent [Byte.xef; Byte.xbb; Byte.xbf; Byte.x7b; Byte.x7d].

(** A server that sends the compact text of the two observations and
    ends the body with a line feed. *)
Definition conforming : transport :=
  fun _ _ =>
    Sent (Utf8.ascii_bytes
            (Json.dumps PyFloat.repr (dv_body Scenario.two_observations)
             ++ [10%N])).

End Example.
(** * Verification *)

(** ** Strings *)

Lemma pystr_eqb_eq (a b : pystr) : PyStr.eqb a b = true <-> a = b.
Proof.
  revert b; induction a as [|x a IH]; intros [|y b]; simpl;
    try (split; [discriminate | congruence]); try tauto.
  rewrite andb_true_iff, N.eqb_eq, IH.
  split; [intros [-> ->]; reflexivity | intros H; inversion H; auto].
Qed.

Lemma pystr_eqb_refl (a : pystr) : PyStr.eqb a a = true.
Proof. apply pystr_eqb_eq; reflexivity. Qed.

Lemma pystr_eqb_neq (a b : pystr) : PyStr.eqb a b = false <-> a <> b.
Proof.
  rewrite <- pystr_eqb_eq. destruct (PyStr.eqb a b); split; congruence.
Qed.

(** ** The fetcher *)

Lemma get_obj (o : list (pystr * json)) (k : pystr) :
  Py.get (JObj o) k JNull = Ok (field (JObj o) k).
Proof. reflexivity. Qed.

Lemma dv_body_carries (obs : list json) : carries (dv_body obs) obs.
Proof.
  unfold carries, dv_body.
  do 6 eexists. split; [reflexivity|]. repeat split; reflexivity.
Qed.

Lemma lookup_some_nonempty (o : list (pystr * json)) k v :
  Py.lookup o k = Some v -> Py.truthy (JObj o) = true.
Proof. destruct o; [discriminate | reflexivity]. Qed.

Section FetcherFacts.

Variable float_of_str : pystr -> option float.

Lemma extract_dv_carries (data : json) (obs : list json) :
  carries data obs ->
  extract_dv float_of_str data = dv_loop float_of_str obs [] [].
Proof.
  intros (d & v & t & ts & w & ws & -> & Hv & Hts & Hvals & Hobs).
  unfold extract_dv. cbn [Py.get bind]. rewrite Hv.
  destruct v as [|kv v]; [discriminate Hts|].
  cbn [Py.or Py.truthy Py.get bind]. rewrite Hts.
  cbn [Py.or Py.truthy negb Py.item0 Py.get Py.item bind]. rewrite Hvals.
  cbn [Py.or Py.truthy negb Py.item0 Py.get Py.item bind]. rewrite Hobs.
  destruct obs; reflexivity.
Qed.

(** One turn of the loop on an observation that is an object with a
    usable value. *)
Lemma dv_loop_cons (o : list (pystr * json)) vals labels temps :
  Py.truthy (JObj o) = true ->
  blank (field (JObj o) "value") = false ->
  dv_loop float_of_str (JObj o :: vals) labels temps =
  bind (label_of (JObj o)) (fun lbl =>
    match py_float float_of_str (field (JObj o) "value") with
    | Ok x => dv_loop float_of_str vals (labels ++ [lbl]) (temps ++ [x])
    | Raise ValueError => dv_loop float_of_str vals (labels ++ [lbl]) temps
    | Raise e => Raise e
    end).
Proof.
  intros Ht Hb. cbn [dv_loop]. rewrite Ht. cbn [negb].
  rewrite get_obj. cbn [bind]. rewrite Hb. reflexivity.
Qed.

(** The value list never grows faster than the label list. *)
Lemma dv_loop_lengths vals : forall labels temps labels' temps',
  dv_loop float_of_str vals labels temps = Ok (labels', temps') ->
  length temps' + length labels <= length labels' + length temps.
Proof.
  induction vals as [|v vals IH]; intros L T L' T' H; simpl in H.
  - inversion H; subst; lia.
  - destruct (negb (Py.truthy v)); [apply IH in H; lia|].
    destruct (Py.get v "value" JNull) as [val|]; [|discriminate].
    simpl in H. destruct (blank val); [apply IH in H; lia|].
    destruct (label_of v) as [lbl|]; [|discriminate]. simpl in H.
    destruct (py_float float_of_str val) as [x|e].
    + apply IH in H. rewrite !length_app in H. simpl in H. lia.
    + destruct e; try discriminate.
      apply IH in H. rewrite !length_app in H. simpl in H. lia.
Qed.

(** When no conversion raises [ValueError], every label comes with its
    value. *)
Lemma dv_loop_lengths_equal vals : forall labels temps labels' temps',
  Forall (fun v => forall val,
            Py.get v "value" JNull = Ok val ->
            py_float float_of_str val <> Raise ValueError) vals ->
  dv_loop float_of_str vals labels temps = Ok (labels', temps') ->
  length labels' + length temps = length temps' + length labels.
Proof.
  induction vals as [|v vals IH]; intros L T L' T' Hall H; simpl in H.
  - inversion H; subst; lia.
  - inversion Hall as [|? ? Hv Hvals]; subst.
    destruct (negb (Py.truthy v)); [apply IH in H; [lia | assumption]|].
    destruct (Py.get v "value" JNull) as [val|]; [|discriminate].
    simpl in H. specialize (Hv val eq_refl).
    destruct (blank val); [apply IH in H; [lia | assumption]|].
    destruct (label_of v) as [lbl|]; [|discriminate]. simpl in H.
    destruct (py_float float_of_str val) as [x|e].
    + apply IH in H; [|assumption]. rewrite !length_app in H. simpl in H. lia.
    + destruct e; try discriminate. congruence.
Qed.

End FetcherFacts.

(** ** The orchestrator *)

Section OrchestratorFacts.

Variable float_of_str : pystr -> option float.
Variable net : service.

Lemma visit_excluded (st : state) (o : list (pystr * json)) :
  eligible (JObj o) = false -> visit float_of_str net st (JObj o) = Ok st.
Proof.
  unfold eligible, visit. rewrite !get_obj. cbn [bind].
  destruct (Py.truthy (field (JObj o) "site_no")); [|reflexivity].
  destruct (Py.truthy (field (JObj o) "temp_begin")); [|reflexivity].
  destruct (Py.truthy (field (JObj o) "temp_end")); [|reflexivity].
  destruct (Py.is_none (field (JObj o) "lat")); [reflexivity|].
  destruct (Py.is_none (field (JObj o) "lon")); [reflexivity|].
  discriminate.
Qed.

Lemma visit_eligible (st : state) (o : list (pystr * json)) :
  eligible (JObj o) = true ->
  visit float_of_str net st (JObj o) =
  let s := JObj o in
  match fetch_dv float_of_str net (calls st) (field s "site_no")
                 (field s "temp_begin") (field s "temp_end") with
  | Raise e => Ok (asked st s [LogError (field s "site_no") e])
  | Ok (lbl :: lbls, temps) =>
      cache' <- setitem (cache st) (field s "site_no")
                        (Series (lbl :: lbls) temps) ;;
      Ok (State cache' (no_dv st) (log (asked st s [])) (S (calls st)))
  | Ok ([], temps) =>
      Ok (State (cache st) (no_dv st ++ [field s "site_no"])
                (log (asked st s [])) (S (calls st)))
  end.
Proof.
  unfold eligible, visit, asked. rewrite !get_obj. cbn [bind].
  rewrite !andb_true_iff, !negb_true_iff.
  intros [[[[-> ->] ->] ->] ->]. cbn [negb orb log].
  destruct (fetch_dv _ _ _ _ _ _) as [[[|lbl lbls] temps]|e];
    try reflexivity.
  rewrite <- app_assoc. reflexivity.
Qed.

Lemma visit_all_app (st : state) (l1 l2 : list json) :
  visit_all float_of_str net st (l1 ++ l2) =
  st' <- visit_all float_of_str net st l1 ;;
  visit_all float_of_str net st' l2.
Proof.
  revert st; induction l1 as [|s l1 IH]; intros st; simpl; [reflexivity|].
  destruct (visit float_of_str net st s); simpl; [apply IH | reflexivity].
Qed.

(** A well-formed station never ends the run. *)
Lemma visit_total (st : state) (s : json) :
  well_formed s -> exists st', visit float_of_str net st s = Ok st'.
Proof.
  intros [[o ->] Hk].
  destruct (eligible (JObj o)) eqn:He.
  - rewrite visit_eligible by assumption. cbv zeta.
    destruct (fetch_dv _ _ _ _ _ _) as [[[|lbl lbls] temps]|e];
      try (eexists; reflexivity).
    unfold setitem. rewrite Hk. eexists; reflexivity.
  - rewrite visit_excluded by assumption. eexists; reflexivity.
Qed.

Lemma visit_all_total (stations : list json) : forall st,
  Forall well_formed stations ->
  exists st', visit_all float_of_str net st stations = Ok st'.
Proof.
  induction stations as [|s l IH]; intros st H; simpl.
  - eexists; reflexivity.
  - inversion H as [|? ? Hs Hl]; subst.
    destruct (visit_total st s Hs) as [st1 ->]. simpl. apply IH, Hl.
Qed.

(** When the stations load and the loop ends normally, [main] writes the
    output. *)
Lemma main_output (float_repr : float -> pystr) (text : pystr)
  (stations : json) (l : list json) (st : state) :
  load_stations (Json.loads float_of_str) text = Ok stations ->
  Py.iter stations = Ok l ->
  visit_all float_of_str net init l = Ok st ->
  main float_of_str float_repr net text
  = Ok (Output (written float_repr st)
               (log st ++ [LogWrote (length (cache st))
                                    (length (no_dv st))])).
Proof.
  intros Hload Hiter Hrun. unfold main, run.
  rewrite Hload. cbn [bind]. rewrite Hiter. cbn [bind]. rewrite Hrun.
  reflexivity.
Qed.

End OrchestratorFacts.

(** ** The loader *)

Lemma startswith_app (a b : pystr) :
  PyStr.startswith a b = true <-> exists post, a = b ++ post.
Proof.
  revert a; induction b as [|y b IH]; intros a; simpl.
  - split; [intros _; exists a; reflexivity | destruct a; reflexivity].
  - destruct a as [|x a].
    + split; [discriminate | intros [post H]; discriminate].
    + simpl. rewrite andb_true_iff, N.eqb_eq, IH. split.
      * intros [-> [post ->]]. exists post. reflexivity.
      * intros [post H]. inversion H. split; [reflexivity | eauto].
Qed.

(** [find] returns the position of the first occurrence. *)
Lemma find_some (text sub : pystr) : forall i,
  PyStr.find text sub = Some i ->
  exists pre post,
    text = pre ++ sub ++ post /\ length pre = i
    /\ forall pre' post', text = pre' ++ sub ++ post' -> i <= length pre'.
Proof.
  induction text as [|c text IH]; intros i; cbn [PyStr.find].
  - destruct (PyStr.startswith [] sub) eqn:Hs; [|discriminate].
    intros [= <-]. apply startswith_app in Hs. destruct Hs as [post H].
    exists [], post. repeat split; [exact H | intros; lia].
  - destruct (PyStr.startswith (c :: text) sub) eqn:Hs.
    + intros [= <-]. apply startswith_app in Hs. destruct Hs as [post H].
      exists [], post. repeat split; [exact H | intros; lia].
    + destruct (PyStr.find text sub) as [j|]; [|discriminate].
      intros [= <-]. destruct (IH j eq_refl) as (pre & post & -> & Hlen & Hmin).
      exists (c :: pre), post. repeat split; [simpl; lia|].
      intros [|c' pre'] post' H.
      * exfalso. simpl in H.
        assert (PyStr.startswith (c :: pre ++ sub ++ post) sub = true)
          by (apply startswith_app; eauto).
        congruence.
      * simpl in H. inversion H as [[Hc Ht]]. apply Hmin in Ht. simpl. lia.
Qed.

Lemma find_first (text sub : pystr) (i : nat) :
  PyStr.find text sub = Some i ->
  forall pre post, text = pre ++ sub ++ post -> i <= length pre.
Proof.
  intros H. destruct (find_some text sub i H) as (_ & _ & _ & _ & Hmin).
  exact Hmin.
Qed.

Lemma find_none (text sub : pystr) :
  PyStr.find text sub = None ->
  forall pre post, text <> pre ++ sub ++ post.
Proof.
  induction text as [|c text IH]; cbn [PyStr.find].
  - destruct (PyStr.startswith [] sub) eqn:Hs; [discriminate|].
    intros _ pre post H. destruct pre; simpl in H.
    + assert (PyStr.startswith [] sub = true)
        by (apply startswith_app; eauto). congruence.
    + discriminate.
  - destruct (PyStr.startswith (c :: text) sub) eqn:Hs; [discriminate|].
    destruct (PyStr.find text sub) as [j|] eqn:Hf; [discriminate|].
    intros _ [|c' pre] post H; simpl in H.
    + assert (PyStr.startswith (c :: text) sub = true)
        by (apply startswith_app; eauto). congruence.
    + inversion H as [[Hc Ht]]. exact (IH eq_refl pre post Ht).
Qed.

Lemma skipn_prefix (pre sub post : pystr) :
  skipn (length pre + length sub) (pre ++ sub ++ post) = post.
Proof.
  rewrite app_assoc, <- length_app, skipn_app, skipn_all, Nat.sub_diag.
  reflexivity.
Qed.

(** C6: the loader raises the format error when the marker
    [var stationData =] does not occur in the text; otherwise it takes the
    text after the first occurrence, strips it, drops a closing semicolon,
    and returns what [json.loads] makes of the rest, raising the parse
    error when [json.loads] rejects it. *)
Theorem C6_loader (json_loads : pystr -> option json) (text : pystr) :
  ((forall pre post, text <> pre ++ prefix ++ post) ->
   load_stations json_loads text
   = Raise (RuntimeError
       "Could not find 'var stationData =' in multi_state_stations.js"))
  /\ (forall pre post,
        text = pre ++ prefix ++ post ->
        (forall pre' post',
           text = pre' ++ prefix ++ post' -> length pre <= length pre') ->
        let s := PyStr.strip post in
        let literal :=
          if PyStr.endswith s ";" then PyStr.strip (PyStr.drop_last s) else s in
        load_stations json_loads text
        = match json_loads literal with
          | Some stations => Ok stations
          | None => Raise JSONDecodeError
          end).
Proof.
  unfold load_stations. split.
  - intros Hno. destruct (PyStr.find text prefix) as [i|] eqn:Hf.
    + destruct (find_some text prefix i Hf) as (pre & post & H & _).
      destruct (Hno pre post H).
    + reflexivity.
  - intros pre post H Hmin. cbv zeta.
    destruct (PyStr.find text prefix) as [i|] eqn:Hf.
    + destruct (find_some text prefix i Hf) as (pre1 & post1 & H1 & Hlen & Hmin1).
      assert (Hi : i = length pre).
      { apply PeanoNat.Nat.le_antisymm.
        - apply (Hmin1 pre post H).
        - rewrite <- Hlen. apply (Hmin pre1 post1 H1). }
      unfold literal_after. rewrite Hi, H, skipn_prefix. reflexivity.
    + destruct (find_none text prefix Hf pre post H).
Qed.

Lemma C6_witness :
  load_stations (Json.loads PyFloat.of_str)
    (Scenario.text "// stations
var stationData = [{'site_no':'X1','lat':1.5}] ;
")
  = Ok (JList [JObj [(str "site_no", JStr "X1"); (str "lat", JFloat 1.5)]]).
Proof.
  refine (proj2 (C6_loader (Json.loads PyFloat.of_str) _)
            (Scenario.text "// stations
")
            (Scenario.text " [{'site_no':'X1','lat':1.5}] ;
") _ _).
  - reflexivity.
  - apply (find_first _ prefix 12). reflexivity.
Defined.

(** ** Claims about the fetcher *)

Section FetcherClaims.

Variable float_of_str : pystr -> option float.

Lemma no_series_extract (data : json) :
  no_series data -> extract_dv float_of_str data = Ok ([], []).
Proof.
  unfold extract_dv.
  destruct 1 as [d H | d v Hv H | d v t ts Hv Ht H
                 | d v t ts w ws Hv Ht Hw H];
    cbn [Py.get bind].
  - cbn [field] in H.
    destruct (Py.lookup d "value") as [x|];
      [destruct H as [-> | [-> | ->]] | ]; reflexivity.
  - rewrite Hv. cbn [field] in H.
    destruct v as [|kv v]; [reflexivity|].
    cbn [Py.or Py.truthy Py.get bind].
    destruct (Py.lookup (kv :: v) "timeSeries") as [x|];
      [destruct H as [-> | [-> | ->]] | ]; reflexivity.
  - rewrite Hv. destruct v as [|kv v]; [discriminate Ht|].
    cbn [Py.or Py.truthy Py.get bind]. rewrite Ht.
    cbn [Py.or Py.truthy negb Py.item0 Py.get bind]. cbn [field] in H.
    destruct (Py.lookup t "values") as [x|];
      [destruct H as [-> | [-> | ->]] | ]; reflexivity.
  - rewrite Hv. destruct v as [|kv v]; [discriminate Ht|].
    cbn [Py.or Py.truthy Py.get bind]. rewrite Ht.
    cbn [Py.or Py.truthy negb Py.item0 Py.get Py.item bind]. rewrite Hw.
    cbn [Py.or Py.truthy negb Py.item0 Py.get Py.item bind].
    cbn [field] in H.
    destruct (Py.lookup w "value") as [x|];
      [destruct H as [-> | [-> | ->]] | ]; reflexivity.
Qed.

Lemma label_of_string (o : list (pystr * json)) (dt : pystr) :
  Py.lookup o "dateTime" = None /\ dt = []
  \/ Py.lookup o "dateTime" = Some (JStr dt) ->
  label_of (JObj o) = Ok (JStr (firstn 10 dt)).
Proof.
  unfold label_of. cbn [Py.get bind].
  intros [[-> ->] | ->]; reflexivity.
Qed.

(** An observation whose value [float] rejects leaves its label behind
    and no value. *)
Lemma dv_loop_unparsable (v : json) vals labels temps :
  unparsable float_of_str v ->
  exists lbl,
    dv_loop float_of_str (v :: vals) labels temps =
    dv_loop float_of_str vals (labels ++ [lbl]) temps.
Proof.
  intros (o & val & dt & -> & Hval & Hb & Hf & Hdt).
  exists (JStr (firstn 10 dt)).
  rewrite dv_loop_cons.
  - rewrite (label_of_string o dt) by (right; exact Hdt).
    cbn [bind field]. rewrite Hval. cbn [py_float]. rewrite Hf. reflexivity.
  - exact (lookup_some_nonempty _ _ _ Hval).
  - cbn [field]. rewrite Hval. exact Hb.
Qed.

Lemma dv_loop_all_unparsable (obs : list json) : forall labels temps,
  Forall (unparsable float_of_str) obs ->
  exists lbls,
    length lbls = length obs /\
    dv_loop float_of_str obs labels temps = Ok (labels ++ lbls, temps).
Proof.
  induction obs as [|v obs IH]; intros L T H.
  - exists []. rewrite app_nil_r. split; reflexivity.
  - inversion H as [|? ? Hv Hobs]; subst.
    destruct (dv_loop_unparsable v obs L T Hv) as [lbl ->].
    destruct (IH (L ++ [lbl]) T Hobs) as (lbls & Hlen & ->).
    exists (lbl :: lbls). rewrite <- app_assoc. split; [simpl; lia | reflexivity].
Qed.

(** C10, as the code has it: for an observation that is not skipped and
    whose [dateTime] is absent or a string, the label is the first 10
    characters of the string; the empty string when the field is absent;
    the whole string when it has at most 10 characters; and building the
    label does not raise: the loop goes on to [float] with the label
    appended. *)
Theorem C10_label_is_date_prefix (o : list (pystr * json)) (dt : pystr) :
  Py.truthy (JObj o) = true ->
  blank (field (JObj o) "value") = false ->
  Py.lookup o "dateTime" = None /\ dt = []
  \/ Py.lookup o "dateTime" = Some (JStr dt) ->
  label_of (JObj o) = Ok (JStr (firstn 10 dt))
  /\ (length dt <= 10 -> firstn 10 dt = dt)
  /\ forall vals labels temps,
       dv_loop float_of_str (JObj o :: vals) labels temps =
       match py_float float_of_str (field (JObj o) "value") with
       | Ok x =>
           dv_loop float_of_str vals (labels ++ [JStr (firstn 10 dt)])
                   (temps ++ [x])
       | Raise ValueError =>
           dv_loop float_of_str vals (labels ++ [JStr (firstn 10 dt)]) temps
       | Raise e => Raise e
       end.
Proof.
  intros Ht Hb Hdt. split; [|split].
  - apply label_of_string, Hdt.
  - apply firstn_all2.
  - intros vals L T. rewrite dv_loop_cons by assumption.
    rewrite (label_of_string o dt Hdt). reflexivity.
Qed.

End FetcherClaims.

Lemma C10_witness :
  label_of (Scenario.observation "5.5" "2020-01-01T00:00:00")
  = Ok (JStr "2020-01-01").
Proof.
  refine (proj1 (C10_label_is_date_prefix PyFloat.of_str
                   [(str "value", JStr "5.5");
                    (str "dateTime", JStr "2020-01-01T00:00:00")]
                   (str "2020-01-01T00:00:00") _ _ _)).
  - reflexivity.
  - reflexivity.
  - right; reflexivity.
Defined.

(** C10 as stated fails: the default of [v.get("dateTime", ...)] stands
    in for an absent key only.  An observation with a usable value whose
    [dateTime] is [null] is not skipped, and slicing [None] raises
    [TypeError], which leaves [fetch_dv]. *)
Lemma C10_counterexample :
  Py.truthy (JObj [(str "value", JStr "6.1"); (str "dateTime", JNull)])
  = true
  /\ blank (field (JObj [(str "value", JStr "6.1");
                         (str "dateTime", JNull)]) "value") = false
  /\ label_of (JObj [(str "value", JStr "6.1"); (str "dateTime", JNull)])
     = Raise TypeError
  /\ fetch_dv PyFloat.of_str
       (always (Body (dv_body
          [JObj [(str "value", JStr "6.1"); (str "dateTime", JNull)]])))
       0 (JStr "X1") (JStr "2020-01-01") (JStr "2020-01-02")
     = Raise TypeError.
Proof. repeat split; vm_compute; reflexivity. Qed.

(** C1 (the code departs from the claim): an observation whose value
    [float] rejects is not skipped entirely.  Its label has been appended
    before the conversion is tried, so [fetch_dv] returns two labels and
    one value for the two observations below. *)
Theorem C1_unparsable_value_keeps_its_label :
  fetch_dv PyFloat.of_str
    (always (Body (dv_body
       [Scenario.observation "5.5" "2020-01-01T00:00:00";
        Scenario.observation "Ice" "2020-01-02T00:00:00"])))
    0 (JStr "X1") (JStr "2020-01-01") (JStr "2020-01-02")
  = Ok ([JStr "2020-01-01"; JStr "2020-01-02"], [5.5%float]).
Proof. vm_compute. reflexivity. Qed.

(** ** Claims about the orchestrator *)

Lemma incomplete_not_eligible (s : json) : incomplete s -> eligible s = false.
Proof.
  unfold incomplete, missing, eligible.
  intros [H | [H | [H | [H | H]]]]; rewrite H; cbn [Py.truthy Py.is_none negb];
    rewrite ?andb_false_r; reflexivity.
Qed.

Lemma store_keys (d : list (json * series)) (site : json) (v : series) :
  forall k, In k (keys (store d site v)) -> In k (keys d) \/ site = k.
Proof.
  induction d as [|[k' v'] d IH]; intros k; simpl.
  - intros [H | []]; auto.
  - destruct (Key.eqb k' site); simpl.
    + intros [H | H]; auto.
    + intros [H | H]; [auto|]. destruct (IH k H); auto.
Qed.

Section OrchestratorClaims.

Variable float_of_str : pystr -> option float.
Variable net : service.

(** Whatever a finished run holds came from an eligible station of the
    list, or was there before. *)
Lemma visit_provenance (st st' : state) (s : json) :
  visit float_of_str net st s = Ok st' ->
  forall k, In k (keys (cache st')) \/ In k (no_dv st') ->
  (In k (keys (cache st)) \/ In k (no_dv st))
  \/ eligible s = true /\ field s "site_no" = k.
Proof.
  destruct s as [| | | | | |o]; try discriminate.
  destruct (eligible (JObj o)) eqn:He.
  - rewrite visit_eligible by assumption. cbv zeta.
    destruct (fetch_dv _ _ _ _ _ _) as [[[|lbl lbls] temps]|e].
    + intros [= <-] k. cbn [cache no_dv]. rewrite in_app_iff.
      intros [H | [H | [H | []]]]; auto.
    + unfold setitem. destruct (Key.hashable _); [|discriminate].
      intros [= <-] k. cbn [cache no_dv bind]. intros [H | H]; [|auto].
      apply store_keys in H. destruct H as [H | H]; auto.
    + intros [= <-] k. cbn [asked cache no_dv]. auto.
  - rewrite visit_excluded by assumption. intros [= <-] k H. auto.
Qed.

Lemma visit_all_provenance (stations : list json) : forall st st',
  visit_all float_of_str net st stations = Ok st' ->
  forall k, In k (keys (cache st')) \/ In k (no_dv st') ->
  (In k (keys (cache st)) \/ In k (no_dv st))
  \/ exists s, In s stations /\ eligible s = true /\ field s "site_no" = k.
Proof.
  induction stations as [|s l IH]; intros st st' H k Hk; simpl in H.
  - inversion H; subst. auto.
  - destruct (visit float_of_str net st s) as [st1|] eqn:Hv;
      [|discriminate]. simpl in H.
    destruct (IH st1 st' H k Hk) as [H1 | (s' & Hin & He & Hs)].
    + destruct (visit_provenance st st1 s Hv k H1) as [H2 | [He Hs]];
        [auto|].
      right. exists s. simpl. auto.
    + right. exists s'. simpl. auto.
Qed.

(** C3: a station record that misses the identifier, the begin date, the
    end date, the latitude or the longitude is never queried and enters
    neither the cache nor the no-data list: visiting it leaves the state
    (request count included) as it was, the run is the run without it,
    and whatever a run leaves in the cache or the no-data list is the
    identifier of an eligible station. *)
Theorem C3_incomplete_station_is_excluded (o : list (pystr * json)) :
  incomplete (JObj o) ->
  eligible (JObj o) = false
  /\ (forall st, visit float_of_str net st (JObj o) = Ok st)
  /\ (forall st before after_,
        visit_all float_of_str net st (before ++ JObj o :: after_)
        = visit_all float_of_str net st (before ++ after_))
  /\ (forall stations st',
        visit_all float_of_str net init stations = Ok st' ->
        forall k, In k (keys (cache st')) \/ In k (no_dv st') ->
        exists s, In s stations /\ eligible s = true
                  /\ field s "site_no" = k).
Proof.
  intros H. pose proof (incomplete_not_eligible _ H) as He.
  split; [exact He|]. split; [|split].
  - intros st. apply visit_excluded, He.
  - intros st l1 l2. rewrite !visit_all_app.
    destruct (visit_all float_of_str net st l1) as [st1|]; [|reflexivity].
    cbn [bind visit_all]. rewrite visit_excluded by exact He. reflexivity.
  - intros l st' Hrun k Hk.
    destruct (visit_all_provenance l init st' Hrun k Hk) as [[[] | []] | Hs].
    exact Hs.
Qed.

(** C4: when the time-series container or the inner value list of the
    response is absent or empty, [fetch_dv] returns two empty lists
    instead of raising, and [main] appends the station's identifier to
    the no-data list. *)
Theorem C4_missing_series_is_no_data
  (st : state) (o : list (pystr * json)) (data : json) :
  let s := JObj o in
  no_series data ->
  eligible s = true ->
  net (calls st) (Request (field s "site_no") (field s "temp_begin")
                          (field s "temp_end")) = Body data ->
  fetch_dv float_of_str net (calls st) (field s "site_no")
           (field s "temp_begin") (field s "temp_end") = Ok ([], [])
  /\ visit float_of_str net st s
     = Ok (State (cache st) (no_dv st ++ [field s "site_no"])
                 (log st ++ [LogFetching (field s "site_no")
                                         (field s "temp_begin")
                                         (field s "temp_end")])
                 (S (calls st))).
Proof.
  intros s Hno He Hnet.
  assert (Hf : fetch_dv float_of_str net (calls st) (field s "site_no")
                 (field s "temp_begin") (field s "temp_end") = Ok ([], [])).
  { unfold fetch_dv. rewrite Hnet. apply no_series_extract, Hno. }
  split; [exact Hf|].
  unfold s in *. rewrite visit_eligible by assumption. cbv zeta.
  rewrite Hf. reflexivity.
Qed.

(** C5: when the fetch of an eligible station raises, [main] logs the
    station and the error, leaves the cache and the no-data list as they
    were, and goes on with the remaining stations; with well-formed
    stations remaining the loop ends normally, and [main] writes the
    output file. *)
Theorem C5_fetch_error_is_logged_and_skipped
  (st : state) (o : list (pystr * json)) (e : exn) (rest : list json) :
  let s := JObj o in
  eligible s = true ->
  fetch_dv float_of_str net (calls st) (field s "site_no")
           (field s "temp_begin") (field s "temp_end") = Raise e ->
  let st' :=
    State (cache st) (no_dv st)
          (log st ++ [LogFetching (field s "site_no") (field s "temp_begin")
                                  (field s "temp_end");
                      LogError (field s "site_no") e])
          (S (calls st)) in
  visit float_of_str net st s = Ok st'
  /\ visit_all float_of_str net st (s :: rest)
     = visit_all float_of_str net st' rest
  /\ (Forall well_formed rest ->
      exists final,
        visit_all float_of_str net st (s :: rest) = Ok final
        /\ forall float_repr text,
             st = init ->
             load_stations (Json.loads float_of_str) text
             = Ok (JList (s :: rest)) ->
             main float_of_str float_repr net text
             = Ok (Output (written float_repr final)
                          (log final
                           ++ [LogWrote (length (cache final))
                                        (length (no_dv final))]))).
Proof.
  intros s He Hf st'.
  assert (Hv : visit float_of_str net st s = Ok st').
  { unfold s in *. rewrite visit_eligible by assumption. cbv zeta.
    rewrite Hf. reflexivity. }
  split; [exact Hv|]. split.
  - cbn [visit_all]. rewrite Hv. reflexivity.
  - intros Hwf.
    destruct (visit_all_total float_of_str net rest st' Hwf) as [final Hfin].
    assert (Hall : visit_all float_of_str net st (s :: rest) = Ok final)
      by (cbn [visit_all]; rewrite Hv; exact Hfin).
    exists final. split; [exact Hall|].
    intros float_repr text -> Hload.
    apply (main_output float_of_str net float_repr text
             (JList (s :: rest)) (s :: rest) final Hload eq_refl Hall).
Qed.

(** C9: whether a fetched station goes to the cache or to the no-data
    list depends on the label list alone; a station whose observations
    all carry a time stamp and a value that [float] rejects is stored in
    the cache with as many labels as observations and no value. *)
Theorem C9_labels_alone_decide
  (st : state) (o : list (pystr * json)) (data : json) (obs : list json) :
  let s := JObj o in
  let site := field s "site_no" in
  let fetching :=
    log st ++ [LogFetching site (field s "temp_begin") (field s "temp_end")] in
  eligible s = true ->
  Key.hashable site = true ->
  (forall labels temps,
     fetch_dv float_of_str net (calls st) site (field s "temp_begin")
              (field s "temp_end") = Ok (labels, temps) ->
     visit float_of_str net st s
     = Ok (match labels with
           | [] => State (cache st) (no_dv st ++ [site]) fetching
                         (S (calls st))
           | _ :: _ => State (store (cache st) site (Series labels temps))
                             (no_dv st) fetching (S (calls st))
           end))
  /\ (net (calls st) (Request site (field s "temp_begin")
                              (field s "temp_end")) = Body data ->
      carries data obs ->
      obs <> [] ->
      Forall (unparsable float_of_str) obs ->
      exists lbls,
        lbls <> [] /\ length lbls = length obs
        /\ visit float_of_str net st s
           = Ok (State (store (cache st) site (Series lbls []))
                       (no_dv st) fetching (S (calls st)))).
Proof.
  intros s site fetching He Hk.
  assert (Hone : forall labels temps,
     fetch_dv float_of_str net (calls st) site (field s "temp_begin")
              (field s "temp_end") = Ok (labels, temps) ->
     visit float_of_str net st s
     = Ok (match labels with
           | [] => State (cache st) (no_dv st ++ [site]) fetching
                         (S (calls st))
           | _ :: _ => State (store (cache st) site (Series labels temps))
                             (no_dv st) fetching (S (calls st))
           end)).
  { intros labels temps Hf. unfold s in *.
    rewrite visit_eligible by assumption. cbv zeta. unfold site in Hf.
    rewrite Hf. destruct labels as [|lbl lbls]; [reflexivity|].
    unfold setitem. unfold site in Hk. rewrite Hk. reflexivity. }
  split; [exact Hone|].
  intros Hnet Hc Hne Hall.
  destruct (dv_loop_all_unparsable float_of_str obs [] [] Hall)
    as (lbls & Hlen & Hloop).
  assert (Hl : lbls <> []).
  { destruct lbls; [|discriminate]. destruct obs; [congruence|discriminate]. }
  exists lbls. split; [exact Hl|]. split; [exact Hlen|].
  rewrite (Hone lbls []).
  - destruct lbls; [congruence | reflexivity].
  - unfold fetch_dv. rewrite Hnet.
    rewrite (extract_dv_carries float_of_str data obs Hc). exact Hloop.
Qed.

(** C2: with the single station [X1] in the input array and a response
    whose observations are [5.5] at [2020-01-01T00:00:00] and a blank value
    at [2020-01-02T00:00:00], the cache maps [X1] to the one label
    [2020-01-01] and the one value [5.5], the no-data list is empty, and
    the output file says so. *)
Theorem C2_single_station_scenario (float_repr : float -> pystr) (data : json) :
  float_of_str "5.5" = Some 5.5%float ->
  float_repr 5.5%float = str "5.5" ->
  carries data Scenario.two_observations ->
  net 0 (Request (JStr "X1") (JStr "2020-01-01") (JStr "2020-01-02"))
  = Body data ->
  exists st,
    run float_of_str net (JList [Scenario.X1]) = Ok st
    /\ cache st = [(JStr "X1", Series [JStr "2020-01-01"] [5.5%float])]
    /\ no_dv st = []
    /\ written float_repr st
       = Scenario.text
           "var staticTempCache = {'X1':{'labels':['2020-01-01'],'temps':[5.5]}};"
         ++ [10%N] ++ str "var staticTempNoDv = [];" ++ [10%N].
Proof.
  intros Hf Hr Hc Hnet.
  assert (Hfetch :
    fetch_dv float_of_str net 0 (JStr "X1") (JStr "2020-01-01")
             (JStr "2020-01-02")
    = Ok ([JStr "2020-01-01"], [5.5%float])).
  { unfold fetch_dv. rewrite Hnet.
    rewrite (extract_dv_carries float_of_str data _ Hc).
    unfold Scenario.two_observations, Scenario.observation.
    rewrite dv_loop_cons by reflexivity.
    change (label_of _) with (Ok (A := json) (JStr "2020-01-01")).
    cbn [bind]. change (field _ "value") with (JStr "5.5").
    cbn [py_float]. rewrite Hf. reflexivity. }
  eexists. split; [|split; [|split]].
  - unfold run. cbn [Py.iter bind visit_all]. unfold Scenario.X1.
    unfold Scenario.station. rewrite visit_eligible by reflexivity.
    cbv zeta.
    change (field _ "site_no") with (JStr "X1").
    change (field _ "temp_begin") with (JStr "2020-01-01").
    change (field _ "temp_end") with (JStr "2020-01-02").
    change (calls init) with 0. rewrite Hfetch. reflexivity.
  - reflexivity.
  - reflexivity.
  - cbv. rewrite Hr. vm_compute. reflexivity.
Qed.

End OrchestratorClaims.

(** ** Cache keys and the no-data list *)

Lemma SFeqb_sym (x y : spec_float) : SFeqb x y = SFeqb y x.
Proof.
  unfold SFeqb, SFcompare.
  destruct x as [s | s | | s m e], y as [s' | s' | | s' m' e'];
    try reflexivity; try (destruct s; reflexivity);
    try (destruct s'; reflexivity); try (destruct s, s'; reflexivity).
  change (PosDef.Pos.compare_cont Eq m m') with (Pos.compare m m').
  change (PosDef.Pos.compare_cont Eq m' m) with (Pos.compare m' m).
  destruct s, s'; try reflexivity;
    rewrite (Z.compare_antisym e e'), (Pos.compare_antisym m m');
    destruct (e ?= e')%Z, (m ?= m')%positive; reflexivity.
Qed.

Lemma float_eqb_sym (f g : float) : (f =? g)%float = (g =? f)%float.
Proof. rewrite !FloatAxioms.eqb_spec. apply SFeqb_sym. Qed.

Lemma pystr_eqb_sym (a b : pystr) : PyStr.eqb a b = PyStr.eqb b a.
Proof.
  destruct (PyStr.eqb a b) eqn:H.
  - apply pystr_eqb_eq in H. subst. symmetry. apply pystr_eqb_refl.
  - symmetry. apply pystr_eqb_neq. apply pystr_eqb_neq in H. congruence.
Qed.

Lemma key_eqb_sym (a b : json) : Key.eqb a b = Key.eqb b a.
Proof.
  destruct a, b; simpl; try reflexivity;
    try apply Z.eqb_sym; try apply pystr_eqb_sym;
    try (rewrite float_eqb_sym; f_equal; apply andb_comm).
  destruct b, b0; reflexivity.
Qed.

Lemma distinct_app (p q : list json) :
  distinct (p ++ q) ->
  forall a b, In a p -> In b q -> Key.eqb a b = false.
Proof.
  induction p as [|x p IH]; simpl; [intros _ a b []|].
  intros [Hx Hd] a b [<- | Ha] Hb.
  - rewrite Forall_forall in Hx. apply Hx, in_or_app. auto.
  - apply (IH Hd a b Ha Hb).
Qed.

Lemma requested_app (l1 l2 : list json) :
  requested (l1 ++ l2) = requested l1 ++ requested l2.
Proof. unfold requested. rewrite filter_app, map_app. reflexivity. Qed.

Section Disjoint.

Variable float_of_str : pystr -> option float.
Variable net : service.

(** One visit keeps the cache keys and the no-data list apart, when the
    identifier of the station is a key that the state does not hold. *)
Lemma visit_disjoint (st st' : state) (s : json) :
  visit float_of_str net st s = Ok st' ->
  (eligible s = true ->
   forall k, In k (keys (cache st)) \/ In k (no_dv st) ->
             Key.eqb k (site_of s) = false) ->
  disjoint_outputs st -> disjoint_outputs st'.
Proof.
  destruct s as [| | | | | |o]; try discriminate.
  destruct (eligible (JObj o)) eqn:He.
  - rewrite visit_eligible by assumption. cbv zeta. intros Hv Hnew Hd.
    specialize (Hnew eq_refl). unfold site_of in Hnew.
    destruct (fetch_dv _ _ _ _ _ _) as [[[|lbl lbls] temps]|e].
    + injection Hv as <-. intros k x Hk Hx. cbn [cache no_dv] in Hk, Hx.
      apply in_app_iff in Hx. destruct Hx as [Hx | [<- | []]].
      * apply (Hd k x Hk Hx).
      * apply Hnew. auto.
    + unfold setitem in Hv. destruct (Key.hashable _); [|discriminate].
      injection Hv as <-. intros k x Hk Hx. cbn [cache no_dv] in Hk, Hx.
      apply store_keys in Hk. destruct Hk as [Hk | <-].
      * apply (Hd k x Hk Hx).
      * rewrite key_eqb_sym. apply Hnew. auto.
    + injection Hv as <-. exact Hd.
  - rewrite visit_excluded by assumption. intros [= <-] _ Hd. exact Hd.
Qed.

Lemma visit_all_disjoint (stations : list json) : forall st st',
  visit_all float_of_str net st stations = Ok st' ->
  (forall k, In k (keys (cache st)) \/ In k (no_dv st) ->
             Forall (fun b => Key.eqb k b = false) (requested stations)) ->
  distinct (requested stations) ->
  disjoint_outputs st -> disjoint_outputs st'.
Proof.
  induction stations as [|s l IH]; intros st st' Hrun Hold Hdist Hd;
    simpl in Hrun.
  - injection Hrun as <-. exact Hd.
  - destruct (visit float_of_str net st s) as [st1|] eqn:Hv; [|discriminate].
    simpl in Hrun. unfold requested in Hold, Hdist. simpl in Hold, Hdist.
    apply (IH st1 st' Hrun).
    + intros k Hk.
      destruct (visit_provenance float_of_str net st st1 s Hv k Hk)
        as [Hk' | [He Hs]].
      * specialize (Hold k Hk'). destruct (eligible s); [|exact Hold].
        simpl in Hold. inversion Hold; assumption.
      * rewrite He in Hdist. simpl in Hdist. subst k. apply Hdist.
    + destruct (eligible s); [apply Hdist | exact Hdist].
    + apply (visit_disjoint st st1 s Hv); [|exact Hd].
      intros He k Hk. specialize (Hold k Hk). rewrite He in Hold.
      simpl in Hold. inversion Hold; assumption.
Qed.

(** C7, as the code has it: when the identifiers of the eligible stations
    are pairwise distinct, a finished run leaves no identifier both among
    the cache keys and in the no-data list, and the identifier of an
    eligible station is not yet a cache key when the station is visited,
    so the store of line 92 adds an entry and overwrites none. *)
Theorem C7_distinct_stations_stay_apart (stations : list json) (final : state) :
  distinct (requested stations) ->
  visit_all float_of_str net init stations = Ok final ->
  disjoint_outputs final
  /\ forall before s after_ st,
       stations = before ++ s :: after_ ->
       eligible s = true ->
       visit_all float_of_str net init before = Ok st ->
       forall k, In k (keys (cache st)) -> Key.eqb k (site_of s) = false.
Proof.
  intros Hdist Hrun. split.
  - apply (visit_all_disjoint stations init final Hrun); [|exact Hdist|].
    + intros k [[] | []].
    + intros k x [].
  - intros before s after_ st -> He Hbefore k Hk.
    destruct (visit_all_provenance float_of_str net before init st Hbefore k
                (or_introl Hk)) as [[[] | []] | (s' & Hin & He' & Hs')].
    rewrite requested_app in Hdist.
    apply (distinct_app _ _ Hdist).
    + unfold requested. rewrite <- Hs'.
      apply (in_map site_of), filter_In. auto.
    + unfold requested. simpl. rewrite He. left. reflexivity.
Qed.

End Disjoint.

(** C7 as stated fails: the list may name a station twice, and the first
    answer may carry data while the second carries none. *)
Lemma C7_counterexample :
  exists final,
    visit_all PyFloat.of_str data_once init [Scenario.X1; Scenario.X1]
    = Ok final
    /\ ~ disjoint_outputs final.
Proof.
  eexists. split; [vm_compute; reflexivity|].
  intros H. specialize (H (JStr "X1") (JStr "X1")).
  cbn [cache no_dv keys map fst] in H.
  discriminate H; left; reflexivity.
Qed.

Lemma C7_witness :
  distinct (requested [Scenario.X1; Scenario.station "X2"])
  /\ disjoint_outputs
       (State [(JStr "X1", Series [JStr "2020-01-01"] [5.5%float])]
              [JStr "X2"]
              [LogFetching (JStr "X1") (JStr "2020-01-01") (JStr "2020-01-02");
               LogFetching (JStr "X2") (JStr "2020-01-01") (JStr "2020-01-02")]
              2).
Proof.
  assert (Hd : distinct (requested [Scenario.X1; Scenario.station "X2"])).
  { simpl. repeat constructor. }
  split; [exact Hd|].
  refine (proj1 (C7_distinct_stations_stay_apart PyFloat.of_str data_once
                   [Scenario.X1; Scenario.station "X2"] _ Hd _)).
  vm_compute. reflexivity.
Defined.

(** ** The claims at the scenarios *)

Lemma C2_witness :
  exists st,
    run PyFloat.of_str (always (Body (dv_body Scenario.two_observations)))
        (JList [Scenario.X1]) = Ok st
    /\ cache st = [(JStr "X1", Series [JStr "2020-01-01"] [5.5%float])]
    /\ no_dv st = []
    /\ written PyFloat.repr st
       = Scenario.text
           "var staticTempCache = {'X1':{'labels':['2020-01-01'],'temps':[5.5]}};"
         ++ [10%N] ++ str "var staticTempNoDv = [];" ++ [10%N].
Proof.
  apply (C2_single_station_scenario PyFloat.of_str
           (always (Body (dv_body Scenario.two_observations)))
           PyFloat.repr (dv_body Scenario.two_observations)).
  - vm_compute. reflexivity.
  - vm_compute. reflexivity.
  - apply dv_body_carries.
  - reflexivity.
Defined.

Lemma C3_witness :
  visit PyFloat.of_str (always (Body (dv_body Scenario.two_observations)))
        init Scenario.X1_without_lat
  = Ok init.
Proof.
  refine (proj1 (proj2 (C3_incomplete_station_is_excluded PyFloat.of_str
     (always (Body (dv_body Scenario.two_observations)))
     [(str "site_no", JStr "X1");
      (str "temp_begin", JStr "2020-01-01");
      (str "temp_end", JStr "2020-01-02");
      (str "lon", JFloat 2)] _)) init).
  right; right; right; left. reflexivity.
Defined.

Lemma C4_witness :
  visit PyFloat.of_str (always (Body Scenario.no_time_series)) init
        Scenario.X1
  = Ok (State [] [JStr "X1"]
              [LogFetching (JStr "X1") (JStr "2020-01-01") (JStr "2020-01-02")]
              1).
Proof.
  refine (proj2 (C4_missing_series_is_no_data PyFloat.of_str
     (always (Body Scenario.no_time_series)) init
     [(str "site_no", JStr "X1");
      (str "temp_begin", JStr "2020-01-01");
      (str "temp_end", JStr "2020-01-02");
      (str "lat", JFloat 1);
      (str "lon", JFloat 2)]
     Scenario.no_time_series _ _ _)).
  - apply (NoTimeSeries _ [(str "timeSeries", JList [])]).
    + reflexivity.
    + right; left. reflexivity.
  - reflexivity.
  - reflexivity.
Defined.

Lemma C5_witness :
  visit_all PyFloat.of_str (always (Fails (URLError "Connection refused")))
            init [Scenario.X1; Scenario.station "X2"]
  = visit_all PyFloat.of_str (always (Fails (URLError "Connection refused")))
      (State [] []
         [LogFetching (JStr "X1") (JStr "2020-01-01") (JStr "2020-01-02");
          LogError (JStr "X1") (URLError "Connection refused")]
         1)
      [Scenario.station "X2"].
Proof.
  refine (proj1 (proj2 (C5_fetch_error_is_logged_and_skipped PyFloat.of_str
     (always (Fails (URLError "Connection refused"))) init
     [(str "site_no", JStr "X1");
      (str "temp_begin", JStr "2020-01-01");
      (str "temp_end", JStr "2020-01-02");
      (str "lat", JFloat 1);
      (str "lon", JFloat 2)]
     (URLError "Connection refused") [Scenario.station "X2"] _ _))).
  - reflexivity.
  - reflexivity.
Defined.

Lemma C9_witness :
  exists lbls,
    lbls <> [] /\ length lbls = 1
    /\ visit PyFloat.of_str
         (always (Body (dv_body
            [Scenario.observation "Ice" "2020-01-01T00:00:00"])))
         init Scenario.X1
       = Ok (State [(JStr "X1", Series lbls [])] []
               [LogFetching (JStr "X1") (JStr "2020-01-01")
                            (JStr "2020-01-02")]
               1).
Proof.
  refine (proj2 (C9_labels_alone_decide PyFloat.of_str
     (always (Body (dv_body
        [Scenario.observation "Ice" "2020-01-01T00:00:00"])))
     init
     [(str "site_no", JStr "X1");
      (str "temp_begin", JStr "2020-01-01");
      (str "temp_end", JStr "2020-01-02");
      (str "lat", JFloat 1);
      (str "lon", JFloat 2)]
     (dv_body [Scenario.observation "Ice" "2020-01-01T00:00:00"])
     [Scenario.observation "Ice" "2020-01-01T00:00:00"] _ _) _ _ _ _).
  - reflexivity.
  - reflexivity.
  - reflexivity.
  - apply dv_body_carries.
  - discriminate.
  - constructor; [|constructor].
    exists [(str "value", JStr "Ice");
            (str "dateTime", JStr "2020-01-01T00:00:00")],
           (str "Ice"), (str "2020-01-01T00:00:00").
    repeat split; reflexivity.
Defined.

(** ** The encoder and the decoder *)

(** *** Strings *)

Lemma hex_val_hex_digit (d : N) :
  (d < 16)%N -> Json.hex_val (Json.hex_digit d) = Some d.
Proof.
  intros H.
  assert (Hd : In d (map N.of_nat (seq 0 16))).
  { apply in_map_iff. exists (N.to_nat d). split; [apply N2Nat.id|].
    apply in_seq. lia. }
  simpl in Hd.
  repeat (destruct Hd as [<- | Hd]; [reflexivity|]). destruct Hd.
Qed.

Lemma hex4_u_escape (n : N) :
  (n < 65536)%N ->
  Json.hex4 (Json.hex_digit (n / 4096)) (Json.hex_digit ((n / 256) mod 16))
            (Json.hex_digit ((n / 16) mod 16)) (Json.hex_digit (n mod 16))
  = Some n.
Proof.
  intros H. unfold Json.hex4.
  rewrite !hex_val_hex_digit;
    try (apply N.mod_lt; discriminate);
    try (apply N.Div0.div_lt_upper_bound; exact H).
  f_equal.
  assert (E1 : (n / 4096 = n / 256 / 16)%N)
    by (rewrite N.Div0.div_div; reflexivity).
  assert (E2 : (n / 256 = n / 16 / 16)%N)
    by (rewrite N.Div0.div_div; reflexivity).
  pose proof (N.div_mod (n / 256) 16) as D1.
  pose proof (N.div_mod (n / 16) 16) as D2.
  pose proof (N.div_mod n 16) as D3.
  rewrite E1. rewrite E2 in D1 |- *.
  generalize dependent (n / 16 / 16 / 16)%N.
  generalize dependent ((n / 16 / 16) mod 16)%N.
  generalize dependent (n / 16 / 16)%N.
  generalize dependent ((n / 16) mod 16)%N.
  generalize dependent (n / 16)%N.
  generalize dependent (n mod 16)%N.
  intros. lia.
Qed.

Lemma scanstring_u (a b c d : N) (s3 : pystr) :
  Json.scanstring (92%N :: 117%N :: a :: b :: c :: d :: s3) =
  match Json.hex4 a b c d with
  | None => None
  | Some hi =>
      match Json.low_after hi s3, s3 with
      | Some lo, _ :: _ :: _ :: _ :: _ :: _ :: s4 =>
          Json.cons_fst (Json.join_surrogates hi lo) (Json.scanstring s4)
      | _, _ => Json.cons_fst hi (Json.scanstring s3)
      end
  end.
Proof. reflexivity. Qed.

Lemma scanstring_plain (c : N) (s1 : pystr) :
  c <> 34%N -> c <> 92%N -> (31 < c)%N ->
  Json.scanstring (c :: s1) = Json.cons_fst c (Json.scanstring s1).
Proof.
  intros H1 H2 H3. cbn [Json.scanstring].
  apply N.eqb_neq in H1, H2. rewrite H1, H2.
  destruct (N.leb_spec c 31); [lia | reflexivity].
Qed.

Lemma low_after_not_high (hi : N) (s : pystr) :
  Json.is_high hi = false -> Json.low_after hi s = None.
Proof.
  intros H. destruct s as [|b1 [|b2 t]]; try reflexivity.
  unfold Json.low_after. rewrite H, andb_false_r. reflexivity.
Qed.

Lemma scanstring_u_single (n : N) (tail : pystr) :
  (n < 65536)%N -> Json.low_after n tail = None ->
  Json.scanstring (Json.u_escape n ++ tail)
  = Json.cons_fst n (Json.scanstring tail).
Proof.
  intros Hn Hlow. unfold Json.u_escape. cbn [app].
  rewrite scanstring_u, hex4_u_escape, Hlow by exact Hn. reflexivity.
Qed.

(** The two escapes of a character beyond the basic plane. *)
Lemma surrogates_of (c : N) :
  (65536 <= c)%N -> (c < 1114112)%N ->
  let n := (c - 65536)%N in
  let hi := (55296 + (n / 1024) mod 1024)%N in
  let lo := (56320 + n mod 1024)%N in
  (hi < 65536)%N /\ (lo < 65536)%N
  /\ Json.is_high hi = true /\ Json.is_low lo = true
  /\ Json.join_surrogates hi lo = c.
Proof.
  intros H1 H2 n.
  assert (Hn : (n < 1024 * 1024)%N) by (unfold n; lia).
  assert (Hq : (n / 1024 < 1024)%N)
    by (apply N.Div0.div_lt_upper_bound, Hn).
  assert (Hm : (n mod 1024 < 1024)%N) by (apply N.mod_lt; discriminate).
  assert (Hq' : ((n / 1024) mod 1024 = n / 1024)%N)
    by (apply N.mod_small, Hq).
  assert (D : (n = 1024 * (n / 1024) + n mod 1024)%N)
    by (apply N.div_mod; discriminate).
  assert (Hc : (c = 65536 + n)%N) by (unfold n; lia).
  cbv zeta. rewrite Hq'.
  generalize dependent (n / 1024)%N. generalize dependent (n mod 1024)%N.
  intros r Hr q Hq _ D.
  unfold Json.is_high, Json.is_low, Json.join_surrogates.
  repeat split; try lia.
  - apply andb_true_iff. split; apply N.leb_le; lia.
  - apply andb_true_iff. split; apply N.leb_le; lia.
Qed.

Lemma scanstring_u_pair (c : N) (tail : pystr) :
  (65536 <= c)%N -> (c < 1114112)%N ->
  Json.scanstring (Json.escape_char c ++ tail)
  = Json.cons_fst c (Json.scanstring tail).
Proof.
  intros H1 H2.
  destruct (surrogates_of c H1 H2) as (Hh & Hl & Hhi & Hlo & Hj).
  unfold Json.escape_char.
  repeat match goal with
         | |- context [(c =? ?k)%N] =>
             destruct (N.eqb_spec c k); [lia|]
         end.
  replace ((32 <=? c) && (c <=? 126))%N with false
    by (symmetry; apply andb_false_iff; right; apply N.leb_gt; lia).
  destruct (N.ltb_spec c 65536); [lia|].
  cbv zeta.
  set (hi := (55296 + ((c - 65536) / 1024) mod 1024)%N) in *.
  set (lo := (56320 + (c - 65536) mod 1024)%N) in *.
  rewrite <- app_assoc. unfold Json.u_escape at 1. cbn [app].
  rewrite scanstring_u, hex4_u_escape by exact Hh.
  unfold Json.u_escape. cbn [app]. cbn [Json.low_after].
  rewrite Hhi, (hex4_u_escape lo Hl), Hlo. cbn [N.eqb Pos.eqb andb].
  rewrite Hj. reflexivity.
Qed.

(** One character: the decoder reads back what the encoder wrote. *)
Lemma scanstring_escape_char (c : N) (tail : pystr) :
  (c < 1114112)%N ->
  (Json.is_high c = true -> Json.low_after c tail = None) ->
  Json.scanstring (Json.escape_char c ++ tail)
  = Json.cons_fst c (Json.scanstring tail).
Proof.
  intros Hc Hlow.
  destruct (N.ltb_spec c 65536) as [Hs | Hs];
    [|apply scanstring_u_pair; assumption].
  unfold Json.escape_char.
  repeat match goal with
         | |- context [(c =? ?k)%N] =>
             destruct (N.eqb_spec c k); [subst c; reflexivity|]
         end.
  destruct ((32 <=? c) && (c <=? 126))%N eqn:Hp.
  - apply andb_true_iff in Hp. destruct Hp as [Hp _].
    apply N.leb_le in Hp. apply scanstring_plain; try assumption. lia.
  - destruct (N.ltb_spec c 65536); [|lia].
    apply scanstring_u_single; [assumption|].
    destruct (Json.is_high c) eqn:Hh; [auto | apply low_after_not_high, Hh].
Qed.

(** No escape of a character that is not a low surrogate completes a
    surrogate pair. *)
Lemma low_after_escape (hi c : N) (tail : pystr) :
  (c < 1114112)%N -> Json.is_low c = false ->
  Json.low_after hi (Json.escape_char c ++ tail) = None.
Proof.
  intros Hc Hl. unfold Json.escape_char.
  repeat match goal with
         | |- context [(c =? ?k)%N] =>
             destruct (N.eqb_spec c k); [reflexivity|]
         end.
  destruct ((32 <=? c) && (c <=? 126))%N eqn:Hp.
  - cbn [app]. destruct tail as [|b2 t]; [reflexivity|].
    unfold Json.low_after.
    destruct (N.eqb_spec c 92); [contradiction | reflexivity].
  - destruct (N.ltb_spec c 65536) as [Hs | Hs].
    + unfold Json.u_escape. cbn [app]. unfold Json.low_after.
      rewrite (hex4_u_escape c Hs), Hl.
      destruct (Json.is_high hi); reflexivity.
    + destruct (surrogates_of c Hs Hc) as (Hh & _ & Hhi & _ & _).
      cbv zeta. rewrite <- app_assoc. unfold Json.u_escape at 1.
      cbn [app]. unfold Json.low_after. rewrite (hex4_u_escape _ Hh).
      replace (Json.is_low _) with false.
      * destruct (Json.is_high hi); reflexivity.
      * symmetry. unfold Json.is_high, Json.is_low in *.
        apply andb_true_iff in Hhi. destruct Hhi as [_ Hhi].
        apply N.leb_le in Hhi. apply andb_false_iff. left.
        apply N.leb_gt. lia.
Qed.

Lemma scanstring_escaped (s : pystr) (rest : pystr) :
  text_ok s = true ->
  Json.scanstring (flat_map Json.escape_char s ++ 34%N :: rest)
  = Some (s, rest).
Proof.
  induction s as [|c s IH]; [reflexivity|].
  cbn [text_ok flat_map]. rewrite !andb_true_iff, negb_true_iff.
  intros [[Hc Hpair] Hs]. apply N.ltb_lt in Hc.
  rewrite <- app_assoc, scanstring_escape_char, (IH Hs); [reflexivity | exact Hc |].
  intros Hh. rewrite Hh in Hpair. cbn [andb] in Hpair.
  destruct s as [|c' s]; [destruct rest; reflexivity|].
  cbn [flat_map]. rewrite <- app_assoc.
  cbn [text_ok] in Hs. rewrite !andb_true_iff in Hs.
  destruct Hs as [[Hc' _] _]. apply N.ltb_lt in Hc'.
  apply low_after_escape; assumption.
Qed.


Lemma scan_once_string (float_of_str : pystr -> option float)
  (fuel : nat) (s rest : pystr) :
  text_ok s = true ->
  Json.scan_once float_of_str (S fuel) (Json.quote s ++ rest)
  = Some (JStr s, rest).
Proof.
  intros H. unfold Json.quote. cbn [app Json.scan_once].
  rewrite <- app_assoc. cbn [app N.eqb Pos.eqb].
  rewrite (scanstring_escaped s rest H). reflexivity.
Qed.

(** *** Numbers *)

Lemma delimited_not_digit (c : N) (rest : pystr) :
  delimited (c :: rest) ->
  Json.is_digit c = false /\ c <> 46%N /\ c <> 101%N /\ c <> 69%N
  /\ c <> 45%N /\ c <> 43%N /\ Json.is_ws c = false.
Proof.
  intros [-> | [-> | ->]]; repeat split; discriminate.
Qed.

Lemma span_digits_app (t rest : pystr) :
  delimited rest ->
  Json.span_digits (t ++ rest)
  = (fst (Json.span_digits t), snd (Json.span_digits t) ++ rest).
Proof.
  intros Hd. induction t as [|c t IH]; cbn [app Json.span_digits].
  - destruct rest as [|c rest]; [reflexivity|].
    cbn [Json.span_digits].
    destruct (delimited_not_digit c rest Hd) as [-> _]. reflexivity.
  - destruct (Json.is_digit c); [|reflexivity].
    rewrite IH. destruct (Json.span_digits t). reflexivity.
Qed.

Lemma match_integer_app (t rest : pystr) neg ds r :
  delimited rest ->
  Json.match_integer t = Some (neg, ds, r) ->
  Json.match_integer (t ++ rest) = Some (neg, ds, r ++ rest).
Proof.
  intros Hd. unfold Json.match_integer.
  assert (Hrun : forall s1 n,
    match s1 with
    | c :: s2 =>
        if (c =? 48)%N then Some (n, [48%N], s2)
        else if Json.is_digit c then
          let (ds, rest) := Json.span_digits s1 in Some (n, ds, rest)
        else None
    | [] => None
    end = Some (neg, ds, r) ->
    match s1 ++ rest with
    | c :: s2 =>
        if (c =? 48)%N then Some (n, [48%N], s2)
        else if Json.is_digit c then
          let (ds, rest) := Json.span_digits (s1 ++ rest) in Some (n, ds, rest)
        else None
    | [] => None
    end = Some (neg, ds, r ++ rest)).
  { intros [|c s2] n; [discriminate|]. cbn [app].
    destruct (c =? 48)%N; [intros [= <- <- <-]; reflexivity|].
    destruct (Json.is_digit c); [|discriminate].
    change (c :: s2 ++ rest) with ((c :: s2) ++ rest).
    rewrite (span_digits_app (c :: s2) rest Hd).
    destruct (Json.span_digits (c :: s2)) as [ds' r'].
    intros [= <- <- <-]. reflexivity. }
  destruct t as [|m t1]; [discriminate|]. cbn [app].
  destruct (m =? 45)%N.
  - apply Hrun.
  - apply (Hrun (m :: t1)).
Qed.

Lemma match_frac_app (t rest : pystr) :
  delimited rest ->
  Json.match_frac (t ++ rest)
  = (fst (Json.match_frac t), snd (Json.match_frac t) ++ rest).
Proof.
  intros Hd. unfold Json.match_frac.
  destruct t as [|d [|c t]]; cbn [app].
  - destruct rest as [|d [|c rest]]; try reflexivity.
    destruct (delimited_not_digit d _ Hd) as (_ & H & _).
    apply N.eqb_neq in H. rewrite H. reflexivity.
  - destruct rest as [|c rest]; [reflexivity|].
    destruct (delimited_not_digit c _ Hd) as (-> & _).
    rewrite andb_false_r. reflexivity.
  - destruct ((d =? 46)%N && Json.is_digit c); [|reflexivity].
    change (c :: t ++ rest) with ((c :: t) ++ rest).
    rewrite (span_digits_app (c :: t) rest Hd).
    destruct (Json.span_digits (c :: t)). reflexivity.
Qed.

Lemma match_exp_app (t rest : pystr) :
  delimited rest ->
  Json.match_exp (t ++ rest)
  = (fst (Json.match_exp t), snd (Json.match_exp t) ++ rest).
Proof.
  intros Hd. unfold Json.match_exp.
  destruct t as [|e t]; cbn [app].
  - destruct rest as [|e rest]; [reflexivity|].
    destruct (delimited_not_digit e _ Hd) as (_ & _ & H1 & H2 & _).
    apply N.eqb_neq in H1, H2. rewrite H1, H2. reflexivity.
  - destruct ((e =? 101)%N || (e =? 69)%N); [|reflexivity].
    destruct t as [|c s2]; cbn [app].
    + destruct rest as [|c rest].
      * reflexivity.
      * destruct (delimited_not_digit c _ Hd) as (Hdig & _ & _ & _ & H1 & H2 & _).
        apply N.eqb_neq in H1, H2. rewrite H1, H2. cbn [orb].
        cbn [Json.span_digits]. rewrite Hdig. reflexivity.
    + destruct ((c =? 45)%N || (c =? 43)%N).
      * rewrite (span_digits_app s2 rest Hd).
        destruct (Json.span_digits s2) as [[|d ds] r]; reflexivity.
      * change (c :: s2 ++ rest) with ((c :: s2) ++ rest).
        rewrite (span_digits_app (c :: s2) rest Hd).
        destruct (Json.span_digits (c :: s2)) as [[|d ds] r]; reflexivity.
Qed.

Lemma scan_number_app (float_of_str : pystr -> option float)
  (t rest : pystr) (v : json) (r : pystr) :
  delimited rest ->
  Json.scan_number float_of_str t = Some (v, r) ->
  Json.scan_number float_of_str (t ++ rest) = Some (v, r ++ rest).
Proof.
  intros Hd. unfold Json.scan_number.
  destruct (Json.match_integer t) as [[[neg ds] s1]|] eqn:Hi; [|discriminate].
  rewrite (match_integer_app t rest neg ds s1 Hd Hi).
  rewrite (match_frac_app s1 rest Hd).
  destruct (Json.match_frac s1) as [frac s2]. cbn [fst snd].
  rewrite (match_exp_app s2 rest Hd).
  destruct (Json.match_exp s2) as [ex s3]. cbn [fst snd].
  destruct (frac ++ ex).
  - destruct (Nat.ltb _ _); [discriminate|]. intros [= <- <-]. reflexivity.
  - destruct (float_of_str _); [|discriminate]. intros [= <- <-]. reflexivity.
Qed.

Lemma after_head (w : N) (ws : pystr) (c : N) (s : pystr) :
  w <> c -> Json.after (w :: ws) (c :: s) = None.
Proof.
  intros H. cbn [Json.after]. apply N.eqb_neq in H. rewrite H. reflexivity.
Qed.

Lemma after_second (w1 w2 : N) (ws : pystr) (c : N) (s : pystr) :
  w2 <> c -> Json.after (w1 :: w2 :: ws) (w1 :: c :: s) = None.
Proof.
  intros H. cbn [Json.after]. apply N.eqb_neq in H.
  rewrite N.eqb_refl, H. reflexivity.
Qed.

Lemma is_digit_range (c : N) :
  Json.is_digit c = true -> (48 <= c <= 57)%N.
Proof.
  unfold Json.is_digit. rewrite andb_true_iff, !N.leb_le. tauto.
Qed.

(** A text that starts a number starts with a digit, or with a minus and
    a digit. *)
Lemma match_integer_head (t : pystr) neg ds r :
  Json.match_integer t = Some (neg, ds, r) ->
  exists m t1,
    t = m :: t1
    /\ ((48 <= m <= 57)%N
        \/ m = 45%N /\ exists c t2, t1 = c :: t2 /\ (48 <= c <= 57)%N).
Proof.
  unfold Json.match_integer.
  assert (Hrun : forall s1 n,
    match s1 with
    | c :: s2 =>
        if (c =? 48)%N then Some (n, [48%N], s2)
        else if Json.is_digit c then
          let (ds, rest) := Json.span_digits s1 in Some (n, ds, rest)
        else None
    | [] => None
    end = Some (neg, ds, r) ->
    exists c s2, s1 = c :: s2 /\ (48 <= c <= 57)%N).
  { intros [|c s2] n; [discriminate|]. intros H. exists c, s2.
    split; [reflexivity|].
    destruct (N.eqb_spec c 48); [lia|].
    destruct (Json.is_digit c) eqn:Hc; [|discriminate].
    apply is_digit_range, Hc. }
  destruct t as [|m t1]; [discriminate|].
  destruct (N.eqb_spec m 45) as [-> | Hm]; intros H.
  - exists 45%N, t1. split; [reflexivity|]. right. split; [reflexivity|].
    apply (Hrun t1 true H).
  - exists m, t1. split; [reflexivity|]. left.
    destruct (Hrun (m :: t1) false H) as (c & s2 & [= -> ->] & Hc). exact Hc.
Qed.

Lemma scan_once_number (float_of_str : pystr -> option float)
  (fuel : nat) (t rest : pystr) (v : json) :
  Json.scan_number float_of_str t = Some (v, []) ->
  delimited rest ->
  Json.scan_once float_of_str (S fuel) (t ++ rest) = Some (v, rest).
Proof.
  intros Hn Hd.
  pose proof (scan_number_app float_of_str t rest v [] Hd Hn) as Happ.
  unfold Json.scan_number in Hn.
  destruct (Json.match_integer t) as [[[neg ds] s1]|] eqn:Hi; [|discriminate].
  destruct (match_integer_head t neg ds s1 Hi) as (m & t1 & -> & Hm).
  cbn [app] in *. cbn [Json.scan_once].
  assert (H34 : (m =? 34)%N = false) by (apply N.eqb_neq; lia).
  assert (H123 : (m =? 123)%N = false) by (apply N.eqb_neq; lia).
  assert (H91 : (m =? 91)%N = false) by (apply N.eqb_neq; lia).
  rewrite H34, H123, H91.
  change (str "null") with (110 :: str "ull")%N.
  change (str "true") with (116 :: str "rue")%N.
  change (str "false") with (102 :: str "alse")%N.
  change (str "NaN") with (78 :: str "aN")%N.
  change (str "Infinity") with (73 :: str "nfinity")%N.
  rewrite !after_head by lia.
  replace (Json.after "-Infinity" (m :: t1 ++ rest)) with (@None pystr).
  - exact Happ.
  - symmetry. destruct Hm as [Hm | [-> (c & t2 & -> & Hc)]].
    + change (str "-Infinity") with (45 :: str "Infinity")%N.
      apply after_head. lia.
    + change (str "-Infinity") with (45 :: 73 :: str "nfinity")%N.
      apply (after_second 45 73 (str "nfinity") c (t2 ++ rest)). lia.
Qed.

(** *** Integers *)

Lemma span_uint_digits (u : Decimal.uint) :
  Json.span_digits (Json.uint_digits u) = (Json.uint_digits u, []).
Proof.
  induction u; cbn [Json.uint_digits Json.span_digits];
    try reflexivity;
    change (Json.is_digit _) with true; cbv iota; rewrite IHu; reflexivity.
Qed.

Lemma digits_value_acc (u : Decimal.uint) : forall acc : positive,
  fold_left (fun a c => (10 * a + Z.of_N (c - 48))%Z) (Json.uint_digits u)
            (Zpos acc)
  = Zpos (Pos.of_uint_acc u acc).
Proof.
  induction u; intros acc; cbn [Json.uint_digits fold_left Pos.of_uint_acc];
    try reflexivity; rewrite <- IHu; f_equal; lia.
Qed.

Lemma digits_value_uint (u : Decimal.uint) :
  Json.digits_value (Json.uint_digits u) = Z.of_N (Pos.of_uint u).
Proof.
  unfold Json.digits_value.
  induction u; cbn [Json.uint_digits fold_left Pos.of_uint Z.of_N];
    try reflexivity; try exact IHu;
    rewrite <- digits_value_acc; reflexivity.
Qed.

(** The decimal digits of a positive number do not start with [0]. *)
Lemma to_uint_head (p : positive) :
  exists c t,
    Json.uint_digits (Pos.to_uint p) = c :: t /\ (49 <= c <= 57)%N.
Proof.
  pose proof (DecimalPos.Unsigned.to_uint_nonzero p) as Hz.
  pose proof (DecimalPos.Unsigned.to_uint_nonnil p) as Hn.
  pose proof (DecimalPos.Unsigned.to_of (Pos.to_uint p)) as Hu.
  rewrite DecimalPos.Unsigned.of_to in Hu. cbn [N.to_uint] in Hu.
  destruct (Pos.to_uint p) as [|u|u|u|u|u|u|u|u|u|u] eqn:E;
    try (eexists _, _; split; [reflexivity | lia]).
  - congruence.
  - exfalso. unfold Decimal.unorm in Hu.
    destruct (Decimal.nzhead (Decimal.D0 u)) eqn:Hh;
      try discriminate Hu.
    + apply Hz. exact Hu.
    + apply (DecimalFacts.nzhead_nonzero _ _ Hh).
Qed.

Lemma scan_number_int (float_of_str : pystr -> option float) (z : Z) :
  int_ok z ->
  Json.scan_number float_of_str (Json.int_repr z) = Some (JInt z, []).
Proof.
  unfold int_ok.
  assert (Hpos : forall (p : positive) (neg : bool),
    length (Json.uint_digits (Pos.to_uint p)) <= Json.max_str_digits ->
    Json.scan_number float_of_str
      ((if neg then [45%N] else []) ++ Json.uint_digits (Pos.to_uint p))
    = Some (JInt (if neg then Zneg p else Zpos p), [])).
  { intros p neg Hlen.
    destruct (to_uint_head p) as (c & t & E & Hc).
    assert (Hi : Json.match_integer
                   ((if neg then [45%N] else [])
                    ++ Json.uint_digits (Pos.to_uint p))
                 = Some (neg, Json.uint_digits (Pos.to_uint p), [])).
    { unfold Json.match_integer.
      assert (Hrun :
        match Json.uint_digits (Pos.to_uint p) with
        | c :: s2 =>
            if (c =? 48)%N then Some (neg, [48%N], s2)
            else if Json.is_digit c then
              let (ds, rest) :=
                Json.span_digits (Json.uint_digits (Pos.to_uint p)) in
              Some (neg, ds, rest)
            else None
        | [] => None
        end = Some (neg, Json.uint_digits (Pos.to_uint p), [])).
      { rewrite span_uint_digits. rewrite E.
        destruct (N.eqb_spec c 48); [lia|].
        replace (Json.is_digit c) with true; [reflexivity|].
        symmetry. unfold Json.is_digit. apply andb_true_iff.
        split; apply N.leb_le; lia. }
      destruct neg; cbn [app].
      - exact Hrun.
      - rewrite E in *. destruct (N.eqb_spec c 45); [lia | exact Hrun]. }
    unfold Json.scan_number. rewrite Hi. cbn [Json.match_frac Json.match_exp app].
    destruct (Nat.ltb_spec Json.max_str_digits
                (length (Json.uint_digits (Pos.to_uint p)))); [lia|].
    rewrite digits_value_uint, DecimalPos.Unsigned.of_to.
    destruct neg; reflexivity. }
  destruct z as [|p|p]; intros H.
  - reflexivity.
  - apply (Hpos p false H).
  - apply (Hpos p true H).
Qed.

(** *** Floats *)

Lemma nan_is_nan (x : float) : is_nan x = true -> x = nan.
Proof.
  intros H. rewrite <- (SF2Prim_Prim2SF x). unfold Prim2SF. rewrite H.
  reflexivity.
Qed.

Lemma SFeqb_infinity (sx : spec_float) (s : bool) :
  SFeqb sx (S754_infinity s) = true -> sx = S754_infinity s.
Proof.
  unfold SFeqb, SFcompare.
  destruct sx as [s' | s' | | s' m e]; try discriminate;
    destruct s', s; try discriminate; reflexivity.
Qed.

Lemma infinity_is_infinity (x : float) :
  (x =? infinity)%float = true -> x = infinity.
Proof.
  rewrite FloatAxioms.eqb_spec.
  change (Prim2SF infinity) with (S754_infinity false).
  intros H. apply SFeqb_infinity in H.
  rewrite <- (SF2Prim_Prim2SF x), H. reflexivity.
Qed.

Lemma neg_infinity_is_neg_infinity (x : float) :
  (x =? neg_infinity)%float = true -> x = neg_infinity.
Proof.
  rewrite FloatAxioms.eqb_spec.
  change (Prim2SF neg_infinity) with (S754_infinity true).
  intros H. apply SFeqb_infinity in H.
  rewrite <- (SF2Prim_Prim2SF x), H. reflexivity.
Qed.

Section Values.

Variable float_of_str : pystr -> option float.
Variable float_repr : float -> pystr.

Lemma scan_once_float (fuel : nat) (x : float) (rest : pystr) :
  float_ok float_of_str float_repr x ->
  delimited rest ->
  Json.scan_once float_of_str (S fuel) (Json.float_str float_repr x ++ rest)
  = Some (JFloat x, rest).
Proof.
  intros Hx Hd. unfold Json.float_str.
  destruct (is_nan x) eqn:Hnan.
  { rewrite (nan_is_nan x Hnan). reflexivity. }
  destruct (x =? infinity)%float eqn:Hinf.
  { rewrite (infinity_is_infinity x Hinf). reflexivity. }
  destruct (x =? neg_infinity)%float eqn:Hninf.
  { rewrite (neg_infinity_is_neg_infinity x Hninf). reflexivity. }
  apply scan_once_number; [|exact Hd]. apply Hx; assumption.
Qed.

Lemma scan_once_int (fuel : nat) (z : Z) (rest : pystr) :
  int_ok z ->
  delimited rest ->
  Json.scan_once float_of_str (S fuel) (Json.int_repr z ++ rest)
  = Some (JInt z, rest).
Proof.
  intros Hz Hd. apply scan_once_number; [|exact Hd].
  apply scan_number_int, Hz.
Qed.

End Values.

(** *** Values *)

Lemma skip_ws_head (c : N) (t : pystr) :
  Json.is_ws c = false -> Json.skip_ws (c :: t) = c :: t.
Proof. intros H. cbn [Json.skip_ws]. rewrite H. reflexivity. Qed.

Lemma oset_fresh (o : list (pystr * json)) (k : pystr) (v : json) :
  ~ In k (map fst o) -> Json.oset o k v = o ++ [(k, v)].
Proof.
  induction o as [|[k' v'] o IH]; cbn [Json.oset map fst In app];
    [reflexivity|].
  intros H. destruct (PyStr.eqb k' k) eqn:E.
  - apply pystr_eqb_eq in E. tauto.
  - rewrite IH by tauto. reflexivity.
Qed.

Lemma join_cons2 (sep p q : pystr) (parts : list pystr) :
  Json.join sep (p :: q :: parts) = p ++ sep ++ Json.join sep (q :: parts).
Proof. reflexivity. Qed.

Section Decoding.

Variable float_of_str : pystr -> option float.
Variable float_repr : float -> pystr.

(** The text of a canonical value starts with a character that is
    neither white space nor a closing bracket. *)
Lemma dumps_head (v : json) :
  canonical float_of_str float_repr v ->
  exists c t,
    Json.dumps float_repr v = c :: t
    /\ Json.is_ws c = false /\ c <> 93%N /\ c <> 65279%N.
Proof.
  assert (Hnum : forall t w r,
    Json.scan_number float_of_str t = Some (w, r) ->
    exists c t', t = c :: t' /\ Json.is_ws c = false /\ c <> 93%N
                 /\ c <> 65279%N).
  { intros t w r H. unfold Json.scan_number in H.
    destruct (Json.match_integer t) as [[[neg ds] s1]|] eqn:Hi;
      [|discriminate].
    destruct (match_integer_head t neg ds s1 Hi) as (m & t1 & -> & Hm).
    exists m, t1. split; [reflexivity|].
    assert (Hr : (48 <= m <= 57)%N \/ m = 45%N) by tauto.
    unfold Json.is_ws. split; [|lia].
    repeat (apply orb_false_iff; split); apply N.eqb_neq; lia. }
  assert (Hlit : forall c t,
    Json.is_ws c = false -> (c < 128)%N -> c <> 93%N ->
    exists c' t', c :: t = c' :: t' /\ Json.is_ws c' = false /\ c' <> 93%N
                  /\ c' <> 65279%N).
  { intros c t H1 H2 H3. exists c, t. repeat split; [assumption | assumption | lia]. }
  destruct v as [|[]|z|x|s|l|o]; cbn [canonical Json.dumps]; intros H;
    try (apply Hlit; [reflexivity | reflexivity | discriminate]).
  - apply (Hnum _ _ _ (scan_number_int float_of_str z H)).
  - unfold Json.float_str.
    destruct (is_nan x) eqn:Hnan;
      [apply Hlit; [reflexivity | reflexivity | discriminate]|].
    destruct (x =? infinity)%float eqn:Hinf;
      [apply Hlit; [reflexivity | reflexivity | discriminate]|].
    destruct (x =? neg_infinity)%float eqn:Hninf;
      [apply Hlit; [reflexivity | reflexivity | discriminate]|].
    apply (Hnum _ _ _ (H Hnan Hinf Hninf)).
Qed.

Lemma scan_items_dumps (l : list json) :
  Forall (reads_back float_of_str float_repr) l ->
  Forall (canonical float_of_str float_repr) l ->
  l <> [] ->
  forall fuel rest,
    length (Json.join "," (map (Json.dumps float_repr) l)) + 1 < fuel ->
    Json.scan_items float_of_str fuel
      (Json.join "," (map (Json.dumps float_repr) l) ++ 93%N :: rest)
    = Some (l, rest).
Proof.
  induction l as [|v l IH]; [congruence|].
  intros Hread Hcan _ fuel rest Hfuel.
  inversion Hread as [|? ? Hv Hl]; subst.
  inversion Hcan as [|? ? Cv Cl]; subst.
  destruct fuel as [|fuel]; [lia|].
  destruct l as [|v2 l].
  - cbn [map Json.join] in *. cbn [Json.scan_items].
    rewrite (Hv fuel (93%N :: rest)); [reflexivity | cbn; auto | lia].
  - cbn [map] in *. rewrite join_cons2 in *.
    rewrite !length_app in Hfuel. cbn [length str] in Hfuel.
    rewrite <- !app_assoc. cbn [Json.scan_items].
    change (str "," ++ ?x) with (44%N :: x).
    rewrite (Hv fuel); [|cbn; auto | lia].
    cbn [Json.skip_ws Json.is_ws N.eqb Pos.eqb orb].
    destruct (dumps_head v2) as (c & t & E & Hws & _);
      [inversion Cl; assumption|].
    assert (Hskip : forall tail,
      Json.skip_ws
        (Json.join "," (Json.dumps float_repr v2
                          :: map (Json.dumps float_repr) l) ++ tail)
      = Json.join "," (Json.dumps float_repr v2
                         :: map (Json.dumps float_repr) l) ++ tail).
    { intros tail. destruct l; cbn [map Json.join]; rewrite E;
        cbn [app]; apply skip_ws_head, Hws. }
    rewrite Hskip.
    rewrite (IH Hl Cl); [reflexivity | discriminate |].
    change (length (str ",")) with 1 in Hfuel. lia.
Qed.

End Decoding.

Section DecodingObjects.

Variable float_of_str : pystr -> option float.
Variable float_repr : float -> pystr.

Lemma member_text_head (kv : pystr * json) :
  exists t, member_text float_repr kv = 34%N :: t.
Proof. destruct kv as [k x]. eexists. reflexivity. Qed.

Lemma scan_members_dumps (o : list (pystr * json)) :
  Forall (fun kv => reads_back float_of_str float_repr (snd kv)) o ->
  Forall (fun kv => text_ok (fst kv) = true
                    /\ canonical float_of_str float_repr (snd kv)) o ->
  o <> [] ->
  forall acc fuel rest,
    NoDup (map fst (acc ++ o)) ->
    length (Json.join "," (map (member_text float_repr) o)) + 1 < fuel ->
    Json.scan_members float_of_str fuel
      (Json.join "," (map (member_text float_repr) o) ++ 125%N :: rest) acc
    = Some (acc ++ o, rest).
Proof.
  induction o as [|[k v] o IH]; [congruence|].
  intros Hread Hcan _ acc fuel rest Hnd Hfuel.
  inversion Hread as [|? ? Hv Hl]; subst.
  inversion Hcan as [|? ? [Ck Cv] Cl]; subst. cbn [fst snd] in *.
  destruct fuel as [|fuel]; [lia|].
  assert (Hfresh : ~ In k (map fst acc)).
  { rewrite map_app in Hnd. cbn [map fst] in Hnd.
    apply NoDup_remove_2 in Hnd. rewrite in_app_iff in Hnd. tauto. }
  destruct (dumps_head float_of_str float_repr v Cv) as (c & t & E & Hws & _).
  assert (Hone : forall tail,
    delimited tail ->
    length (Json.dumps float_repr v) < fuel ->
    Json.scan_members float_of_str (S fuel)
      (member_text float_repr (k, v) ++ tail) acc
    = match Json.skip_ws tail with
      | 125%N :: rest' => Some (acc ++ [(k, v)], rest')
      | 44%N :: s4 =>
          Json.scan_members float_of_str fuel (Json.skip_ws s4)
                            (acc ++ [(k, v)])
      | _ => None
      end).
  { intros tail Hd Hlen. unfold member_text, Json.quote.
    cbn [app Json.scan_members]. rewrite <- !app_assoc. cbn [app].
    rewrite (scanstring_escaped k _ Ck).
    cbn [Json.skip_ws Json.is_ws N.eqb Pos.eqb orb].
    rewrite E. cbn [app]. rewrite (skip_ws_head c _ Hws).
    change (c :: t ++ tail) with ((c :: t) ++ tail). rewrite <- E.
    rewrite (Hv fuel tail Hd Hlen), (oset_fresh acc k v Hfresh).
    reflexivity. }
  destruct o as [|kv2 o].
  - cbn [map Json.join] in *. rewrite Hone; [reflexivity | cbn; auto |].
    unfold member_text in Hfuel. rewrite length_app in Hfuel.
    cbn [length] in Hfuel. lia.
  - cbn [map] in *. rewrite join_cons2 in *.
    rewrite !length_app in Hfuel. change (length (str ",")) with 1 in Hfuel.
    rewrite <- !app_assoc. change (str "," ++ ?x) with (44%N :: x).
    rewrite Hone; [|cbn; auto|].
    + cbn [Json.skip_ws Json.is_ws N.eqb Pos.eqb orb].
      assert (Hskip : forall tail,
        Json.skip_ws
          (Json.join "," (member_text float_repr kv2
                            :: map (member_text float_repr) o) ++ tail)
        = Json.join "," (member_text float_repr kv2
                           :: map (member_text float_repr) o) ++ tail).
      { intros tail. destruct (member_text_head kv2) as [t2 E2].
        destruct o; cbn [map Json.join]; rewrite E2; reflexivity. }
      rewrite Hskip.
      rewrite (IH Hl Cl); [| discriminate | | lia].
      * rewrite <- app_assoc. reflexivity.
      * rewrite <- app_assoc. exact Hnd.
    + unfold member_text in Hfuel. rewrite length_app in Hfuel.
      cbn [length] in Hfuel. lia.
Qed.

End DecodingObjects.

Section RoundTrip.

Variable float_of_str : pystr -> option float.
Variable float_repr : float -> pystr.

Lemma canonical_list (l : list json) :
  canonical float_of_str float_repr (JList l)
  <-> Forall (canonical float_of_str float_repr) l.
Proof.
  induction l as [|x l IH].
  - split; [constructor | exact (fun _ => I)].
  - change (canonical float_of_str float_repr (JList (x :: l)))
      with (canonical float_of_str float_repr x
            /\ canonical float_of_str float_repr (JList l)).
    rewrite IH. split.
    + intros [H1 H2]. constructor; assumption.
    + intros H. inversion H. auto.
Qed.

Lemma canonical_obj (o : list (pystr * json)) :
  canonical float_of_str float_repr (JObj o)
  <-> NoDup (map fst o)
      /\ Forall (fun kv => text_ok (fst kv) = true
                           /\ canonical float_of_str float_repr (snd kv)) o.
Proof.
  cbn [canonical].
  assert (H : forall o : list (pystr * json),
    (fix all (o : list (pystr * json)) : Prop :=
       match o with
       | [] => True
       | (k, x) :: o' =>
           text_ok k = true /\ canonical float_of_str float_repr x /\ all o'
       end) o
    <-> Forall (fun kv => text_ok (fst kv) = true
                          /\ canonical float_of_str float_repr (snd kv)) o).
  { clear o. induction o as [|[k x] o IH].
    - split; [constructor | exact (fun _ => I)].
    - rewrite IH. split.
      + intros (H1 & H2 & H3). constructor; auto.
      + intros H. inversion H as [|? ? [H1 H2] H3]. auto. }
  rewrite H. reflexivity.
Qed.

(** Every canonical value reads back from its text. *)
Lemma dumps_reads_back (v : json) :
  canonical float_of_str float_repr v ->
  reads_back float_of_str float_repr v.
Proof.
  induction v as [| b | z | x | s | l IH | o IH] using json_nested_ind;
    intros Hc fuel rest Hd Hfuel;
    (destruct fuel as [|fuel]; [lia|]).
  - reflexivity.
  - destruct b; reflexivity.
  - apply scan_once_int; assumption.
  - apply scan_once_float; assumption.
  - apply scan_once_string. exact Hc.
  - apply canonical_list in Hc. cbn [Json.dumps] in *.
    cbn [app Json.scan_once N.eqb Pos.eqb]. rewrite <- app_assoc. cbn [app].
    destruct l as [|v l].
    + reflexivity.
    + assert (Hread : Forall (reads_back float_of_str float_repr) (v :: l)).
      { rewrite Forall_forall in *. intros y Hy. apply (IH y Hy), Hc, Hy. }
      destruct (dumps_head float_of_str float_repr v) as (c & t & E & Hws & H93 & _);
        [inversion Hc; assumption|].
      assert (Hhead : exists t',
        Json.join "," (map (Json.dumps float_repr) (v :: l)) = c :: t').
      { destruct l; cbn [map]; [cbn [Json.join] | rewrite join_cons2];
          rewrite E; eexists; reflexivity. }
      destruct Hhead as [t' Et]. pose proof Et as Et'.
      apply (f_equal (fun x => x ++ 93%N :: rest)) in Et'. cbn [app] in Et'.
      assert (Hskip :
        Json.skip_ws (Json.join "," (map (Json.dumps float_repr) (v :: l))
                      ++ 93%N :: rest)
        = Json.join "," (map (Json.dumps float_repr) (v :: l))
          ++ 93%N :: rest)
        by (rewrite Et'; apply skip_ws_head, Hws).
      rewrite Hskip. rewrite Et' at 1.
      apply N.eqb_neq in H93. rewrite H93.
      rewrite (scan_items_dumps float_of_str float_repr (v :: l) Hread Hc);
        [reflexivity | discriminate |].
      cbn [length] in Hfuel. rewrite length_app in Hfuel.
      cbn [length] in Hfuel. lia.
  - apply canonical_obj in Hc. destruct Hc as [Hnd Hc].
    cbn [Json.dumps] in *.
    cbn [app Json.scan_once N.eqb Pos.eqb]. rewrite <- app_assoc. cbn [app].
    change (map (fun kv : pystr * json =>
                   let (k, x) := kv in
                   Json.quote k ++ 58%N :: Json.dumps float_repr x) o)
      with (map (member_text float_repr) o) in *.
    destruct o as [|kv o].
    + reflexivity.
    + assert (Hread : Forall (fun kv => reads_back float_of_str float_repr
                                                   (snd kv)) (kv :: o)).
      { rewrite Forall_forall in *. intros y Hy. apply (IH y Hy), Hc, Hy. }
      assert (Hhead : exists t',
        Json.join "," (map (member_text float_repr) (kv :: o)) = 34%N :: t').
      { destruct (member_text_head float_repr kv) as [t E].
        destruct o; cbn [map]; [cbn [Json.join] | rewrite join_cons2];
          rewrite E; eexists; reflexivity. }
      destruct Hhead as [t' Et]. pose proof Et as Et'.
      apply (f_equal (fun x => x ++ 125%N :: rest)) in Et'. cbn [app] in Et'.
      assert (Hskip :
        Json.skip_ws (Json.join "," (map (member_text float_repr) (kv :: o))
                      ++ 125%N :: rest)
        = Json.join "," (map (member_text float_repr) (kv :: o))
          ++ 125%N :: rest)
        by (rewrite Et'; reflexivity).
      rewrite Hskip. rewrite Et' at 1. cbn [N.eqb Pos.eqb]. rewrite <- Et'.
      rewrite (scan_members_dumps float_of_str float_repr (kv :: o) Hread Hc);
        [reflexivity | discriminate | exact Hnd |].
      cbn [length] in Hfuel. rewrite length_app in Hfuel.
      cbn [length] in Hfuel. lia.
Qed.

(** [json.loads(json.dumps(v))] is [v]. *)
Lemma loads_dumps (v : json) :
  canonical float_of_str float_repr v ->
  Json.loads float_of_str (Json.dumps float_repr v) = Some v.
Proof.
  intros Hc. unfold Json.loads.
  destruct (dumps_head float_of_str float_repr v Hc)
    as (c & t & E & Hws & _ & Hbom).
  assert (H1 : match Json.dumps float_repr v with
               | [] => false
               | c0 :: _ => (c0 =? 65279)%N
               end = false)
    by (rewrite E; apply N.eqb_neq, Hbom).
  assert (H2 : Json.skip_ws (Json.dumps float_repr v)
               = Json.dumps float_repr v ++ [])
    by (rewrite app_nil_r, E; apply skip_ws_head, Hws).
  rewrite H1, H2.
  rewrite (dumps_reads_back v Hc); [reflexivity | exact I | lia].
Qed.

End RoundTrip.

(** ** The writer *)

Section WriterClaims.

Variable float_of_str : pystr -> option float.
Variable float_repr : float -> pystr.

Lemma dump_cache_dumps (d : list (pystr * series)) :
  dump_cache float_repr (string_keyed d)
  = Json.dumps float_repr (cache_json d).
Proof.
  unfold dump_cache, cache_json, string_keyed. cbn [Json.dumps].
  rewrite !map_map. do 3 f_equal. apply map_ext.
  intros [k v]. reflexivity.
Qed.

Lemma cache_ok_canonical (d : list (pystr * series)) :
  cache_ok float_of_str float_repr d ->
  canonical float_of_str float_repr (cache_json d).
Proof.
  intros [Hnd Hall]. unfold cache_json. apply canonical_obj. split.
  - rewrite map_map.
    rewrite (map_ext _ fst); [exact Hnd | intros [k v]; reflexivity].
  - rewrite Forall_map. revert Hall. apply Forall_impl.
    intros [k v] (Hk & Hl & Ht). cbn [fst snd] in *. split; [exact Hk|].
    unfold series_json. apply canonical_obj. split.
    + repeat constructor; cbn; [intros [H | []]; discriminate H | tauto].
    + constructor; [|constructor; [|constructor]]; cbn [fst snd].
      * split; [reflexivity|]. apply canonical_list, Hl.
      * split; [reflexivity|]. apply canonical_list.
        rewrite Forall_map. exact Ht.
Qed.

(** C8: the first assignment of the output file is
    [var staticTempCache = ...;] with the cache written as compact JSON,
    and [json.loads] of that text is the cache again: the same keys in
    the same order, each with its labels and its values in their order. *)
Theorem C8_cache_round_trip
  (d : list (pystr * series)) (nodv : list json) (lines : list log_line)
  (n : nat) :
  cache_ok float_of_str float_repr d ->
  let st := State (string_keyed d) nodv lines n in
  let literal := dump_cache float_repr (cache st) in
  written float_repr st
  = str "var staticTempCache = " ++ literal ++ [59%N; 10%N]
    ++ str "var staticTempNoDv = " ++ Json.dumps float_repr (JList nodv)
    ++ [59%N; 10%N]
  /\ Json.loads float_of_str literal = Some (cache_json d).
Proof.
  intros Hok st literal. split; [reflexivity|].
  unfold literal, st. cbn [cache]. rewrite dump_cache_dumps.
  apply loads_dumps, cache_ok_canonical, Hok.
Qed.

End WriterClaims.

Lemma C8_witness :
  Json.loads PyFloat.of_str
    (dump_cache PyFloat.repr
       [(JStr "X1", Series [JStr "2020-01-01"] [5.5%float])])
  = Some (JObj [(str "X1",
                 JObj [(str "labels", JList [JStr "2020-01-01"]);
                       (str "temps", JList [JFloat 5.5])])]).
Proof.
  refine (proj2 (C8_cache_round_trip PyFloat.of_str PyFloat.repr
                   [(str "X1", Series [JStr "2020-01-01"] [5.5%float])]
                   [] [] 1 _)).
  split.
  - repeat constructor. intros [].
  - repeat constructor.
Defined.

(** * Further properties of the code *)

(** ** The fetcher *)

Section FetcherExtras.

Variable float_of_str : pystr -> option float.

Lemma passed_over_truthy (v : json) :
  passed_over v = false -> Py.truthy v = true.
Proof.
  destruct v as [| b | z | x | s | l | [|kv o]]; cbn [passed_over];
    try (intros H; apply negb_false_iff in H; exact H).
  reflexivity.
Qed.

Lemma dv_loop_passed_over (v : json) vals labels temps :
  passed_over v = true ->
  dv_loop float_of_str (v :: vals) labels temps
  = dv_loop float_of_str vals labels temps.
Proof.
  intros H. cbn [dv_loop].
  destruct (Py.truthy v) eqn:Ht; [|reflexivity]. cbn [negb].
  destruct v as [| b | z | x | s | l | [|kv o]]; cbn [passed_over] in H;
    try (rewrite Ht in H; discriminate H).
  rewrite get_obj. cbn [bind]. rewrite H. reflexivity.
Qed.

Lemma dv_loop_kept (vals : list json) : forall labels temps,
  dv_loop float_of_str vals labels temps
  = dv_loop float_of_str (kept vals) labels temps.
Proof.
  induction vals as [|v vals IH]; intros L T; [reflexivity|].
  unfold kept. cbn [filter]. fold (kept vals).
  destruct (passed_over v) eqn:Hp; cbn [negb].
  - rewrite dv_loop_passed_over by assumption. apply IH.
  - cbn [dv_loop]. rewrite (passed_over_truthy v Hp). cbn [negb].
    destruct (Py.get v "value" JNull) as [val|e]; [|reflexivity].
    cbn [bind]. destruct (blank val); [apply IH|].
    destruct (label_of v) as [lbl|e]; [|reflexivity]. cbn [bind].
    destruct (py_float float_of_str val) as [x|[]]; try reflexivity;
      apply IH.
Qed.

Lemma kept_not_passed_over (obs : list json) :
  Forall (fun v => passed_over v = false) (kept obs).
Proof.
  apply Forall_forall. intros v Hv. apply filter_In in Hv.
  apply negb_true_iff, Hv.
Qed.

Lemma passed_over_obj (o : list (pystr * json)) :
  passed_over (JObj o) = false ->
  Py.truthy (JObj o) = true /\ blank (field (JObj o) "value") = false.
Proof.
  destruct o as [|kv o]; cbn [passed_over Py.truthy negb];
    [discriminate | auto].
Qed.

Lemma dv_loop_orderly (vals : list json) : forall labels temps,
  Forall (orderly float_of_str) vals ->
  Forall (fun v => passed_over v = false) vals ->
  exists lbls xs,
    dv_loop float_of_str vals labels temps = Ok (labels ++ lbls, temps ++ xs)
    /\ Forall2 (fun v lbl => label_of v = Ok lbl) vals lbls
    /\ Forall2 (fun v x => py_float float_of_str (field v "value") = Ok x)
               (filter (converts float_of_str) vals) xs.
Proof.
  induction vals as [|v vals IH]; intros L T Hord Hkept.
  - exists [], []. rewrite !app_nil_r. repeat split; constructor.
  - inversion Hord as [|? ? ([o ->] & [lbl Hlbl] & Hval) Hord']; subst.
    inversion Hkept as [|? ? Hv Hkept']; subst.
    destruct (passed_over_obj o Hv) as [Ht Hb].
    rewrite dv_loop_cons by assumption. rewrite Hlbl. cbn [bind filter].
    unfold converts at 1.
    destruct (py_float float_of_str (field (JObj o) "value")) as [x|e] eqn:E.
    + destruct (IH (L ++ [lbl]) (T ++ [x]) Hord' Hkept')
        as (lbls & xs & -> & H1 & H2).
      exists (lbl :: lbls), (x :: xs). rewrite <- !app_assoc.
      repeat split; constructor; assumption.
    + rewrite (Hval e eq_refl).
      destruct (IH (L ++ [lbl]) T Hord' Hkept') as (lbls & xs & -> & H1 & H2).
      exists (lbl :: lbls), xs. rewrite <- !app_assoc.
      repeat split; [constructor; assumption | assumption].
Qed.

Lemma filter_all {A : Type} (f : A -> bool) (l : list A) :
  length l = length (filter f l) -> forallb f l = true.
Proof.
  induction l as [|x l IH]; [reflexivity|]. cbn [filter forallb].
  pose proof (filter_length_le f l) as Hle.
  destruct (f x); cbn [length]; intros H.
  - apply IH. lia.
  - lia.
Qed.

Lemma dv_loop_app (a b : list json) : forall labels temps,
  dv_loop float_of_str (a ++ b) labels temps
  = bind (dv_loop float_of_str a labels temps)
         (fun r => dv_loop float_of_str b (fst r) (snd r)).
Proof.
  induction a as [|v a IH]; intros L T; [reflexivity|].
  cbn [app dv_loop]. destruct (negb (Py.truthy v)); [apply IH|].
  destruct (Py.get v "value" JNull) as [val|e]; [|reflexivity].
  cbn [bind]. destruct (blank val); [apply IH|].
  destruct (label_of v) as [lbl|e]; [|reflexivity]. cbn [bind].
  destruct (py_float float_of_str val) as [x|[]]; try reflexivity; apply IH.
Qed.

Lemma dv_loop_ill_typed (v : json) vals labels temps :
  ill_typed v = true ->
  dv_loop float_of_str (v :: vals) labels temps = Raise TypeError.
Proof.
  destruct v as [| | | | | |o]; try discriminate. cbn [ill_typed].
  rewrite andb_true_iff, negb_true_iff. intros [Hb H].
  assert (Ht : Py.truthy (JObj o) = true).
  { destruct o; [discriminate Hb | reflexivity]. }
  rewrite dv_loop_cons by assumption.
  unfold label_of. cbn [Py.get bind].
  destruct (Py.lookup o "dateTime") as [[| b | z | x | dt | l | m]|];
    try discriminate H; try reflexivity; cbn [Py.slice10 bind];
    destruct (field (JObj o) "value"); try discriminate H; reflexivity.
Qed.

Lemma float_of_int_raises (z : Z) (e : exn) :
  Py.float_of_int z = Raise e -> e = OverflowError.
Proof.
  unfold Py.float_of_int.
  destruct (binary_normalize prec emax z 0 false); congruence.
Qed.

Lemma py_float_raises (val : json) (e : exn) :
  py_float float_of_str val = Raise e ->
  e = ValueError \/ e = TypeError \/ e = OverflowError.
Proof.
  destruct val as [| b | z | x | s | l | o]; cbn [py_float];
    try congruence; try (intros [= <-]; auto).
  - intros H. apply float_of_int_raises in H. auto.
  - destruct (float_of_str s); [discriminate | intros [= <-]; auto].
Qed.

Lemma dv_loop_raises (vals : list json) : forall labels temps e,
  dv_loop float_of_str vals labels temps = Raise e ->
  e = AttributeError \/ e = TypeError \/ e = OverflowError.
Proof.
  induction vals as [|v vals IH]; intros L T e; cbn [dv_loop];
    [discriminate|].
  destruct (negb (Py.truthy v)); [apply IH|].
  destruct v as [| b | z | x | s | l | o]; cbn [Py.get bind];
    try (intros [= <-]; auto).
  destruct (blank _); [apply IH|].
  unfold label_of. cbn [Py.get bind].
  destruct (Py.slice10 _) as [lbl|e'] eqn:Es.
  - cbn [bind].
    destruct (py_float float_of_str _) as [x|e'] eqn:Ef; [apply IH|].
    destruct (py_float_raises _ _ Ef) as [-> | [-> | ->]];
      [apply IH | intros [= <-]; auto | intros [= <-]; auto].
  - cbn [bind]. intros [= <-].
    destruct (match Py.lookup o "dateTime" with
              | Some v => v
              | None => JStr []
              end); cbn [Py.slice10] in Es; inversion Es; auto.
Qed.

Lemma extract_dv_raises (data : json) (e : exn) :
  extract_dv float_of_str data = Raise e ->
  e = AttributeError \/ e = TypeError \/ e = KeyError \/ e = OverflowError.
Proof.
  unfold extract_dv.
  destruct data as [| | | | | |d]; cbn [Py.get bind];
    try (intros [= <-]; auto).
  set (value := match Py.lookup d "value" with Some v => v | None => JNull end).
  destruct (Py.or value (JObj [])) as [| | | | | |v]; cbn [Py.get bind];
    try (intros [= <-]; auto).
  set (ts := match Py.lookup v "timeSeries" with
             | Some x => x
             | None => JNull
             end).
  destruct (Py.truthy (Py.or ts (JList []))) eqn:Hts; cbn [negb];
    [|discriminate].
  destruct (Py.or ts (JList [])) as [| b | z | x | s | l | o];
    cbn [Py.item0 Py.truthy] in *; try (intros [= <-]; auto).
  - destruct s as [|c s]; [discriminate Hts|]. cbn [Py.get bind].
    intros [= <-]; auto.
  - destruct l as [|t l]; [discriminate Hts|]. cbn [bind].
    destruct t as [| | | | | |t]; cbn [Py.get bind];
      try (intros [= <-]; auto).
    destruct (Py.lookup t "values") as [values|] eqn:Hv;
      cbn [Py.truthy negb]; [|discriminate].
    destruct (Py.truthy values) eqn:Hvals; cbn [negb]; [|discriminate].
    cbn [Py.item]. rewrite Hv. cbn [bind].
    destruct values as [| b | z | x | s | ws | o];
      cbn [Py.item0 Py.truthy] in *; try (intros [= <-]; auto).
    + destruct s as [|c s]; [discriminate Hvals|]. cbn [Py.get bind].
      intros [= <-]; auto.
    + destruct ws as [|w ws]; [discriminate Hvals|]. cbn [bind].
      destruct w as [| | | | | |w]; cbn [Py.get bind];
        try (intros [= <-]; auto).
      destruct (Py.iter _) as [vals|e'] eqn:Ei; cbn [bind].
      * intros H. apply dv_loop_raises in H. tauto.
      * intros [= <-].
        destruct (Py.or _ _); cbn [Py.iter] in Ei; inversion Ei; auto.
Qed.

(** X1: [fetch_dv] reads the observations at
    [value.timeSeries[0].values[0].value] and nothing else of the
    response, and the entries it passes over (false entries, values that
    are absent, [None], empty or one blank) leave no trace: a response
    that carries only the other observations gives the same result. *)
Theorem X1_passed_over_observations_leave_no_trace
  (net net' : service) (n n' : nat) (site_no start end_ : json)
  (data data' : json) (obs : list json) :
  net n (Request site_no start end_) = Body data ->
  net' n' (Request site_no start end_) = Body data' ->
  carries data obs ->
  carries data' (kept obs) ->
  fetch_dv float_of_str net n site_no start end_
  = fetch_dv float_of_str net' n' site_no start end_.
Proof.
  intros Hn Hn' Hc Hc'. unfold fetch_dv. rewrite Hn, Hn'.
  rewrite (extract_dv_carries float_of_str data obs Hc).
  rewrite (extract_dv_carries float_of_str data' (kept obs) Hc').
  apply dv_loop_kept.
Qed.

(** X2: when every observation that is not passed over is an object
    whose label can be built and whose value [float] converts or rejects
    with [ValueError], [fetch_dv] returns one label per such observation,
    in order, and one value per observation whose value converts, in
    order; the two lists have the same length exactly when every value
    converts. *)
Theorem X2_fetch_dv_lists
  (net : service) (n : nat) (site_no start end_ : json)
  (data : json) (obs : list json) :
  net n (Request site_no start end_) = Body data ->
  carries data obs ->
  Forall (orderly float_of_str) (kept obs) ->
  exists labels temps,
    fetch_dv float_of_str net n site_no start end_ = Ok (labels, temps)
    /\ Forall2 (fun v lbl => label_of v = Ok lbl) (kept obs) labels
    /\ Forall2 (fun v x => py_float float_of_str (field v "value") = Ok x)
               (filter (converts float_of_str) (kept obs)) temps
    /\ (length labels = length temps
        <-> forallb (converts float_of_str) (kept obs) = true).
Proof.
  intros Hn Hc Hord. unfold fetch_dv. rewrite Hn.
  rewrite (extract_dv_carries float_of_str data obs Hc), dv_loop_kept.
  destruct (dv_loop_orderly (kept obs) [] [] Hord (kept_not_passed_over obs))
    as (lbls & xs & -> & H1 & H2).
  exists lbls, xs. repeat split; try assumption.
  - intros Hlen. apply filter_all.
    rewrite (Forall2_length H1), (Forall2_length H2). exact Hlen.
  - intros Hall. rewrite <- (Forall2_length H1), <- (Forall2_length H2).
    f_equal. symmetry. apply forallb_filter_id, Hall.
Qed.

Lemma extract_dv_lengths (data : json) (labels : list json)
  (temps : list float) :
  extract_dv float_of_str data = Ok (labels, temps) ->
  length temps <= length labels.
Proof.
  unfold extract_dv.
  destruct (Py.get data "value" JNull) as [value|]; [|discriminate].
  cbn [bind].
  destruct (Py.get _ "timeSeries" JNull) as [ts|]; [|discriminate].
  cbn [bind]. destruct (negb _); [intros [= <- <-]; reflexivity|].
  destruct (Py.item0 _) as [ts0|]; [|discriminate]. cbn [bind].
  destruct (Py.get ts0 _ _) as [values|]; [|discriminate]. cbn [bind].
  destruct (negb _); [intros [= <- <-]; reflexivity|].
  destruct (Py.item ts0 _) as [values'|]; [|discriminate]. cbn [bind].
  destruct (Py.item0 values') as [values0|]; [|discriminate]. cbn [bind].
  destruct (Py.get values0 _ _) as [inner|]; [|discriminate]. cbn [bind].
  destruct (Py.iter _) as [vals|]; [|discriminate]. cbn [bind].
  intros H. apply dv_loop_lengths in H. cbn [length] in H. lia.
Qed.

(** X3: whatever the response, the lists [fetch_dv] returns hold at
    most as many values as labels. *)
Theorem X3_never_more_values_than_labels
  (net : service) (n : nat) (site_no start end_ : json)
  (labels : list json) (temps : list float) :
  fetch_dv float_of_str net n site_no start end_ = Ok (labels, temps) ->
  length temps <= length labels.
Proof.
  unfold fetch_dv. destruct (net n _) as [e|data]; [discriminate|].
  apply extract_dv_lengths.
Qed.

(** X4: one observation with the wrong type in a field loses the whole
    series.  When a response carries an observation whose [dateTime] is
    [null], a boolean or a number, or whose value is an array or an
    object, after observations the loop gets through, [fetch_dv] raises
    [TypeError]; [main] logs the error and stores nothing for the
    station. *)
Theorem X4_ill_typed_observation_loses_the_series
  (net : service) (st : state) (o : list (pystr * json)) (data : json)
  (before after_ : list json) (v : json) (labels : list json)
  (temps : list float) :
  let s := JObj o in
  eligible s = true ->
  net (calls st) (Request (field s "site_no") (field s "temp_begin")
                          (field s "temp_end")) = Body data ->
  carries data (before ++ v :: after_) ->
  dv_loop float_of_str before [] [] = Ok (labels, temps) ->
  ill_typed v = true ->
  fetch_dv float_of_str net (calls st) (field s "site_no")
           (field s "temp_begin") (field s "temp_end") = Raise TypeError
  /\ visit float_of_str net st s
     = Ok (asked st s [LogError (field s "site_no") TypeError]).
Proof.
  intros s He Hn Hc Hbefore Hv.
  assert (Hf : fetch_dv float_of_str net (calls st) (field s "site_no")
                 (field s "temp_begin") (field s "temp_end")
               = Raise TypeError).
  { unfold fetch_dv. rewrite Hn.
    rewrite (extract_dv_carries float_of_str data _ Hc).
    rewrite dv_loop_app, Hbefore. cbn [bind fst snd].
    apply dv_loop_ill_typed, Hv. }
  split; [exact Hf|].
  unfold s in *. rewrite visit_eligible by assumption. cbv zeta.
  rewrite Hf. reflexivity.
Qed.

(** X5: [fetch_dv] raises what opening or decoding the response raises,
    or [AttributeError], [TypeError], [KeyError] or [OverflowError]; the
    two [[0]] subscripts are guarded, so it never raises [IndexError] of
    its own, and no [ValueError] of [float] leaves it. *)
Theorem X5_fetch_dv_exceptions
  (net : service) (n : nat) (site_no start end_ : json) (e : exn) :
  fetch_dv float_of_str net n site_no start end_ = Raise e ->
  net n (Request site_no start end_) = Fails e
  \/ e = AttributeError \/ e = TypeError \/ e = KeyError
  \/ e = OverflowError.
Proof.
  unfold fetch_dv. destruct (net n _) as [e'|data].
  - intros [= <-]. left. reflexivity.
  - intros H. right. exact (extract_dv_raises data e H).
Qed.

(** X6: a response whose observations are all passed over (false
    entries, values that are absent, [None], empty or one blank) gives
    two empty lists, and [main] appends the station to the no-data
    list. *)
Theorem X6_blank_series_is_no_data
  (net : service) (st : state) (o : list (pystr * json)) (data : json)
  (obs : list json) :
  let s := JObj o in
  eligible s = true ->
  net (calls st) (Request (field s "site_no") (field s "temp_begin")
                          (field s "temp_end")) = Body data ->
  carries data obs ->
  forallb passed_over obs = true ->
  fetch_dv float_of_str net (calls st) (field s "site_no")
           (field s "temp_begin") (field s "temp_end") = Ok ([], [])
  /\ visit float_of_str net st s
     = Ok (State (cache st) (no_dv st ++ [field s "site_no"])
                 (log st ++ [LogFetching (field s "site_no")
                                         (field s "temp_begin")
                                         (field s "temp_end")])
                 (S (calls st))).
Proof.
  intros s He Hn Hc Hall.
  assert (Hk : kept obs = []).
  { clear - Hall. unfold kept. induction obs as [|v obs IH]; [reflexivity|].
    cbn [forallb filter] in *. apply andb_true_iff in Hall.
    destruct Hall as [-> Hall]. cbn [negb]. apply IH, Hall. }
  assert (Hf : fetch_dv float_of_str net (calls st) (field s "site_no")
                 (field s "temp_begin") (field s "temp_end") = Ok ([], [])).
  { unfold fetch_dv. rewrite Hn.
    rewrite (extract_dv_carries float_of_str data obs Hc), dv_loop_kept, Hk.
    reflexivity. }
  split; [exact Hf|].
  unfold s in *. rewrite visit_eligible by assumption. cbv zeta.
  rewrite Hf. reflexivity.
Qed.

End FetcherExtras.

(** ** The orchestrator *)

Section OrchestratorExtras.

Variable float_of_str : pystr -> option float.
Variable net : service.

Lemma visit_ok_obj (st st' : state) (s : json) :
  visit float_of_str net st s = Ok st' -> exists o, s = JObj o.
Proof.
  destruct s as [| | | | | |o]; try discriminate. eauto.
Qed.

(** One turn of the loop of [main], by what the request returns. *)
Lemma visit_requests (st st' : state) (s : json) :
  visit float_of_str net st s = Ok st' ->
  let reqs := requests (calls st) [s] in
  calls st' = calls st + length reqs
  /\ log st' = log st ++ flat_map (lines_of float_of_str net) reqs
  /\ no_dv st' = no_dv st ++ flat_map (no_data_of float_of_str net) reqs
  /\ cache st'
     = store_all (cache st) (flat_map (entry_of float_of_str net) reqs).
Proof.
  intros H. destruct (visit_ok_obj st st' s H) as [o ->].
  unfold requests. cbn [filter].
  destruct (eligible (JObj o)) eqn:He.
  - rewrite visit_eligible in H by assumption. cbv zeta in H.
    cbn [numbered flat_map length]. rewrite !app_nil_r.
    unfold lines_of, no_data_of, entry_of, error_of, outcome, site_of.
    cbn [fst snd].
    destruct (fetch_dv _ _ _ _ _ _) as [[[|lbl lbls] temps]|e].
    + injection H as <-.
      cbn [calls log no_dv cache asked store_all fold_left].
      rewrite ?app_nil_r. repeat split; lia.
    + unfold setitem in H.
      destruct (Key.hashable _); [|discriminate]. cbn [bind] in H.
      injection H as <-.
      cbn [calls log no_dv cache asked store_all fold_left fst snd].
      rewrite ?app_nil_r. repeat split; lia.
    + injection H as <-.
      cbn [calls log no_dv cache asked store_all fold_left].
      rewrite ?app_nil_r. repeat split; lia.
  - rewrite visit_excluded in H by assumption. injection H as <-.
    cbn [numbered flat_map length store_all fold_left].
    rewrite ?app_nil_r. repeat split; lia.
Qed.

Lemma numbered_app (l1 l2 : list json) : forall n,
  numbered n (l1 ++ l2) = numbered n l1 ++ numbered (n + length l1) l2.
Proof.
  induction l1 as [|s l1 IH]; intros n; cbn [app numbered length].
  - rewrite Nat.add_0_r. reflexivity.
  - rewrite IH. do 3 f_equal. lia.
Qed.

Lemma numbered_length (l : list json) : forall n,
  length (numbered n l) = length l.
Proof.
  induction l as [|s l IH]; intros n; cbn [numbered length];
    [reflexivity | rewrite IH; reflexivity].
Qed.

Lemma store_all_app (d : list (json * series)) (a b : list (json * series)) :
  store_all d (a ++ b) = store_all (store_all d a) b.
Proof. apply fold_left_app. Qed.

(** The whole loop, by what the requests return. *)
Lemma visit_all_requests (stations : list json) : forall st st',
  visit_all float_of_str net st stations = Ok st' ->
  let reqs := requests (calls st) stations in
  calls st' = calls st + length reqs
  /\ log st' = log st ++ flat_map (lines_of float_of_str net) reqs
  /\ no_dv st' = no_dv st ++ flat_map (no_data_of float_of_str net) reqs
  /\ cache st'
     = store_all (cache st) (flat_map (entry_of float_of_str net) reqs).
Proof.
  induction stations as [|s l IH]; intros st st' H; cbn [visit_all] in H.
  - injection H as <-. unfold requests.
    cbn [filter numbered flat_map length store_all fold_left].
    rewrite ?app_nil_r. repeat split; lia.
  - destruct (visit float_of_str net st s) as [st1|] eqn:Hv; [|discriminate].
    cbn [bind] in H.
    destruct (visit_requests st st1 s Hv) as (C1 & L1 & N1 & D1).
    destruct (IH st1 st' H) as (C2 & L2 & N2 & D2).
    cbv zeta. change (s :: l) with ([s] ++ l). unfold requests in *.
    rewrite filter_app, numbered_app, !flat_map_app, length_app,
      store_all_app.
    rewrite numbered_length in *.
    rewrite C1 in C2, L2, N2, D2. rewrite C2, L2, N2, D2, L1, N1, D1.
    rewrite ?numbered_length.
    repeat split; first [lia | rewrite <- ?app_assoc; reflexivity].
Qed.

Lemma numbered_snd (l : list json) : forall n, map snd (numbered n l) = l.
Proof.
  induction l as [|s l IH]; intros n; cbn [numbered map snd];
    [reflexivity | rewrite IH; reflexivity].
Qed.

Lemma numbered_fst (l : list json) : forall n,
  map fst (numbered n l) = seq n (length l).
Proof.
  induction l as [|s l IH]; intros n; cbn [numbered map fst length seq];
    [reflexivity | rewrite IH; reflexivity].
Qed.

Lemma store_fresh (d : list (json * series)) (k : json) (v : series) :
  Forall (fun k' => Key.eqb k' k = false) (keys d) ->
  store d k v = d ++ [(k, v)].
Proof.
  induction d as [|[k' v'] d IH]; cbn [keys map fst store app];
    [reflexivity|].
  intros H. inversion H as [|? ? Hk Hd]; subst. rewrite Hk.
  rewrite IH by exact Hd. reflexivity.
Qed.

Lemma store_all_distinct (entries : list (json * series)) : forall d,
  distinct (keys d ++ keys entries) -> store_all d entries = d ++ entries.
Proof.
  induction entries as [|[k v] es IH]; intros d Hd;
    cbn [store_all fold_left fst snd].
  - rewrite app_nil_r. reflexivity.
  - change (fold_left _ es ?x) with (store_all x es).
    rewrite store_fresh.
    + rewrite IH.
      * rewrite <- app_assoc. reflexivity.
      * unfold keys in *. rewrite map_app, <- app_assoc. exact Hd.
    + apply Forall_forall. intros k' Hk'.
      apply (distinct_app _ _ Hd k' k Hk'). left. reflexivity.
Qed.

Lemma distinct_entries (rs : list (nat * json)) :
  distinct (map site_of (map snd rs)) ->
  distinct (keys (flat_map (entry_of float_of_str net) rs)).
Proof.
  assert (Hin : forall (rs : list (nat * json)) k,
    In k (keys (flat_map (entry_of float_of_str net) rs)) ->
    In k (map site_of (map snd rs))).
  { clear rs. induction rs as [|r rs IH]; intros k; cbn [flat_map map];
      [tauto|].
    unfold keys. rewrite map_app, in_app_iff. intros [H | H].
    - left. unfold entry_of in H.
      destruct (outcome float_of_str net r) as [[[|lbl lbls] temps]|e];
        cbn [map fst In] in H; tauto.
    - right. apply IH, H. }
  induction rs as [|r rs IH]; cbn [map flat_map distinct]; [tauto|].
  intros [Hr Hd]. specialize (IH Hd).
  unfold entry_of at 1.
  destruct (outcome float_of_str net r) as [[[|lbl lbls] temps]|e];
    cbn [app]; try exact IH.
  cbn [keys map fst distinct]. split; [|exact IH].
  apply Forall_forall. intros k Hk. rewrite Forall_forall in Hr.
  apply Hr, Hin, Hk.
Qed.

Lemma one_place_per_request (rs : list (nat * json)) :
  length (flat_map (entry_of float_of_str net) rs)
  + length (flat_map (no_data_of float_of_str net) rs)
  + length (flat_map (error_of float_of_str net) rs)
  = length rs.
Proof.
  induction rs as [|r rs IH]; [reflexivity|].
  cbn [flat_map]. rewrite !length_app. cbn [length]. rewrite <- IH.
  unfold entry_of, no_data_of, error_of.
  destruct (outcome float_of_str net r) as [[[|lbl lbls] temps]|e];
    cbn [length]; lia.
Qed.

Lemma key_eqb_str (a : json) (id : pystr) :
  Key.eqb a (JStr id) = true <-> a = JStr id.
Proof.
  destruct a; cbn [Key.eqb]; try (split; congruence).
  rewrite pystr_eqb_eq. split; congruence.
Qed.

Lemma cache_get_store (d : list (json * series)) (k : json) (v : series)
  (id : pystr) :
  cache_get (store d k v) (JStr id)
  = if Key.eqb k (JStr id) then Some v else cache_get d (JStr id).
Proof.
  induction d as [|[k' v'] d IH]; cbn [store cache_get]; [reflexivity|].
  destruct (Key.eqb k' k) eqn:E1; cbn [cache_get].
  - destruct (Key.eqb k' (JStr id)) eqn:E2.
    + apply key_eqb_str in E2. subst k'. rewrite key_eqb_sym in E1.
      rewrite E1. reflexivity.
    + destruct (Key.eqb k (JStr id)) eqn:E3; [|reflexivity].
      apply key_eqb_str in E3. subst k. congruence.
  - destruct (Key.eqb k' (JStr id)) eqn:E2; [|exact IH].
    apply key_eqb_str in E2. subst k'.
    destruct (Key.eqb k (JStr id)) eqn:E3; [|reflexivity].
    apply key_eqb_str in E3. subst k. cbn [Key.eqb] in E1.
    rewrite pystr_eqb_refl in E1. discriminate E1.
Qed.

Lemma cache_get_store_all (entries : list (json * series)) (id : pystr) :
  forall d,
  cache_get (store_all d entries) (JStr id)
  = match last_assigned entries (JStr id) with
    | Some v => Some v
    | None => cache_get d (JStr id)
    end.
Proof.
  unfold last_assigned.
  induction entries as [|[k v] es IH] using rev_ind; intros d.
  - reflexivity.
  - rewrite store_all_app. cbn [store_all fold_left fst snd].
    rewrite cache_get_store, rev_app_distr. cbn [rev app List.find fst].
    destruct (Key.eqb k (JStr id)); [reflexivity | apply IH].
Qed.

(** X7: [main] sends one request per station that passes the filter, in
    the order of the list and none for the others, and prints one
    [Fetching] line per request, followed by an [ERROR] line exactly when
    the request raises. *)
Theorem X7_one_request_per_eligible_station
  (stations : list json) (final : state) :
  visit_all float_of_str net init stations = Ok final ->
  calls final = length (filter eligible stations)
  /\ map fst (requests 0 stations) = seq 0 (calls final)
  /\ map snd (requests 0 stations) = filter eligible stations
  /\ log final = flat_map (lines_of float_of_str net) (requests 0 stations).
Proof.
  intros H. destruct (visit_all_requests stations init final H)
    as (Hc & Hl & _ & _).
  cbn [calls log init app] in *. unfold requests in *.
  rewrite numbered_length in Hc. cbn [Nat.add] in Hc.
  rewrite numbered_fst, numbered_snd, Hc. auto.
Qed.

(** X8: the loop of [main] is a fold over the answers.  The no-data
    list holds, in order, the identifiers of the stations whose request
    returned no label; the cache is what the assignments of the series
    with a label give, in order.  When the identifiers of the eligible
    stations are pairwise distinct, the cache holds exactly these series
    in the order of the list, and every eligible station ends up in one
    place: the cache, the no-data list or an [ERROR] line. *)
Theorem X8_outputs_by_outcome (stations : list json) (final : state) :
  visit_all float_of_str net init stations = Ok final ->
  let reqs := requests 0 stations in
  no_dv final = flat_map (no_data_of float_of_str net) reqs
  /\ cache final = store_all [] (flat_map (entry_of float_of_str net) reqs)
  /\ (distinct (requested stations) ->
      cache final = flat_map (entry_of float_of_str net) reqs
      /\ length (cache final) + length (no_dv final)
         + length (flat_map (error_of float_of_str net) reqs)
         = length (requested stations)).
Proof.
  intros H reqs. destruct (visit_all_requests stations init final H)
    as (_ & _ & Hn & Hc).
  cbn [calls no_dv cache init app] in *. fold reqs in Hn, Hc.
  split; [exact Hn|]. split; [exact Hc|].
  intros Hd.
  assert (Hc' : cache final = flat_map (entry_of float_of_str net) reqs).
  { rewrite Hc. apply (store_all_distinct _ []). cbn [keys map app].
    apply distinct_entries. unfold reqs, requests.
    rewrite numbered_snd. exact Hd. }
  split; [exact Hc'|].
  rewrite Hc', Hn, one_place_per_request.
  unfold reqs, requests, requested.
  rewrite numbered_length, length_map. reflexivity.
Qed.

(** X9: when the list names a station more than once, the series of
    the last request that returned a label is the one the cache holds
    for a string identifier. *)
Theorem X9_last_series_wins
  (stations : list json) (final : state) (id : pystr) :
  visit_all float_of_str net init stations = Ok final ->
  cache_get (cache final) (JStr id)
  = last_assigned
      (flat_map (entry_of float_of_str net) (requests 0 stations)) (JStr id).
Proof.
  intros H. destruct (visit_all_requests stations init final H)
    as (_ & _ & _ & Hc).
  cbn [calls cache init] in Hc. rewrite Hc, cache_get_store_all.
  destruct (last_assigned _ _); reflexivity.
Qed.

Lemma store_values (P : series -> Prop) (d : list (json * series))
  (k : json) (v : series) :
  Forall (fun kv => P (snd kv)) d -> P v ->
  Forall (fun kv => P (snd kv)) (store d k v).
Proof.
  intros Hd Hv. induction Hd as [|[k' v'] d Hk Hd IH]; cbn [store].
  - constructor; [exact Hv | constructor].
  - destruct (Key.eqb k' k); constructor; assumption.
Qed.

Lemma store_all_values (P : series -> Prop) (entries : list (json * series)) :
  forall d,
  Forall (fun kv => P (snd kv)) d ->
  Forall (fun kv => P (snd kv)) entries ->
  Forall (fun kv => P (snd kv)) (store_all d entries).
Proof.
  induction entries as [|[k v] es IH]; intros d Hd He; [exact Hd|].
  inversion He as [|? ? Hv Hes]; subst.
  apply (IH (store d k v)); [apply store_values|]; assumption.
Qed.

(** X10: every series a run leaves in the cache has at least one
    label and at most as many values as labels, whatever the service
    answered. *)
Theorem X10_cached_series_have_labels
  (stations : list json) (final : state) :
  visit_all float_of_str net init stations = Ok final ->
  Forall (fun kv : json * series =>
            labels (snd kv) <> []
            /\ length (temps (snd kv)) <= length (labels (snd kv)))
         (cache final).
Proof.
  intros H. destruct (visit_all_requests stations init final H)
    as (_ & _ & _ & Hc).
  cbn [calls cache init] in Hc. rewrite Hc.
  apply (store_all_values
           (fun v => labels v <> [] /\ length (temps v) <= length (labels v)));
    [constructor|].
  apply Forall_forall. intros kv Hkv. apply in_flat_map in Hkv.
  destruct Hkv as ([n s] & _ & Hin). unfold entry_of in Hin.
  destruct (outcome float_of_str net (n, s)) as [[[|lbl lbls] xs]|e] eqn:E;
    cbn [In] in Hin; try tauto.
  destruct Hin as [<- | []]. cbn [snd labels temps]. split; [discriminate|].
  unfold outcome, fetch_dv in E.
  destruct (net n _) as [e|data]; [discriminate E|].
  apply (extract_dv_lengths float_of_str data _ _ E).
Qed.

Lemma distinct_parts (a b : list json) :
  distinct (a ++ b) -> distinct a /\ distinct b.
Proof.
  induction a as [|x a IH]; cbn [app distinct]; [tauto|].
  intros [Hx Hd]. destruct (IH Hd) as [Ha Hb].
  apply Forall_app in Hx. tauto.
Qed.

Lemma timeless_outcome (n : nat) (s : json) :
  timeless net ->
  outcome float_of_str net (n, s) = outcome float_of_str net (0, s).
Proof.
  intros H. unfold outcome, fetch_dv. rewrite (H n). reflexivity.
Qed.

Lemma flat_map_numbered {A : Type} (g : nat * json -> list A)
  (l : list json) :
  (forall n s, g (n, s) = g (0, s)) ->
  forall n m, flat_map g (numbered n l) = flat_map g (numbered m l).
Proof.
  intros Hg. induction l as [|s l IH]; intros n m; [reflexivity|].
  cbn [numbered flat_map]. rewrite (Hg n), (Hg m), (IH (S n) (S m)).
  reflexivity.
Qed.

Lemma timeless_per_request :
  timeless net ->
  (forall n s, lines_of float_of_str net (n, s)
               = lines_of float_of_str net (0, s))
  /\ (forall n s, no_data_of float_of_str net (n, s)
                  = no_data_of float_of_str net (0, s))
  /\ (forall n s, entry_of float_of_str net (n, s)
                  = entry_of float_of_str net (0, s)).
Proof.
  intros H. repeat split; intros n s;
    unfold lines_of, error_of, no_data_of, entry_of;
    rewrite (timeless_outcome n s H); reflexivity.
Qed.

(** With a timeless service, whether a station ends the run does not
    depend on the state the loop is in. *)
Lemma visit_again (st st' st0 : state) (s : json) :
  timeless net ->
  visit float_of_str net st s = Ok st' ->
  exists st0', visit float_of_str net st0 s = Ok st0'.
Proof.
  intros Ht H. destruct (visit_ok_obj st st' s H) as [o ->].
  destruct (eligible (JObj o)) eqn:He.
  - rewrite visit_eligible in * by assumption. cbv zeta in *.
    unfold fetch_dv in *. rewrite (Ht (calls st)) in H.
    rewrite (Ht (calls st0)).
    destruct (net 0 _) as [e|data]; [eexists; reflexivity|].
    destruct (extract_dv float_of_str data) as [[[|lbl lbls] xs]|e];
      try (eexists; reflexivity).
    unfold setitem in *. destruct (Key.hashable _); [|discriminate H].
    eexists. reflexivity.
  - rewrite visit_excluded by assumption. eexists. reflexivity.
Qed.

Lemma visit_all_again (l : list json) : forall st st' st0,
  timeless net ->
  visit_all float_of_str net st l = Ok st' ->
  exists st0', visit_all float_of_str net st0 l = Ok st0'.
Proof.
  induction l as [|s l IH]; intros st st' st0 Ht H; cbn [visit_all] in *.
  - eexists. reflexivity.
  - destruct (visit float_of_str net st s) as [st1|] eqn:Hv; [|discriminate].
    cbn [bind] in H.
    destruct (visit_again st st1 st0 s Ht Hv) as [st2 ->]. cbn [bind].
    apply (IH st1 st' st2 Ht H).
Qed.

(** X11: with a service whose answers do not depend on when a request
    comes, the run over two lists, one after the other, gives what the
    runs over each list give, put together: the requests, the lines, the
    no-data list and, when the identifiers of the eligible stations are
    pairwise distinct, the cache.  What the run stores for a station
    does not depend on the other stations. *)
Theorem X11_runs_compose (l1 l2 : list json) (final : state) :
  timeless net ->
  visit_all float_of_str net init (l1 ++ l2) = Ok final ->
  exists f1 f2,
    visit_all float_of_str net init l1 = Ok f1
    /\ visit_all float_of_str net init l2 = Ok f2
    /\ calls final = calls f1 + calls f2
    /\ log final = log f1 ++ log f2
    /\ no_dv final = no_dv f1 ++ no_dv f2
    /\ (distinct (requested (l1 ++ l2)) ->
        cache final = cache f1 ++ cache f2).
Proof.
  intros Ht H. pose proof H as Hrun. rewrite visit_all_app in H.
  destruct (visit_all float_of_str net init l1) as [f1|] eqn:H1;
    [|discriminate]. cbn [bind] in H.
  destruct (visit_all_again l2 f1 final init Ht H) as [f2 H2].
  exists f1, f2. split; [reflexivity|]. split; [exact H2|].
  destruct (timeless_per_request Ht) as (Tl & Tn & Te).
  destruct (visit_all_requests l1 init f1 H1) as (C1 & L1 & N1 & D1).
  destruct (visit_all_requests l2 init f2 H2) as (C2 & L2 & N2 & D2).
  destruct (visit_all_requests l2 f1 final H) as (C & L & N & D).
  destruct (visit_all_requests (l1 ++ l2) init final Hrun) as (_ & _ & _ & D').
  cbn [calls log no_dv cache init app] in *. unfold requests in *.
  rewrite numbered_length in *.
  rewrite (flat_map_numbered _ _ Tl (calls f1) 0) in L.
  rewrite (flat_map_numbered _ _ Tn (calls f1) 0) in N.
  split; [lia|]. split; [congruence|]. split; [congruence|].
  intros Hd. rewrite filter_app, numbered_app, flat_map_app in D'.
  rewrite (flat_map_numbered _ (filter eligible l2) Te
             (0 + length (filter eligible l1)) 0) in D'.
  assert (Hk : distinct
            (keys (flat_map (entry_of float_of_str net)
                            (numbered 0 (filter eligible l1))
                   ++ flat_map (entry_of float_of_str net)
                               (numbered 0 (filter eligible l2))))).
  { rewrite <- (flat_map_numbered _ (filter eligible l2) Te
                  (0 + length (filter eligible l1)) 0).
    rewrite <- flat_map_app, <- numbered_app, <- filter_app.
    apply distinct_entries. rewrite numbered_snd. exact Hd. }
  pose proof Hk as Hk'. unfold keys in Hk'. rewrite map_app in Hk'.
  destruct (distinct_parts _ _ Hk') as [Hk1 Hk2].
  rewrite D', D1, D2.
  rewrite !(store_all_distinct _ []); cbn [keys map app];
    [reflexivity | exact Hk2 | exact Hk1 | exact Hk].
Qed.

End OrchestratorExtras.

(** ** [main] on unexpected station lists *)

Section MainExtras.

Variable float_of_str : pystr -> option float.
Variable float_repr : float -> pystr.
Variable net : service.

Lemma main_raises (text : pystr) (stations : json) (l : list json) (e : exn) :
  load_stations (Json.loads float_of_str) text = Ok stations ->
  Py.iter stations = Ok l ->
  visit_all float_of_str net init l = Raise e ->
  main float_of_str float_repr net text = Raise e.
Proof.
  intros Hload Hiter Hrun. unfold main, run.
  rewrite Hload. cbn [bind]. rewrite Hiter. cbn [bind]. rewrite Hrun.
  reflexivity.
Qed.

(** X12: the assignment to the cache is outside the [try].  When an
    eligible station has an array or an object as its identifier and its
    request returns a label, [main] ends with [TypeError] and writes
    nothing, whatever the stations before it gave. *)
Theorem X12_unhashable_identifier_ends_the_run
  (text : pystr) (before after_ : list json) (o : list (pystr * json))
  (st : state) (lbl : json) (lbls : list json) (temps : list float) :
  let s := JObj o in
  load_stations (Json.loads float_of_str) text
  = Ok (JList (before ++ s :: after_)) ->
  visit_all float_of_str net init before = Ok st ->
  eligible s = true ->
  Key.hashable (site_of s) = false ->
  fetch_dv float_of_str net (calls st) (field s "site_no")
           (field s "temp_begin") (field s "temp_end")
  = Ok (lbl :: lbls, temps) ->
  main float_of_str float_repr net text = Raise TypeError.
Proof.
  intros s Hload Hbefore He Hk Hf.
  apply (main_raises text _ (before ++ s :: after_) TypeError Hload eq_refl).
  rewrite visit_all_app, Hbefore. cbn [bind visit_all].
  unfold s in *. rewrite visit_eligible by assumption. cbv zeta.
  rewrite Hf. unfold setitem. unfold site_of in Hk. rewrite Hk. reflexivity.
Qed.

(** X13: the literal has to be an array of objects.  An entry that is
    not an object ends [main] with [AttributeError] when the loop reaches
    it; a literal that is a number, a boolean or [null] ends it with
    [TypeError]; a non-empty object or string is iterated and ends it
    with [AttributeError] at its first key or character; an empty array,
    object or string gives the output of a run without stations. *)
Theorem X13_station_list_must_hold_objects (text : pystr) :
  (forall before s after_ st,
     load_stations (Json.loads float_of_str) text
     = Ok (JList (before ++ s :: after_)) ->
     visit_all float_of_str net init before = Ok st ->
     (forall o, s <> JObj o) ->
     main float_of_str float_repr net text = Raise AttributeError)
  /\ (forall v,
        load_stations (Json.loads float_of_str) text = Ok v ->
        v = JNull \/ (exists b, v = JBool b) \/ (exists z, v = JInt z)
        \/ (exists x, v = JFloat x) ->
        main float_of_str float_repr net text = Raise TypeError)
  /\ (forall v,
        load_stations (Json.loads float_of_str) text = Ok v ->
        (exists kv o, v = JObj (kv :: o)) \/ (exists c t, v = JStr (c :: t)) ->
        main float_of_str float_repr net text = Raise AttributeError)
  /\ (forall v,
        load_stations (Json.loads float_of_str) text = Ok v ->
        v = JList [] \/ v = JObj [] \/ v = JStr [] ->
        main float_of_str float_repr net text
        = Ok (Output (str "var staticTempCache = {};" ++ [10%N]
                      ++ str "var staticTempNoDv = [];" ++ [10%N])
                     [LogWrote 0 0])).
Proof.
  split; [|split; [|split]].
  - intros before s after_ st Hload Hbefore Hs.
    apply (main_raises text _ (before ++ s :: after_) _ Hload eq_refl).
    rewrite visit_all_app, Hbefore. cbn [bind visit_all].
    destruct s as [| | | | | |o]; try reflexivity.
    destruct (Hs o eq_refl).
  - intros v Hload Hv. unfold main, run. rewrite Hload. cbn [bind].
    destruct Hv as [-> | [[b ->] | [[z ->] | [x ->]]]]; reflexivity.
  - intros v Hload [(kv & o & ->) | (c & t & ->)].
    + apply (main_raises text _ _ _ Hload eq_refl). reflexivity.
    + apply (main_raises text _ _ _ Hload eq_refl). reflexivity.
  - intros v Hload [-> | [-> | ->]];
      rewrite (main_output float_of_str net float_repr text _ [] init Hload
                 eq_refl eq_refl); reflexivity.
Qed.

(** X14: once the stations have loaded as an array of objects whose
    identifiers can be dictionary keys, nothing the service answers ends
    the run: the loop finishes and [main] writes the output file and the
    closing line. *)
Theorem X14_main_survives_every_answer
  (text : pystr) (stations : list json) :
  load_stations (Json.loads float_of_str) text = Ok (JList stations) ->
  Forall well_formed stations ->
  exists st,
    visit_all float_of_str net init stations = Ok st
    /\ main float_of_str float_repr net text
       = Ok (Output (written float_repr st)
                    (log st ++ [LogWrote (length (cache st))
                                         (length (no_dv st))])).
Proof.
  intros Hload Hwf.
  destruct (visit_all_total float_of_str net stations init Hwf) as [st Hst].
  exists st. split; [exact Hst|].
  apply (main_output float_of_str net float_repr text (JList stations)
           stations st Hload eq_refl Hst).
Qed.

End MainExtras.

(** ** The loader *)

Lemma lstrip_spaces (ws t : pystr) :
  all_space ws = true -> PyStr.lstrip (ws ++ t) = PyStr.lstrip t.
Proof.
  induction ws as [|c ws IH]; cbn [all_space forallb app PyStr.lstrip];
    [reflexivity|].
  rewrite andb_true_iff. intros [-> H]. apply IH, H.
Qed.

Lemma lstrip_head (c : N) (t : pystr) :
  PyStr.isspace c = false -> PyStr.lstrip (c :: t) = c :: t.
Proof. intros H. cbn [PyStr.lstrip]. rewrite H. reflexivity. Qed.

Lemma lstrip_app_head (u : pystr) (c : N) (w : pystr) :
  PyStr.isspace c = false ->
  PyStr.lstrip (u ++ c :: w) = PyStr.lstrip u ++ c :: w.
Proof.
  intros H. induction u as [|x u IH]; cbn [app PyStr.lstrip].
  - rewrite H. reflexivity.
  - destruct (PyStr.isspace x); [exact IH | reflexivity].
Qed.

Lemma all_space_rev (ws : pystr) : all_space (rev ws) = all_space ws.
Proof.
  unfold all_space. induction ws as [|c ws IH]; [reflexivity|].
  cbn [rev forallb]. rewrite forallb_app, IH. cbn [forallb].
  rewrite andb_true_r. apply andb_comm.
Qed.

Lemma rstrip_spaces (t ws : pystr) :
  all_space ws = true -> PyStr.rstrip (t ++ ws) = PyStr.rstrip t.
Proof.
  intros H. unfold PyStr.rstrip. rewrite rev_app_distr, lstrip_spaces;
    [reflexivity | rewrite all_space_rev; exact H].
Qed.

Lemma rstrip_app_head (a : pystr) (c : N) (y : pystr) :
  PyStr.isspace c = false ->
  PyStr.rstrip (a ++ c :: y) = a ++ c :: PyStr.rstrip y.
Proof.
  intros H. unfold PyStr.rstrip.
  rewrite rev_app_distr. cbn [rev]. rewrite <- app_assoc. cbn [app].
  rewrite lstrip_app_head by exact H.
  rewrite rev_app_distr. cbn [rev]. rewrite rev_involutive, <- app_assoc.
  reflexivity.
Qed.

Lemma trimmed_ends (s : pystr) :
  trimmed s = true ->
  (exists c t, s = c :: t /\ PyStr.isspace c = false)
  /\ (exists t c, s = t ++ [c] /\ PyStr.isspace c = false).
Proof.
  unfold trimmed. destruct s as [|c t]; [discriminate|].
  destruct (rev (c :: t)) as [|c' r] eqn:E; [discriminate|].
  rewrite andb_true_iff, !negb_true_iff. intros [H1 H2]. split.
  - exists c, t. auto.
  - exists (rev r), c'. split; [|exact H2].
    rewrite <- (rev_involutive (c :: t)), E. reflexivity.
Qed.

Lemma strip_trimmed (ws1 body ws2 : pystr) :
  all_space ws1 = true -> all_space ws2 = true -> trimmed body = true ->
  PyStr.strip (ws1 ++ body ++ ws2) = body.
Proof.
  intros H1 H2 Hb.
  destruct (trimmed_ends body Hb) as [(c & t & E & Hc) (t' & c' & E' & Hc')].
  assert (Hl : forall x, PyStr.lstrip (body ++ x) = body ++ x).
  { intros x. rewrite E. cbn [app]. apply lstrip_head, Hc. }
  unfold PyStr.strip. rewrite lstrip_spaces by exact H1. rewrite Hl.
  rewrite rstrip_spaces by exact H2. rewrite E' at 1.
  rewrite rstrip_app_head by exact Hc'. symmetry. exact E'.
Qed.

Lemma endswith_last (s : pystr) (c : N) :
  PyStr.endswith (s ++ [c]) [c] = true.
Proof.
  unfold PyStr.endswith. rewrite rev_app_distr. cbn [rev app PyStr.startswith].
  rewrite N.eqb_refl. destruct (rev s); reflexivity.
Qed.

Lemma drop_last_last (s : pystr) (c : N) : PyStr.drop_last (s ++ [c]) = s.
Proof. apply removelast_last. Qed.

(** The text [load_stations] hands to [json.loads] when the marker
    stands first after [pre]. *)
Lemma load_stations_after (json_loads : pystr -> option json)
  (text pre post : pystr) :
  first_marker text pre ->
  text = pre ++ prefix ++ post ->
  load_stations json_loads text
  = match json_loads (literal_after text (length pre)) with
    | Some stations => Ok stations
    | None => Raise JSONDecodeError
    end
  /\ skipn (length pre + length prefix) text = post.
Proof.
  intros [_ Hmin] H. unfold load_stations.
  destruct (PyStr.find text prefix) as [i|] eqn:Hf.
  - destruct (find_some text prefix i Hf) as (pre1 & post1 & H1 & Hlen & Hmin1).
    assert (Hi : i = length pre).
    { apply Nat.le_antisymm.
      - apply (Hmin1 pre post H).
      - rewrite <- Hlen. apply (Hmin pre1 post1 H1). }
    rewrite Hi. split; [reflexivity|]. rewrite H. apply skipn_prefix.
  - destruct (find_none text prefix Hf pre post H).
Qed.

(** The literal after the marker, with and without the semicolon. *)
Lemma literal_after_trimmed (text pre ws1 body ws2 ws3 : pystr) :
  all_space ws1 = true -> all_space ws2 = true -> all_space ws3 = true ->
  trimmed body = true ->
  text = pre ++ prefix ++ ws1 ++ body ++ ws2 ++ [59%N] ++ ws3
  \/ (text = pre ++ prefix ++ ws1 ++ body ++ ws2
      /\ PyStr.endswith body ";" = false) ->
  literal_after text (length pre) = body.
Proof.
  intros H1 H2 H3 Hb [Htext | [Htext Hsemi]];
    unfold literal_after; rewrite Htext, skipn_prefix; cbv zeta.
  - assert (Hs : PyStr.strip (ws1 ++ body ++ ws2 ++ [59%N] ++ ws3)
                 = (body ++ ws2) ++ [59%N]).
    { destruct (trimmed_ends body Hb) as [(c & t & E & Hc) _].
      assert (Hl : forall x, PyStr.lstrip (body ++ x) = body ++ x).
      { intros x. rewrite E. cbn [app]. apply lstrip_head, Hc. }
      unfold PyStr.strip. rewrite lstrip_spaces by exact H1. rewrite Hl.
      replace (body ++ ws2 ++ [59%N] ++ ws3)
        with (((body ++ ws2) ++ 59%N :: []) ++ ws3)
        by (rewrite <- !app_assoc; reflexivity).
      rewrite rstrip_spaces by exact H3.
      rewrite rstrip_app_head by reflexivity. reflexivity. }
    rewrite Hs.
    change (str ";") with [59%N]. rewrite endswith_last, drop_last_last.
    pose proof (strip_trimmed [] body ws2 eq_refl H2 Hb) as Hs2.
    cbn [app] in Hs2. exact Hs2.
  - rewrite strip_trimmed by assumption. rewrite Hsemi. reflexivity.
Qed.

(** X15: [load_stations] hands to [json.loads] exactly the text between
    the marker and the semicolon, without the white space around it,
    whatever white space follows the semicolon; without a semicolon it
    hands over the stripped rest of the file. *)
Theorem X15_loader_trims_the_literal
  (json_loads : pystr -> option json)
  (text pre ws1 body ws2 ws3 : pystr) :
  first_marker text pre ->
  all_space ws1 = true -> all_space ws2 = true -> all_space ws3 = true ->
  trimmed body = true ->
  text = pre ++ prefix ++ ws1 ++ body ++ ws2 ++ [59%N] ++ ws3
  \/ (text = pre ++ prefix ++ ws1 ++ body ++ ws2
      /\ PyStr.endswith body ";" = false) ->
  load_stations json_loads text
  = match json_loads body with
    | Some stations => Ok stations
    | None => Raise JSONDecodeError
    end.
Proof.
  intros Hfirst H1 H2 H3 Hb Htext.
  destruct Hfirst as [[post Hpost] Hmin].
  destruct (load_stations_after json_loads text pre post
              (conj (ex_intro _ post Hpost) Hmin) Hpost) as [-> _].
  rewrite (literal_after_trimmed text pre ws1 body ws2 ws3 H1 H2 H3 Hb Htext).
  reflexivity.
Qed.

Lemma trimmed_between (a b : N) (x : pystr) :
  PyStr.isspace a = false -> PyStr.isspace b = false ->
  trimmed (a :: x ++ [b]) = true.
Proof.
  intros Ha Hb. unfold trimmed. cbn [rev]. rewrite rev_app_distr.
  cbn [rev app]. rewrite Ha, Hb. reflexivity.
Qed.

Section LoaderExtras.

Variable float_of_str : pystr -> option float.
Variable float_repr : float -> pystr.

(** The text of an array reads back whatever follows its closing
    bracket. *)
Lemma scan_once_array (l : list json) :
  canonical float_of_str float_repr (JList l) ->
  forall fuel rest,
    length (Json.dumps float_repr (JList l)) < fuel ->
    Json.scan_once float_of_str fuel (Json.dumps float_repr (JList l) ++ rest)
    = Some (JList l, rest).
Proof.
  intros Hc fuel rest Hfuel. destruct fuel as [|fuel]; [lia|].
  apply canonical_list in Hc. cbn [Json.dumps] in *.
  cbn [app Json.scan_once N.eqb Pos.eqb]. rewrite <- app_assoc. cbn [app].
  destruct l as [|v l]; [reflexivity|].
  assert (Hread : Forall (reads_back float_of_str float_repr) (v :: l)).
  { rewrite Forall_forall in *. intros y Hy.
    apply dumps_reads_back, Hc, Hy. }
  destruct (dumps_head float_of_str float_repr v) as (c & t & E & Hws & H93 & _);
    [inversion Hc; assumption|].
  assert (Hhead : exists t',
    Json.join "," (map (Json.dumps float_repr) (v :: l)) = c :: t').
  { destruct l; cbn [map]; [cbn [Json.join] | rewrite join_cons2];
      rewrite E; eexists; reflexivity. }
  destruct Hhead as [t' Et]. pose proof Et as Et'.
  apply (f_equal (fun x => x ++ 93%N :: rest)) in Et'. cbn [app] in Et'.
  assert (Hskip :
    Json.skip_ws (Json.join "," (map (Json.dumps float_repr) (v :: l))
                  ++ 93%N :: rest)
    = Json.join "," (map (Json.dumps float_repr) (v :: l)) ++ 93%N :: rest)
    by (rewrite Et'; apply skip_ws_head, Hws).
  rewrite Hskip. rewrite Et' at 1.
  apply N.eqb_neq in H93. rewrite H93.
  rewrite (scan_items_dumps float_of_str float_repr (v :: l) Hread Hc);
    [reflexivity | discriminate |].
  cbn [length] in Hfuel. rewrite length_app in Hfuel.
  cbn [length] in Hfuel. lia.
Qed.

Lemma dumps_array_trimmed (l : list json) :
  trimmed (Json.dumps float_repr (JList l)) = true.
Proof. cbn [Json.dumps]. apply trimmed_between; reflexivity. Qed.

(** [json.loads] rejects the text of an array followed by a semicolon. *)
Lemma loads_array_semicolon (l : list json) (y : pystr) :
  canonical float_of_str float_repr (JList l) ->
  Json.loads float_of_str (Json.dumps float_repr (JList l) ++ 59%N :: y)
  = None.
Proof.
  intros Hc. unfold Json.loads.
  assert (E : exists t, Json.dumps float_repr (JList l) = 91%N :: t)
    by (eexists; reflexivity).
  destruct E as [t E].
  assert (H1 : Json.skip_ws (Json.dumps float_repr (JList l) ++ 59%N :: y)
               = Json.dumps float_repr (JList l) ++ 59%N :: y)
    by (rewrite E; reflexivity).
  rewrite H1. rewrite E at 1. cbn [app N.eqb Pos.eqb].
  rewrite (scan_once_array l Hc); [reflexivity|].
  rewrite length_app. lia.
Qed.

(** X16: a station array written by the encoder of [json] and wrapped
    as [var stationData = ...;], with any white space around the array
    and after the semicolon, is what [load_stations] returns. *)
Theorem X16_loader_reads_the_encoders_text
  (text pre ws1 ws2 ws3 : pystr) (l : list json) :
  first_marker text pre ->
  all_space ws1 = true -> all_space ws2 = true -> all_space ws3 = true ->
  canonical float_of_str float_repr (JList l) ->
  text = pre ++ prefix ++ ws1 ++ Json.dumps float_repr (JList l)
         ++ ws2 ++ [59%N] ++ ws3 ->
  load_stations (Json.loads float_of_str) text = Ok (JList l).
Proof.
  intros Hfirst H1 H2 H3 Hc Htext.
  destruct (load_stations_after (Json.loads float_of_str) text pre _
              Hfirst Htext) as [-> _].
  rewrite (literal_after_trimmed text pre ws1
             (Json.dumps float_repr (JList l)) ws2 ws3 H1 H2 H3
             (dumps_array_trimmed l) (or_introl Htext)).
  rewrite loads_dumps by exact Hc. reflexivity.
Qed.

(** X17: nothing may follow the statement.  When anything but white
    space comes after the semicolon that closes the array, be it a
    second semicolon, [load_stations] hands the array together with what
    follows to [json.loads] and raises the parse error. *)
Theorem X17_nothing_may_follow_the_statement
  (text pre ws1 more : pystr) (l : list json) :
  first_marker text pre ->
  all_space ws1 = true -> all_space more = false ->
  canonical float_of_str float_repr (JList l) ->
  text = pre ++ prefix ++ ws1 ++ Json.dumps float_repr (JList l)
         ++ [59%N] ++ more ->
  load_stations (Json.loads float_of_str) text = Raise JSONDecodeError.
Proof.
  intros Hfirst H1 Hmore Hc Htext.
  destruct (load_stations_after (Json.loads float_of_str) text pre _
              Hfirst Htext) as [-> Hskip].
  unfold literal_after. rewrite Hskip. cbv zeta.
  set (body := Json.dumps float_repr (JList l)).
  assert (Hl : forall x, PyStr.lstrip (body ++ x) = body ++ x)
    by (intros x; reflexivity).
  assert (Hs : PyStr.strip (ws1 ++ body ++ [59%N] ++ more)
               = body ++ 59%N :: PyStr.rstrip more).
  { unfold PyStr.strip. rewrite lstrip_spaces by exact H1. rewrite Hl.
    cbn [app]. apply rstrip_app_head. reflexivity. }
  rewrite Hs.
  assert (Hany : forall y,
    match Json.loads float_of_str (PyStr.strip (body ++ 59%N :: y)) with
    | Some stations => Ok stations
    | None => Raise JSONDecodeError
    end = Raise JSONDecodeError).
  { intros y. unfold PyStr.strip. rewrite Hl.
    rewrite rstrip_app_head by reflexivity.
    unfold body. rewrite loads_array_semicolon by exact Hc. reflexivity. }
  destruct (PyStr.endswith _ _).
  - destruct (PyStr.rstrip more) as [|c m] eqn:Em using rev_ind.
    + change (body ++ [59%N]) with (body ++ [59%N]).
      rewrite drop_last_last.
      exfalso. revert Hmore Em. clear. unfold PyStr.rstrip.
      intros Hmore Em. apply (f_equal (@rev N)) in Em.
      rewrite rev_involutive in Em. cbn [rev] in Em.
      rewrite <- all_space_rev in Hmore.
      induction (rev more) as [|c r IH]; [discriminate Hmore|].
      cbn [PyStr.lstrip all_space forallb] in *.
      destruct (PyStr.isspace c); [apply IH; assumption | discriminate Em].
    + clear IHm.
      replace (body ++ 59%N :: m ++ [c]) with ((body ++ 59%N :: m) ++ [c])
        by (rewrite <- app_assoc; reflexivity).
      rewrite drop_last_last. apply Hany.
  - unfold body. rewrite loads_array_semicolon by exact Hc. reflexivity.
Qed.

End LoaderExtras.

(** ** The writer *)

Lemma plain_app (a b : pystr) : plain (a ++ b) = plain a && plain b.
Proof. apply forallb_app. Qed.

Lemma hex_digit_printable (n : N) :
  (n < 16)%N -> printable (Json.hex_digit n) = true.
Proof.
  intros H. unfold Json.hex_digit, printable.
  destruct (n <? 10)%N eqn:E;
    [apply N.ltb_lt in E | apply N.ltb_ge in E];
    apply andb_true_iff; split; apply N.leb_le; lia.
Qed.

Lemma u_escape_plain (n : N) : (n < 65536)%N -> plain (Json.u_escape n) = true.
Proof.
  intros H. unfold Json.u_escape, plain. cbn [forallb].
  rewrite !hex_digit_printable; [reflexivity | | | |];
    try (apply N.mod_upper_bound; discriminate).
  apply N.Div0.div_lt_upper_bound. exact H.
Qed.

Lemma escape_char_plain (c : N) : plain (Json.escape_char c) = true.
Proof.
  unfold Json.escape_char.
  repeat match goal with
         | |- context [if ?b then _ else _] =>
             destruct b eqn:?; [try reflexivity|]
         end.
  - unfold plain. cbn [forallb]. unfold printable.
    match goal with H : _ && _ = true |- _ => rewrite H end. reflexivity.
  - apply u_escape_plain, N.ltb_lt. assumption.
  - rewrite plain_app, !u_escape_plain; [reflexivity | |].
    + assert ((c - 65536) mod 1024 < 1024)%N
        by (apply N.mod_upper_bound; discriminate). lia.
    + assert (((c - 65536) / 1024) mod 1024 < 1024)%N
        by (apply N.mod_upper_bound; discriminate). lia.
Qed.

Lemma quote_plain (s : pystr) : plain (Json.quote s) = true.
Proof.
  unfold Json.quote. change (34%N :: ?x) with ([34%N] ++ x).
  rewrite !plain_app. cbn [plain forallb printable]. 
  replace (plain (flat_map Json.escape_char s)) with true; [reflexivity|].
  symmetry. induction s as [|c s IH]; [reflexivity|].
  cbn [flat_map]. rewrite plain_app, escape_char_plain, IH. reflexivity.
Qed.

Lemma uint_digits_plain (u : Decimal.uint) : plain (Json.uint_digits u) = true.
Proof. induction u; cbn [Json.uint_digits plain forallb]; auto. Qed.

Lemma int_repr_plain (z : Z) : plain (Json.int_repr z) = true.
Proof.
  unfold Json.int_repr. destruct (Z.to_int z);
    [|cbn [plain forallb]]; apply uint_digits_plain.
Qed.

Lemma join_plain (sep : pystr) (parts : list pystr) :
  plain sep = true -> Forall (fun p => plain p = true) parts ->
  plain (Json.join sep parts) = true.
Proof.
  intros Hs. induction 1 as [|p parts Hp Hparts IH]; [reflexivity|].
  destruct parts as [|q parts]; [exact Hp|].
  rewrite join_cons2, !plain_app, Hp, Hs, IH. reflexivity.
Qed.

Section WriterExtras.

Variable float_of_str : pystr -> option float.
Variable float_repr : float -> pystr.
Hypothesis float_repr_plain : forall x, plain (float_repr x) = true.

Lemma float_str_plain (x : float) : plain (Json.float_str float_repr x) = true.
Proof.
  unfold Json.float_str.
  destruct (is_nan x); [reflexivity|].
  destruct (x =? infinity)%float; [reflexivity|].
  destruct (x =? neg_infinity)%float; [reflexivity|].
  apply float_repr_plain.
Qed.

Lemma dumps_plain (v : json) : plain (Json.dumps float_repr v) = true.
Proof.
  induction v as [| b | z | x | s | l IH | o IH] using json_nested_ind;
    cbn [Json.dumps].
  - reflexivity.
  - destruct b; reflexivity.
  - apply int_repr_plain.
  - apply float_str_plain.
  - apply quote_plain.
  - change (91%N :: ?x) with ([91%N] ++ x). rewrite !plain_app.
    rewrite join_plain; [reflexivity | reflexivity |].
    apply Forall_map. exact IH.
  - change (123%N :: ?x) with ([123%N] ++ x). rewrite !plain_app.
    rewrite join_plain; [reflexivity | reflexivity |].
    apply Forall_map. revert IH. apply Forall_impl.
    intros [k x] H. cbn [snd] in H.
    change (58%N :: ?x) with ([58%N] ++ x). rewrite !plain_app.
    rewrite quote_plain, H. reflexivity.
Qed.

Lemma dump_cache_plain (d : list (json * series)) :
  plain (dump_cache float_repr d) = true.
Proof.
  unfold dump_cache.
  change (123%N :: ?x) with ([123%N] ++ x). rewrite !plain_app.
  rewrite join_plain; [reflexivity | reflexivity |].
  apply Forall_map, Forall_forall. intros [k v] _.
  change (58%N :: ?x) with ([58%N] ++ x). rewrite !plain_app.
  rewrite quote_plain, dumps_plain. reflexivity.
Qed.

(** X18: the output file is two lines of printable ASCII, each closed
    by a line feed: whatever the identifiers and labels hold, the
    encoder escapes every other character, so no statement spans lines
    and writing the text as UTF-8 cannot fail on a character. *)
Theorem X18_output_is_two_lines_of_ascii (st : state) :
  exists line1 line2,
    written float_repr st = line1 ++ [10%N] ++ line2 ++ [10%N]
    /\ plain line1 = true /\ plain line2 = true.
Proof.
  exists (str "var staticTempCache = " ++ dump_cache float_repr (cache st)
          ++ [59%N]),
         (str "var staticTempNoDv = "
          ++ Json.dumps float_repr (JList (no_dv st)) ++ [59%N]).
  split; [|split].
  - unfold written. rewrite <- !app_assoc. reflexivity.
  - rewrite !plain_app, dump_cache_plain. reflexivity.
  - rewrite !plain_app, dumps_plain. reflexivity.
Qed.

(** X19: the second assignment of the output file reads back as the
    no-data list, in its order, when the identifiers in it are values
    [json.loads] can give back (strings, for one). *)
Theorem X19_no_data_list_round_trip (st : state) :
  Forall (canonical float_of_str float_repr) (no_dv st) ->
  exists literal,
    written float_repr st
    = str "var staticTempCache = " ++ dump_cache float_repr (cache st)
      ++ [59%N; 10%N] ++ str "var staticTempNoDv = " ++ literal
      ++ [59%N; 10%N]
    /\ Json.loads float_of_str literal = Some (JList (no_dv st)).
Proof.
  intros H. exists (Json.dumps float_repr (JList (no_dv st))).
  split; [reflexivity|].
  apply loads_dumps, canonical_list, H.
Qed.

End WriterExtras.

(** The [float.__repr__] of the model writes printable ASCII. *)
Lemma digits_of_plain (z : Z) : plain (PyFloat.digits_of z) = true.
Proof.
  unfold PyFloat.digits_of.
  assert (H : forall u,
    plain ((fix chars (u : Decimal.uint) : pystr :=
              match u with
              | Decimal.Nil => []
              | Decimal.D0 u' => 48%N :: chars u'
              | Decimal.D1 u' => 49%N :: chars u'
              | Decimal.D2 u' => 50%N :: chars u'
              | Decimal.D3 u' => 51%N :: chars u'
              | Decimal.D4 u' => 52%N :: chars u'
              | Decimal.D5 u' => 53%N :: chars u'
              | Decimal.D6 u' => 54%N :: chars u'
              | Decimal.D7 u' => 55%N :: chars u'
              | Decimal.D8 u' => 56%N :: chars u'
              | Decimal.D9 u' => 57%N :: chars u'
              end) u) = true).
  { induction u; cbn [plain forallb]; auto. }
  destruct (Z.to_int z); apply H.
Qed.

Lemma plain_firstn_skipn (n : nat) (s : pystr) :
  plain s = true -> plain (firstn n s) = true /\ plain (skipn n s) = true.
Proof.
  intros H. rewrite <- (firstn_skipn n s), plain_app in H.
  apply andb_true_iff in H. exact H.
Qed.

Lemma zeros_plain (n : Z) : plain (PyFloat.zeros n) = true.
Proof.
  unfold PyFloat.zeros. induction (Z.to_nat n) as [|k IH]; [reflexivity|].
  cbn [repeat plain forallb]. exact IH.
Qed.

Lemma pyfloat_repr_plain (x : float) : plain (PyFloat.repr x) = true.
Proof.
  unfold PyFloat.repr. destruct (Prim2SF x) as [[] | [] | | sgn m e];
    try reflexivity.
  destruct (PyFloat.shortest x m e) as [d p].
  pose proof (digits_of_plain d) as Hd.
  rewrite plain_app. apply andb_true_iff. split; [destruct sgn; reflexivity|].
  destruct (_ || _).
  - rewrite !plain_app.
    destruct (plain_firstn_skipn 1 _ Hd) as [-> H2].
    destruct (skipn 1 (PyFloat.digits_of d)) as [|c t] eqn:E.
    + cbn [plain forallb]. rewrite digits_of_plain.
      destruct (0 <=? p)%Z, (Z.abs p <? 10)%Z; reflexivity.
    + change (46%N :: c :: t) with ([46%N] ++ c :: t).
      rewrite plain_app, H2, digits_of_plain.
      destruct (0 <=? p)%Z, (Z.abs p <? 10)%Z; reflexivity.
  - destruct (p + 1 <=? 0)%Z.
    + rewrite !plain_app, zeros_plain, Hd. reflexivity.
    + destruct (_ <=? _)%Z.
      * rewrite !plain_app, zeros_plain, Hd. reflexivity.
      * destruct (plain_firstn_skipn (Z.to_nat (p + 1)) _ Hd) as [H1 H2].
        change (46%N :: ?t) with ([46%N] ++ t).
        rewrite !plain_app, H1, H2. reflexivity.
Qed.

(** ** The request and the response on the wire *)

Lemma split_at_ampersand (a a' x x' : pystr) :
  ampersand_free a = true -> ampersand_free a' = true ->
  a ++ 38%N :: x = a' ++ 38%N :: x' -> a = a' /\ x = x'.
Proof.
  revert a'. induction a as [|c a IH]; intros [|c' a'];
    cbn [ampersand_free forallb app]; intros Ha Ha' H.
  - inversion H. auto.
  - inversion H; subst. discriminate Ha'.
  - inversion H; subst. discriminate Ha.
  - apply andb_true_iff in Ha, Ha'. inversion H; subst.
    destruct (IH a' (proj2 Ha) (proj2 Ha') H2) as [-> ->]. auto.
Qed.

(** X20: the fields go into the URL as they are, with no escaping, so
    the URL determines the request as long as the identifier and the
    start date hold no [&]. *)
Theorem X20_url_determines_the_request
  (site_no start end_ site_no' start' end_' : pystr) :
  ampersand_free site_no = true -> ampersand_free site_no' = true ->
  ampersand_free start = true -> ampersand_free start' = true ->
  query_url site_no start end_ = query_url site_no' start' end_' ->
  site_no = site_no' /\ start = start' /\ end_ = end_'.
Proof.
  intros Ha Ha' Hb Hb' H. unfold query_url in H.
  apply app_inv_head in H. apply app_inv_head in H.
  change (str "&parameterCd=00010&startDT=")
    with (38%N :: str "parameterCd=00010&startDT=") in H.
  cbn [app] in H.
  destruct (split_at_ampersand _ _ _ _ Ha Ha' H) as [-> H1].
  apply app_inv_head in H1.
  change (str "&endDT=") with (38%N :: str "endDT=") in H1.
  cbn [app] in H1.
  destruct (split_at_ampersand _ _ _ _ Hb Hb' H1) as [-> H2].
  apply app_inv_head in H2. auto.
Qed.

Lemma decode_ascii (s : pystr) :
  forallb (fun c => (c <? 128)%N) s = true ->
  Utf8.decode (Utf8.ascii_bytes s) = Some s.
Proof.
  induction s as [|c s IH]; cbn [forallb]; [reflexivity|].
  rewrite andb_true_iff. intros [Hc Hs].
  cbn [Utf8.ascii_bytes map Utf8.decode].
  fold (Utf8.ascii_bytes s).
  destruct (Byte.of_N c) as [b|] eqn:E.
  - apply Byte.to_of_N in E. rewrite E, Hc, (IH Hs). reflexivity.
  - apply Byte.of_N_None_iff in E. apply N.ltb_lt in Hc. lia.
Qed.

Lemma plain_ascii (s : pystr) :
  plain s = true -> forallb (fun c => (c <? 128)%N) s = true.
Proof.
  unfold plain. rewrite !forallb_forall. intros H c Hc.
  specialize (H c Hc). unfold printable in H.
  apply andb_true_iff in H. destruct H as [_ H].
  apply N.leb_le in H. apply N.ltb_lt. lia.
Qed.

Section WireExtras.

Variable float_of_str : pystr -> option float.
Variable float_repr : float -> pystr.
Hypothesis float_repr_plain : forall x, plain (float_repr x) = true.

(** The text of an object reads back whatever follows its closing
    brace. *)
Lemma scan_once_object (o : list (pystr * json)) :
  canonical float_of_str float_repr (JObj o) ->
  forall fuel rest,
    length (Json.dumps float_repr (JObj o)) < fuel ->
    Json.scan_once float_of_str fuel (Json.dumps float_repr (JObj o) ++ rest)
    = Some (JObj o, rest).
Proof.
  intros Hc fuel rest Hfuel. destruct fuel as [|fuel]; [lia|].
  apply canonical_obj in Hc. destruct Hc as [Hnd Hc].
  cbn [Json.dumps] in *.
  cbn [app Json.scan_once N.eqb Pos.eqb]. rewrite <- app_assoc. cbn [app].
  change (map (fun kv : pystr * json =>
                 let (k, x) := kv in
                 Json.quote k ++ 58%N :: Json.dumps float_repr x) o)
    with (map (member_text float_repr) o) in *.
  destruct o as [|kv o]; [reflexivity|].
  assert (Hread : Forall (fun kv => reads_back float_of_str float_repr
                                               (snd kv)) (kv :: o)).
  { rewrite Forall_forall in *. intros y Hy.
    apply dumps_reads_back, Hc, Hy. }
  assert (Hhead : exists t',
    Json.join "," (map (member_text float_repr) (kv :: o)) = 34%N :: t').
  { destruct (member_text_head float_repr kv) as [t E].
    destruct o; cbn [map]; [cbn [Json.join] | rewrite join_cons2];
      rewrite E; eexists; reflexivity. }
  destruct Hhead as [t' Et]. pose proof Et as Et'.
  apply (f_equal (fun x => x ++ 125%N :: rest)) in Et'. cbn [app] in Et'.
  assert (Hskip :
    Json.skip_ws (Json.join "," (map (member_text float_repr) (kv :: o))
                  ++ 125%N :: rest)
    = Json.join "," (map (member_text float_repr) (kv :: o))
      ++ 125%N :: rest)
    by (rewrite Et'; reflexivity).
  rewrite Hskip. rewrite Et' at 1. cbn [N.eqb Pos.eqb]. rewrite <- Et'.
  rewrite (scan_members_dumps float_of_str float_repr (kv :: o) Hread Hc);
    [reflexivity | discriminate | exact Hnd |].
  cbn [length] in Hfuel. rewrite length_app in Hfuel.
  cbn [length] in Hfuel. lia.
Qed.

Lemma skip_ws_spaces (ws t : pystr) :
  json_space ws = true -> Json.skip_ws (ws ++ t) = Json.skip_ws t.
Proof.
  induction ws as [|c ws IH]; cbn [json_space forallb app Json.skip_ws];
    [reflexivity|].
  rewrite andb_true_iff. intros [-> H]. apply IH, H.
Qed.

Lemma json_space_ascii (ws : pystr) :
  json_space ws = true -> forallb (fun c => (c <? 128)%N) ws = true.
Proof.
  unfold json_space. rewrite !forallb_forall. intros H c Hc.
  specialize (H c Hc). unfold Json.is_ws in H.
  repeat (apply orb_true_iff in H; destruct H as [H | H]);
    apply N.eqb_eq in H; subst c; reflexivity.
Qed.

(** [json.loads] reads the text of an object with white space around
    it. *)
Lemma loads_padded_object (o : list (pystr * json)) (ws1 ws2 : pystr) :
  canonical float_of_str float_repr (JObj o) ->
  json_space ws1 = true -> json_space ws2 = true ->
  Json.loads float_of_str (ws1 ++ Json.dumps float_repr (JObj o) ++ ws2)
  = Some (JObj o).
Proof.
  intros Hc H1 H2. unfold Json.loads.
  assert (Hbody : exists t, Json.dumps float_repr (JObj o) = 123%N :: t)
    by (eexists; reflexivity).
  destruct Hbody as [t E].
  assert (Hbom : match ws1 ++ Json.dumps float_repr (JObj o) ++ ws2 with
                 | [] => false
                 | c :: _ => (c =? 65279)%N
                 end = false).
  { destruct ws1 as [|c ws1]; cbn [app].
    - rewrite E. reflexivity.
    - cbn [json_space forallb] in H1. apply andb_true_iff in H1.
      destruct H1 as [H1 _]. unfold Json.is_ws in H1.
      repeat (apply orb_true_iff in H1; destruct H1 as [H1 | H1]);
        apply N.eqb_eq in H1; subst c; reflexivity. }
  rewrite Hbom, skip_ws_spaces by exact H1.
  assert (Hskip : Json.skip_ws (Json.dumps float_repr (JObj o) ++ ws2)
                  = Json.dumps float_repr (JObj o) ++ ws2)
    by (rewrite E; reflexivity).
  rewrite Hskip, (scan_once_object o Hc).
  - rewrite <- (app_nil_r ws2), skip_ws_spaces by exact H2. reflexivity.
  - rewrite !length_app. lia.
Qed.

(** X21: a body that is the compact JSON text of an object, sent as
    ASCII bytes with any white space before and after it, is decoded to
    that object: [fetch_dv] works on the value the server encoded. *)
Theorem X21_conforming_body_is_decoded
  (t : transport) (n : nat) (site_no start end_ : json)
  (o : list (pystr * json)) (ws1 ws2 : pystr) :
  canonical float_of_str float_repr (JObj o) ->
  json_space ws1 = true -> json_space ws2 = true ->
  t n (Request site_no start end_)
  = Sent (Utf8.ascii_bytes (ws1 ++ Json.dumps float_repr (JObj o) ++ ws2)) ->
  over float_of_str t n (Request site_no start end_) = Body (JObj o)
  /\ fetch_dv float_of_str (over float_of_str t) n site_no start end_
     = extract_dv float_of_str (JObj o).
Proof.
  intros Hc H1 H2 Ht.
  assert (H : over float_of_str t n (Request site_no start end_)
              = Body (JObj o)).
  { unfold over, decoded. rewrite Ht.
    rewrite decode_ascii.
    - rewrite loads_padded_object by assumption. reflexivity.
    - rewrite !forallb_app, (json_space_ascii ws1 H1),
        (json_space_ascii ws2 H2).
      rewrite plain_ascii by (apply dumps_plain, float_repr_plain).
      reflexivity. }
  split; [exact H|]. unfold fetch_dv. rewrite H. reflexivity.
Qed.

(** X22: a body that starts with the UTF-8 byte order mark is never
    accepted: the bytes are decoded with [utf-8], which keeps the mark,
    and [json.loads] refuses a text that starts with it, so [fetch_dv]
    raises the parse error, or the decoding error when the rest is not
    UTF-8. *)
Theorem X22_byte_order_mark_is_refused
  (t : transport) (n : nat) (site_no start end_ : json)
  (rest : list Byte.byte) :
  t n (Request site_no start end_)
  = Sent (Byte.xef :: Byte.xbb :: Byte.xbf :: rest) ->
  fetch_dv float_of_str (over float_of_str t) n site_no start end_
  = Raise (match Utf8.decode rest with
           | Some _ => JSONDecodeError
           | None => UnicodeDecodeError
           end).
Proof.
  intros Ht. unfold fetch_dv, over, decoded. rewrite Ht.
  change (Utf8.decode (Byte.xef :: Byte.xbb :: Byte.xbf :: rest))
    with (option_map (cons 65279%N) (Utf8.decode rest)).
  destruct (Utf8.decode rest) as [text|]; reflexivity.
Qed.

End WireExtras.

(** ** The further properties at the scenarios *)

(** A key is not among the other keys of a literal object. *)
Ltac other_keys :=
  let H := fresh "H" in
  intros H; vm_compute in H;
  repeat (destruct H as [H | H]; [discriminate H|]); exact H.

Lemma X1_witness :
  fetch_dv PyFloat.of_str
    (always (Body (dv_body Scenario.two_observations))) 0
    (JStr "X1") (JStr "2020-01-01") (JStr "2020-01-02")
  = fetch_dv PyFloat.of_str
      (always (Body (dv_body
         [Scenario.observation "5.5" "2020-01-01T00:00:00"]))) 0
      (JStr "X1") (JStr "2020-01-01") (JStr "2020-01-02").
Proof.
  apply (X1_passed_over_observations_leave_no_trace PyFloat.of_str
           (always (Body (dv_body Scenario.two_observations)))
           (always (Body (dv_body
              [Scenario.observation "5.5" "2020-01-01T00:00:00"])))
           0 0 (JStr "X1") (JStr "2020-01-01") (JStr "2020-01-02")
           (dv_body Scenario.two_observations)
           (dv_body [Scenario.observation "5.5" "2020-01-01T00:00:00"])
           Scenario.two_observations).
  - reflexivity.
  - reflexivity.
  - apply dv_body_carries.
  - apply dv_body_carries.
Defined.

Lemma X2_witness :
  exists labels temps,
    fetch_dv PyFloat.of_str
      (always (Body (dv_body Scenario.two_observations))) 0
      (JStr "X1") (JStr "2020-01-01") (JStr "2020-01-02")
    = Ok (labels, temps)
    /\ length labels = 1 /\ length temps = 1.
Proof.
  destruct (X2_fetch_dv_lists PyFloat.of_str
              (always (Body (dv_body Scenario.two_observations))) 0
              (JStr "X1") (JStr "2020-01-01") (JStr "2020-01-02")
              (dv_body Scenario.two_observations) Scenario.two_observations)
    as (labels & temps & Hf & Hl & Ht & _).
  - reflexivity.
  - apply dv_body_carries.
  - constructor; [|constructor]. split; [|split].
    + eexists. reflexivity.
    + eexists. reflexivity.
    + intros e H. vm_compute in H. discriminate H.
  - exists labels, temps. split; [exact Hf|].
    apply Forall2_length in Hl, Ht. split; symmetry; assumption.
Defined.

Lemma X3_witness :
  length [5.5%float] <= length [JStr "2020-01-01"; JStr "2020-01-02"].
Proof.
  apply (X3_never_more_values_than_labels PyFloat.of_str
           (always (Body (dv_body
              [Scenario.observation "5.5" "2020-01-01T00:00:00";
               Scenario.observation "Ice" "2020-01-02T00:00:00"])))
           0 (JStr "X1") (JStr "2020-01-01") (JStr "2020-01-02")).
  vm_compute. reflexivity.
Defined.

Lemma X4_witness :
  visit PyFloat.of_str
    (always (Body (dv_body
       [Scenario.observation "5.5" "2020-01-01T00:00:00";
        Example.null_time])))
    init Scenario.X1
  = Ok (State [] []
          [LogFetching (JStr "X1") (JStr "2020-01-01") (JStr "2020-01-02");
           LogError (JStr "X1") TypeError]
          1).
Proof.
  refine (proj2 (X4_ill_typed_observation_loses_the_series PyFloat.of_str
     (always (Body (dv_body
        [Scenario.observation "5.5" "2020-01-01T00:00:00";
         Example.null_time])))
     init
     [(str "site_no", JStr "X1");
      (str "temp_begin", JStr "2020-01-01");
      (str "temp_end", JStr "2020-01-02");
      (str "lat", JFloat 1);
      (str "lon", JFloat 2)]
     (dv_body [Scenario.observation "5.5" "2020-01-01T00:00:00";
               Example.null_time])
     [Scenario.observation "5.5" "2020-01-01T00:00:00"] []
     Example.null_time [JStr "2020-01-01"] [5.5%float] _ _ _ _ _)).
  - reflexivity.
  - reflexivity.
  - apply dv_body_carries.
  - vm_compute. reflexivity.
  - reflexivity.
Defined.

Lemma X5_witness :
  always (Body (JList [])) 0
    (Request (JStr "X1") (JStr "2020-01-01") (JStr "2020-01-02"))
  = Fails AttributeError
  \/ AttributeError = AttributeError \/ AttributeError = TypeError
  \/ AttributeError = KeyError \/ AttributeError = OverflowError.
Proof.
  apply (X5_fetch_dv_exceptions PyFloat.of_str (always (Body (JList []))) 0
           (JStr "X1") (JStr "2020-01-01") (JStr "2020-01-02")).
  reflexivity.
Defined.

Lemma X6_witness :
  visit PyFloat.of_str
    (always (Body (dv_body
       [JObj [(str "value", JStr " ");
              (str "dateTime", JStr "2020-01-01T00:00:00")];
        JNull])))
    init Scenario.X1
  = Ok (State [] [JStr "X1"]
          [LogFetching (JStr "X1") (JStr "2020-01-01") (JStr "2020-01-02")]
          1).
Proof.
  refine (proj2 (X6_blank_series_is_no_data PyFloat.of_str
     (always (Body (dv_body
        [JObj [(str "value", JStr " ");
               (str "dateTime", JStr "2020-01-01T00:00:00")];
         JNull])))
     init
     [(str "site_no", JStr "X1");
      (str "temp_begin", JStr "2020-01-01");
      (str "temp_end", JStr "2020-01-02");
      (str "lat", JFloat 1);
      (str "lon", JFloat 2)]
     (dv_body
        [JObj [(str "value", JStr " ");
               (str "dateTime", JStr "2020-01-01T00:00:00")];
         JNull])
     [JObj [(str "value", JStr " ");
            (str "dateTime", JStr "2020-01-01T00:00:00")];
      JNull] _ _ _ _)).
  - reflexivity.
  - reflexivity.
  - apply dv_body_carries.
  - reflexivity.
Defined.

Lemma X7_witness :
  exists final,
    visit_all PyFloat.of_str data_once init
      [Scenario.X1; Scenario.X1_without_lat; Scenario.station "X2"]
    = Ok final
    /\ calls final = 2.
Proof.
  eexists. split; [vm_compute; reflexivity|].
  refine (proj1 (X7_one_request_per_eligible_station PyFloat.of_str data_once
     [Scenario.X1; Scenario.X1_without_lat; Scenario.station "X2"] _ _)).
  vm_compute. reflexivity.
Defined.

Lemma X8_witness :
  exists final,
    visit_all PyFloat.of_str data_once init
      [Scenario.X1; Scenario.station "X2"]
    = Ok final
    /\ no_dv final = [JStr "X2"]
    /\ cache final = [(JStr "X1", Series [JStr "2020-01-01"] [5.5%float])].
Proof.
  eexists. split; [vm_compute; reflexivity|].
  destruct (X8_outputs_by_outcome PyFloat.of_str data_once
              [Scenario.X1; Scenario.station "X2"] _ eq_refl)
    as (Hn & _ & Hd).
  split; [exact Hn|]. apply Hd. simpl. repeat constructor.
Defined.

Lemma X9_witness :
  exists final,
    visit_all PyFloat.of_str Example.two_series init
      [Scenario.X1; Scenario.X1]
    = Ok final
    /\ cache_get (cache final) (JStr "X1")
       = Some (Series [JStr "2020-01-03"] [6.5%float]).
Proof.
  eexists. split; [vm_compute; reflexivity|].
  refine (eq_trans (X9_last_series_wins PyFloat.of_str Example.two_series
     [Scenario.X1; Scenario.X1] _ (str "X1") _) _).
  - vm_compute. reflexivity.
  - vm_compute. reflexivity.
Defined.

Lemma X10_witness :
  exists final,
    visit_all PyFloat.of_str data_once init
      [Scenario.X1; Scenario.station "X2"]
    = Ok final
    /\ Forall (fun kv : json * series =>
                 labels (snd kv) <> []
                 /\ length (temps (snd kv)) <= length (labels (snd kv)))
              (cache final).
Proof.
  eexists. split; [vm_compute; reflexivity|].
  apply (X10_cached_series_have_labels PyFloat.of_str data_once
           [Scenario.X1; Scenario.station "X2"]).
  vm_compute. reflexivity.
Defined.

Lemma X11_witness :
  exists final,
    visit_all PyFloat.of_str
      (always (Body (dv_body Scenario.two_observations))) init
      ([Scenario.X1] ++ [Scenario.station "X2"])
    = Ok final
    /\ exists f1 f2,
         visit_all PyFloat.of_str
           (always (Body (dv_body Scenario.two_observations))) init
           [Scenario.X1]
         = Ok f1
         /\ visit_all PyFloat.of_str
              (always (Body (dv_body Scenario.two_observations))) init
              [Scenario.station "X2"]
            = Ok f2
         /\ calls final = calls f1 + calls f2
         /\ log final = log f1 ++ log f2
         /\ no_dv final = no_dv f1 ++ no_dv f2
         /\ (distinct (requested ([Scenario.X1] ++ [Scenario.station "X2"])) ->
             cache final = cache f1 ++ cache f2).
Proof.
  eexists. split; [vm_compute; reflexivity|].
  apply (X11_runs_compose PyFloat.of_str
           (always (Body (dv_body Scenario.two_observations)))
           [Scenario.X1] [Scenario.station "X2"]).
  - intros n r. reflexivity.
  - vm_compute. reflexivity.
Defined.

Lemma X12_witness :
  main PyFloat.of_str PyFloat.repr
    (always (Body (dv_body Scenario.two_observations)))
    (Scenario.text
       "var stationData = [{'site_no':['X1'],'temp_begin':'2020-01-01','temp_end':'2020-01-02','lat':1.0,'lon':2.0}];")
  = Raise TypeError.
Proof.
  apply (X12_unhashable_identifier_ends_the_run PyFloat.of_str PyFloat.repr
           (always (Body (dv_body Scenario.two_observations)))
           _ [] [] Example.list_identifier init
           (JStr "2020-01-01") [] [5.5%float]).
  - vm_compute. reflexivity.
  - reflexivity.
  - reflexivity.
  - reflexivity.
  - vm_compute. reflexivity.
Defined.

Lemma X13_witness :
  main PyFloat.of_str PyFloat.repr
    (always (Body (dv_body Scenario.two_observations)))
    (Scenario.text "var stationData = [null];")
  = Raise AttributeError.
Proof.
  apply (proj1 (X13_station_list_must_hold_objects PyFloat.of_str
                  PyFloat.repr
                  (always (Body (dv_body Scenario.two_observations)))
                  (Scenario.text "var stationData = [null];"))
               [] JNull [] init).
  - vm_compute. reflexivity.
  - reflexivity.
  - discriminate.
Defined.

Lemma X14_witness :
  exists st,
    visit_all PyFloat.of_str (always (Fails (URLError "timed out"))) init
      [Scenario.X1]
    = Ok st
    /\ main PyFloat.of_str PyFloat.repr
         (always (Fails (URLError "timed out")))
         (Scenario.text
            "var stationData = [{'site_no':'X1','temp_begin':'2020-01-01','temp_end':'2020-01-02','lat':1.0,'lon':2.0}];")
       = Ok (Output (written PyFloat.repr st)
                    (log st ++ [LogWrote (length (cache st))
                                         (length (no_dv st))])).
Proof.
  apply (X14_main_survives_every_answer PyFloat.of_str PyFloat.repr
           (always (Fails (URLError "timed out")))).
  - vm_compute. reflexivity.
  - constructor; [|constructor]. split; [eexists|]; reflexivity.
Defined.

Lemma X15_witness :
  load_stations (Json.loads PyFloat.of_str)
    (str "/* list */ var stationData =  [1, 2]  ;  ")
  = Ok (JList [JInt 1; JInt 2]).
Proof.
  refine (X15_loader_trims_the_literal (Json.loads PyFloat.of_str)
            (str "/* list */ var stationData =  [1, 2]  ;  ")
            (str "/* list */ ") (str "  ") (str "[1, 2]") (str "  ")
            (str "  ") _ _ _ _ _ _).
  - split.
    + exists (str "  [1, 2]  ;  "). reflexivity.
    + apply (find_first _ prefix 11). reflexivity.
  - reflexivity.
  - reflexivity.
  - reflexivity.
  - reflexivity.
  - left. reflexivity.
Defined.

Lemma X16_witness :
  load_stations (Json.loads PyFloat.of_str)
    (prefix ++ str " " ++ Json.dumps PyFloat.repr (JList [Scenario.X1])
     ++ [59%N; 10%N])
  = Ok (JList [Scenario.X1]).
Proof.
  refine (X16_loader_reads_the_encoders_text PyFloat.of_str PyFloat.repr
            _ [] (str " ") [] [10%N] [Scenario.X1] _ _ _ _ _ _).
  - split.
    + eexists. reflexivity.
    + intros pre' post' _. apply Nat.le_0_l.
  - reflexivity.
  - reflexivity.
  - reflexivity.
  - unfold Scenario.X1, Scenario.station.
    repeat constructor; other_keys.
  - reflexivity.
Defined.

Lemma X17_witness :
  load_stations (Json.loads PyFloat.of_str)
    (prefix ++ str " " ++ Json.dumps PyFloat.repr (JList [JStr "X1"])
     ++ [59%N] ++ str " var other = 1;")
  = Raise JSONDecodeError.
Proof.
  refine (X17_nothing_may_follow_the_statement PyFloat.of_str PyFloat.repr
            _ [] (str " ") (str " var other = 1;") [JStr "X1"] _ _ _ _ _).
  - split.
    + eexists. reflexivity.
    + intros pre' post' _. apply Nat.le_0_l.
  - reflexivity.
  - reflexivity.
  - repeat constructor.
  - reflexivity.
Defined.

Lemma X18_witness :
  exists line1 line2,
    written PyFloat.repr Example.stored = line1 ++ [10%N] ++ line2 ++ [10%N]
    /\ plain line1 = true /\ plain line2 = true.
Proof.
  exact (X18_output_is_two_lines_of_ascii PyFloat.repr pyfloat_repr_plain
           Example.stored).
Defined.

Lemma X19_witness :
  exists literal,
    written PyFloat.repr Example.stored
    = str "var staticTempCache = "
      ++ dump_cache PyFloat.repr (cache Example.stored)
      ++ [59%N; 10%N] ++ str "var staticTempNoDv = " ++ literal
      ++ [59%N; 10%N]
    /\ Json.loads PyFloat.of_str literal = Some (JList [JStr "X2"]).
Proof.
  apply (X19_no_data_list_round_trip PyFloat.of_str PyFloat.repr
           Example.stored).
  repeat constructor.
Defined.

Lemma X20_witness :
  str "X1" = str "X1" /\ str "2020-01-01" = str "2020-01-01"
  /\ str "2020-01-02" = str "2020-01-02".
Proof.
  apply (X20_url_determines_the_request (str "X1") (str "2020-01-01")
           (str "2020-01-02") (str "X1") (str "2020-01-01")
           (str "2020-01-02")); reflexivity.
Defined.

Lemma X21_witness :
  fetch_dv PyFloat.of_str (over PyFloat.of_str Example.conforming) 0
    (JStr "X1") (JStr "2020-01-01") (JStr "2020-01-02")
  = extract_dv PyFloat.of_str (dv_body Scenario.two_observations).
Proof.
  refine (proj2 (X21_conforming_body_is_decoded PyFloat.of_str PyFloat.repr
                   pyfloat_repr_plain Example.conforming 0
                   (JStr "X1") (JStr "2020-01-01") (JStr "2020-01-02")
                   _ [] [10%N] _ _ _ _)).
  - unfold Scenario.two_observations, Scenario.observation.
    repeat constructor; other_keys.
  - reflexivity.
  - reflexivity.
  - reflexivity.
Defined.

Lemma X22_witness :
  fetch_dv PyFloat.of_str (over PyFloat.of_str Example.marked) 0
    (JStr "X1") (JStr "2020-01-01") (JStr "2020-01-02")
  = Raise JSONDecodeError.
Proof.
  exact (X22_byte_order_mark_is_refused PyFloat.of_str Example.marked 0
           (JStr "X1") (JStr "2020-01-01") (JStr "2020-01-02")
           [Byte.x7b; Byte.x7d] eq_refl).
Defined.
